(** * Daedalus renderer: wallets store, items dropdown and send confirmation

    A shallow embedding of the renderer code of the Daedalus wallet that the
    specification talks about, and the properties proved of it:

    - the [ItemsDropdown] component: [onSearchItemsDropdown], the search
      filter of the items dropdown (lodash [filter] and [escapeRegExp], a
      case-insensitive [RegExp]);
    - [WalletSendAssetsConfirmationDialog.js]: the [disabled] flag of the
      confirm button and the passphrase validator, the confirmation element
      and the Enter key of the passphrase input;
    - [WalletsStore.js]: the wallet list ([all], [_patchWalletRequestWithNewWallet],
      the splice of [_deleteWallet]), the active wallet, the create / restore /
      certificate wizards and the settings of the restore wizard, polling
      pause and resume, [refreshWalletsData], [_restore], [_restoreWalletEnd],
      [_sendMoney] and [_deleteWallet], the transfer of funds, and
      [isValidAddress].

    JavaScript values are embedded as follows.  [null] and [undefined] are
    [None]; a number that the code only counts with is a [Z]; a string is a
    [string] (a [list ascii] where the code looks inside it); an array is a
    [list]; a class with observable fields is a record and a method is a
    function from the record to the record.  An [async] method is a function
    from the store to a resumption ([Async]): the part of the method that runs
    before its first [await], and a continuation for the rest. *)

From Stdlib Require Import List String Ascii ZArith Bool Lia Arith Permutation.
Import ListNotations.

Set Implicit Arguments.
Local Open Scope bool_scope.

(* ================================================================== *)
(** * Part I: the model *)
(* ================================================================== *)

(** ** JavaScript and lodash helpers *)

Module Js.

(** [Array.prototype.find] and lodash [find]: the first element that
    satisfies the predicate, [undefined] when there is none. *)
Definition find {A} (p : A -> bool) (l : list A) : option A := List.find p l.

(** lodash [findIndex]: the index of the first element that satisfies the
    predicate, [-1] when there is none. *)
Fixpoint findIndex {A} (p : A -> bool) (l : list A) : Z :=
  match l with
  | [] => -1
  | x :: l' =>
      if p x then 0
      else let i := findIndex p l' in if (i <? 0)%Z then -1 else (i + 1)%Z
  end%Z.

(** [Array.prototype.indexOf] by a decidable equality. *)
Fixpoint indexOf {A} (eqb : A -> A -> bool) (x : A) (l : list A) : Z :=
  match l with
  | [] => -1
  | y :: l' =>
      if eqb y x then 0
      else let i := indexOf eqb x l' in if (i <? 0)%Z then -1 else (i + 1)%Z
  end%Z.

(** The start index of [Array.prototype.splice]: a negative [start] counts
    from the end, and the result is clamped to [0 .. length]. *)
Definition spliceStart {A} (start : Z) (l : list A) : nat :=
  let len := Z.of_nat (List.length l) in
  if (start <? 0)%Z then Z.to_nat (Z.max (len + start) 0)
  else Z.to_nat (Z.min start len).

(** [array.splice(start, deleteCount, ...items)], the array afterwards. *)
Definition splice {A} (start : Z) (deleteCount : nat) (items : list A)
    (l : list A) : list A :=
  let s := spliceStart start l in
  firstn s l ++ items ++ skipn deleteCount (skipn s l).

(** [array.push(item)], the array afterwards. *)
Definition push {A} (item : A) (l : list A) : list A := l ++ [item].

(** lodash [get(array, index, default)] on an array that may be [null]. *)
Definition get {A} (l : option (list A)) (index : nat) (default : A) : A :=
  match l with
  | None => default
  | Some l => nth index l default
  end.

(** [x || d] on a nullable number: [null] and [0] both give [d]. *)
Definition orZ (x : option Z) (d : Z) : Z :=
  match x with
  | None => d
  | Some z => if (z =? 0)%Z then d else z
  end.

End Js.

(** ** The [ItemsDropdown] component: the search filter *)

Module ItemsDropdown.

(** A JavaScript string, as the sequence of its characters. *)
Definition jsstring := list ascii.

(** The characters of a string literal. *)
Definition chars (s : string) : jsstring := list_ascii_of_string s.

(** ECMAScript's [SyntaxCharacter]: [^ $ \ . * + ? ( ) [ ] { } |].  lodash's
    [reRegExpChar] is the class of the same fourteen characters. *)
Definition isSyntaxCharacter (c : ascii) : bool :=
  existsb (Ascii.eqb c) (chars "^$\.*+?()[]{}|").

Definition backslash : ascii := "\"%char.

(** lodash [escapeRegExp]: [string.replace(reRegExpChar, '\\$&')], a
    backslash before every syntax character. *)
Fixpoint escapeRegExp (s : jsstring) : jsstring :=
  match s with
  | [] => []
  | c :: s' =>
      if isSyntaxCharacter c then backslash :: c :: escapeRegExp s'
      else c :: escapeRegExp s'
  end.

(** The tokens of a pattern: a character that stands for itself (a
    [PatternCharacter], or an [IdentityEscape] of a syntax character), a
    syntax character with its special meaning, and any other escape. *)
Inductive Token : Type :=
| TLiteral (c : ascii)
| TSyntax (c : ascii)
| TEscape (c : ascii).

(** Reading a pattern into tokens; [None] is the [SyntaxError] of a pattern
    that ends in a lone backslash. *)
Fixpoint tokens (p : jsstring) : option (list Token) :=
  match p with
  | [] => Some []
  | c :: p' =>
      if Ascii.eqb c backslash then
        match p' with
        | [] => None
        | d :: p'' =>
            option_map
              (cons (if isSyntaxCharacter d then TLiteral d else TEscape d))
              (tokens p'')
        end
      else
        option_map
          (cons (if isSyntaxCharacter c then TSyntax c else TLiteral c))
          (tokens p')
  end.

(** What one position of a compiled pattern accepts. *)
Inductive Atom : Type :=
| AChar (c : ascii)
| AAnyChar.

(** The fragment of the pattern language that is modelled: sequences of
    literal characters and of the wildcard [.]; any other token ([None]) is
    a construct outside it, or a syntax error. *)
Definition atom (t : Token) : option Atom :=
  match t with
  | TLiteral c => Some (AChar c)
  | TSyntax c => if Ascii.eqb c "."%char then Some AAnyChar else None
  | TEscape _ => None
  end.

Fixpoint atoms (ts : list Token) : option (list Atom) :=
  match ts with
  | [] => Some []
  | t :: ts' =>
      match atom t, atoms ts' with
      | Some a, Some r => Some (a :: r)
      | _, _ => None
      end
  end.

(** [new RegExp(pattern, 'i')]. *)
Definition RegExp_i (pattern : jsstring) : option (list Atom) :=
  match tokens pattern with
  | Some ts => atoms ts
  | None => None
  end.

Definition isLineTerminator (c : ascii) : bool :=
  Ascii.eqb c "010"%char || Ascii.eqb c "013"%char.

Section Matching.

(** ECMAScript's [Canonicalize] under the [i] flag (the upper-case
    mapping of a character); two characters match when their canonical
    forms are the same. *)
Variable Canonicalize : ascii -> ascii.

Definition atomMatches (a : Atom) (c : ascii) : bool :=
  match a with
  | AChar p => Ascii.eqb (Canonicalize p) (Canonicalize c)
  | AAnyChar => negb (isLineTerminator c)
  end.

(** The pattern matches at the start of the input. *)
Fixpoint matchHere (re : list Atom) (s : jsstring) : bool :=
  match re, s with
  | [], _ => true
  | _ :: _, [] => false
  | a :: re', c :: s' => atomMatches a c && matchHere re' s'
  end.

(** [regex.test(s)] for a regular expression without the [g] and [y]
    flags: a match starting at some position of [s]. *)
Fixpoint test (re : list Atom) (s : jsstring) : bool :=
  matchHere re s
  || match s with
     | [] => false
     | _ :: s' => test re s'
     end.

(** The options of the dropdown.  A field is any JavaScript value;
    [regex.test(x)] reads it through [ToString]. *)
Variable Value : Type.
Variable ToString : Value -> jsstring.

Record ItemDropdown : Type := {
  label : Value;
  detail : Value;
  value : Value;
}.

(** The predicate that [onSearchItemsDropdown] gives to [filter] (lines 25
    to 29); [None] when [new RegExp] does not produce a pattern of the
    modelled fragment. *)
Definition optionMatches (searchValue : jsstring) (opt : ItemDropdown)
    : option bool :=
  match RegExp_i (escapeRegExp searchValue) with
  | None => None
  | Some regex =>
      Some (test regex (ToString (label opt))
            || test regex (ToString (detail opt))
            || test regex (ToString (value opt)))
  end.

(** lodash [filter] over an array, with a predicate that may fail. *)
Fixpoint filterM {A} (p : A -> option bool) (l : list A)
    : option (list A) :=
  match l with
  | [] => Some []
  | x :: l' =>
      match p x with
      | None => None
      | Some b =>
          match filterM p l' with
          | None => None
          | Some r => Some (if b then x :: r else r)
          end
      end
  end.

(** [onSearchItemsDropdown] (lines 21 to 30). *)
Definition onSearchItemsDropdown (searchValue : jsstring)
    (options : list ItemDropdown) : option (list ItemDropdown) :=
  filterM (optionMatches searchValue) options.

(** The predicate of the search with the pattern of the characters of the
    search value. *)
Definition keeps (searchValue : jsstring) (o : ItemDropdown) : bool :=
  test (map AChar searchValue) (ToString (label o))
  || test (map AChar searchValue) (ToString (detail o))
  || test (map AChar searchValue) (ToString (value o)).

(** [needle] occurs in [hay] as a literal substring, letter case apart. *)
Definition ciSubstring (needle hay : jsstring) : Prop :=
  exists pre mid post,
    hay = pre ++ mid ++ post
    /\ map Canonicalize mid = map Canonicalize needle.

End Matching.

(** Upper-casing of the ASCII letters, the rest unchanged. *)
Definition asciiUpper (c : ascii) : ascii :=
  let n := nat_of_ascii c in
  if (97 <=? n) && (n <=? 122) then ascii_of_nat (n - 32) else c.

End ItemsDropdown.

(** ** [WalletSendAssetsConfirmationDialog.js]: the confirm button *)

Module ConfirmationDialog.

(** The props and the state that the confirm button reads. *)
Record Props : Type := {
  isHardwareWallet : bool;
  hwDeviceStatus : string;
  isFlight : bool;
  isSubmitting : bool;
}.

Record State : Type := {
  areTermsAccepted : bool;
}.

(** The validator of the [passphrase] field (lines 205 to 216): [[true]] or
    [[false, message]]. *)
Definition passphraseValidator (props : Props) (fieldValue : string)
    : bool * option string :=
  if isHardwareWallet props then (true, None)
  else if String.eqb fieldValue "" then (false, Some "fieldIsRequired"%string)
  else (true, None).

Section Render.

(** [HwDeviceStatuses.VERIFYING_TRANSACTION_SUCCEEDED], a constant of
    [domains/Wallet.js]. *)
Variable VERIFYING_TRANSACTION_SUCCEEDED : string.

(** The [disabled] entry of the second action of [render] (lines 367 to
    372); [passphraseIsValid] is [passphraseField.isValid]. *)
Definition confirmDisabled (props : Props) (state : State)
    (passphraseIsValid : bool) : bool :=
  (negb (isHardwareWallet props) && negb passphraseIsValid)
  || (isHardwareWallet props
      && negb (String.eqb (hwDeviceStatus props)
                          VERIFYING_TRANSACTION_SUCCEEDED))
  || (negb (areTermsAccepted state) && isFlight props).

End Render.

(** What [renderConfirmationElement] returns (lines 263 to 300): the status
    of the hardware wallet, the passphrase input, or [null]. *)
Inductive ConfirmationElement : Type :=
| HardwareWalletStatusElement
| PassphraseInput
| NoElement.

(** [render] calls it with [this.props.isHardwareWallet] (line 563). *)
Definition renderConfirmationElement (props : Props) (state : State)
    : ConfirmationElement :=
  if negb (isFlight props) || (isFlight props && areTermsAccepted state) then
    if isHardwareWallet props then HardwareWalletStatusElement
    else PassphraseInput
  else NoElement.

Section Keyboard.

(** [submitOnEnter(action, event)] of [utils/form.js]: whether, for this
    key event, it calls the action. *)
Variable Event : Type.
Variable submitOnEnter : Event -> bool.

(** [handleSubmitOnEnter] (lines 259 to 261), the [onKeyPress] of the
    passphrase input: whether [this.submit] is called. *)
Definition handleSubmitOnEnter (props : Props) (passphraseIsValid : bool)
    (event : Event) : bool :=
  (isHardwareWallet props || passphraseIsValid) && submitOnEnter event.

End Keyboard.

(** [assetsSeparatorCalculatedHeight] of [render] (lines 375 to 378). *)
Definition assetsSeparatorCalculatedHeight (assetsLength : nat) : Z :=
  let assetsSeparatorBasicHeight := 27%Z in
  match assetsLength with
  | O => assetsSeparatorBasicHeight
  | _ => (assetsSeparatorBasicHeight * Z.of_nat assetsLength * 2 - 18)%Z
  end.

End ConfirmationDialog.

(** ** [WalletsStore.js]: the data of the store *)

Module WalletsStore.

Local Open Scope string_scope.
Local Open Scope list_scope.

(** A JavaScript number that the store only passes on: [NaN], or an integer. *)
Inductive JsNumber : Type :=
| NaN
| Num (z : Z).

(** An [Error] object; [syscall] is the field that
    [_updateGeneratingCertificateError] reads. *)
Record JsError : Type := {
  message : string;
  syscall : option string;
}.

Definition Error (msg : string) : JsError :=
  {| message := msg; syscall := None |}.

(** [domains/Wallet.js] is not among the sources: a wallet is the record of
    the fields that the store reads. *)
Record Wallet : Type := {
  id : string;
  name : string;
  amount : Z;
  isLegacy : bool;
  isHardwareWallet : bool;
  isNotResponding : bool;
  syncStateStatus : string;
}.

Definition Wallet_eqb (a b : Wallet) : bool :=
  String.eqb (id a) (id b) && String.eqb (name a) (name b)
  && Z.eqb (amount a) (amount b)
  && Bool.eqb (isLegacy a) (isLegacy b)
  && Bool.eqb (isHardwareWallet a) (isHardwareWallet b)
  && Bool.eqb (isNotResponding a) (isNotResponding b)
  && String.eqb (syncStateStatus a) (syncStateStatus b).

(** [HardwareWalletExtendedPublicKeyResponse]. *)
Record ExtendedPublicKey : Type := {
  publicKeyHex : string;
  chainCodeHex : string;
}.

(** Route parameters, as [matchRoute] returns them and [buildRoute] takes them. *)
Definition RouteParams := list (string * string).

Fixpoint param (key : string) (ps : RouteParams) : option string :=
  match ps with
  | [] => None
  | (k, v) :: ps' => if String.eqb k key then Some v else param key ps'
  end.

(** What the store imports from modules that are not among the sources:
    constants, the routing and formatting utilities, [Wallet.update], and the
    [parseInt] of the language. *)
Class Imports : Type := {
  (* routes-config.js *)
  ROUTES_WALLETS_ROOT : string;
  ROUTES_WALLETS_ADD : string;
  ROUTES_WALLETS_PAGE : string;
  ROUTES_WALLETS_SEND : string;
  (* utils/routing.js: [matchRoute] returns the parameters or [false] *)
  matchRoute : string -> string -> option RouteParams;
  buildRoute : string -> option RouteParams -> string;
  (* utils/formatters.js *)
  formattedWalletAmount : Z -> string;
  (* [Buffer.from(hex, 'hex')] and utils/hardwareWalletUtils.js *)
  Buffer_from_hex : string -> list nat;
  bech32EncodePublicKey : list nat -> string;
  (* domains/Wallet.js *)
  NOT_RESPONDING : string;
  Wallet_update : Wallet -> Wallet -> Wallet;
  (* config/walletRestoreConfig.js *)
  WALLET_KINDS_DAEDALUS : string;
  WALLET_KINDS_YOROI : string;
  WALLET_KINDS_HARDWARE : string;
  DAEDALUS_SHELLEY_15_WORD : string;
  DAEDALUS_SHELLEY_24_WORD : string;
  DAEDALUS_BYRON_27_WORD : string;
  YOROI_BYRON_15_WORD : string;
  HARDWARE_LEDGER : string;
  RESTORE_WALLET_STEPS_length : Z;
  (* utils/crypto.js: [{ passphrase, scrambledInput }] *)
  getScrambledInput : list string -> string * string;
  (* [parseInt(s, 10)] *)
  parseInt10 : string -> JsNumber;
}.

(** The requests of the store other than [walletsRequest]; the store only
    executes and resets them. *)
Inductive RequestName : Type :=
| sendMoneyRequest
| deleteWalletRequest
| restoreDaedalusRequest
| restoreByronRandomWalletRequest
| restoreByronIcarusWalletRequest
| restoreByronTrezorWalletRequest
| restoreByronLedgerWalletRequest
| getWalletRecoveryPhraseFromCertificateRequest.

(** Synchronous calls that leave the store: action triggers, resets of
    requests, and assignments to fields of other stores. *)
Inductive Effect : Type :=
| GoToRoute (route : string) (params : option RouteParams)
| CloseActiveDialog
| Reset (request : RequestName)
| UnsetWalletLocalData (walletId : string)
| RefreshWalletsDataSuccess
| SetAddressesRequests (walletIds : list string)
| RefreshAddresses
| SetTransactionsRequests (walletIds : list string)
| RefreshTransactionData.

(** [walletsRequest]: the fields of the [Request] object that the store reads. *)
Record Request : Type := {
  result : option (list Wallet);
  wasExecuted : bool;
  isExecuting : bool;
}.

(** The observable fields of the store, grouped as the class groups them. *)
Record ActiveWallet : Type := {
  active : option Wallet;
  activeValue : option string;
  activePublicKey : option string;
}.

Record CreateWallet : Type := {
  createWalletStep : option Z;
  createWalletShowAbortConfirmation : bool;
}.

Record RestoreWallet : Type := {
  restoreWalletStep : option Z;
  restoreWalletShowAbortConfirmation : bool;
  walletKind : option string;
  walletKindDaedalus : option string;
  walletKindYoroi : option string;
  walletKindHardware : option string;
  mnemonics : list string;
  walletName : string;
  spendingPassword : string;
  repeatPassword : string;
  restoredWallet : option Wallet;
}.

(** [certificateTemplate] is [null] at first, a template name once chosen,
    and [false] after a reset. *)
Inductive Template : Type :=
| TemplateNull
| TemplateFalse
| TemplateName (selectedTemplate : string).

Record PaperWallet : Type := {
  walletCertificatePassword : option string;
  walletCertificateAddress : option string;
  walletCertificateRecoveryPhrase : option string;
  generatingCertificateInProgress : bool;
  (* [null] or a [WalletPaperWalletOpenPdfError] *)
  generatingCertificateError : bool;
  certificateStep : option Z;
  certificateTemplate : Template;
  additionalMnemonicWords : option string;
}.

(** The fields of other stores that this store reads or assigns
    ([this.stores.app], [networkStatus], [addresses], [hardwareWallets]). *)
Record Stores : Type := {
  currentRoute : string;
  isConnected : bool;
  lastGeneratedAddress : option string;
  hardwareWalletsConnectionData : string -> option ExtendedPublicKey;
}.

Record Store : Type := {
  walletsRequest : Request;
  activeWallet : ActiveWallet;
  createWallet : CreateWallet;
  restoreWallet : RestoreWallet;
  paperWallet : PaperWallet;
  isAddressFromSameWallet : bool;
  isDeleting : bool;
  _pollingBlocked : bool;
  stores : Stores;
  (* the effects issued so far, oldest first *)
  effects : list Effect;
}.

(** Field assignments. *)
Definition withWalletsRequest (r : Request) (st : Store) : Store :=
  {| walletsRequest := r; activeWallet := activeWallet st;
     createWallet := createWallet st; restoreWallet := restoreWallet st;
     paperWallet := paperWallet st;
     isAddressFromSameWallet := isAddressFromSameWallet st;
     isDeleting := isDeleting st; _pollingBlocked := _pollingBlocked st;
     stores := stores st; effects := effects st |}.

Definition withActiveWallet (a : ActiveWallet) (st : Store) : Store :=
  {| walletsRequest := walletsRequest st; activeWallet := a;
     createWallet := createWallet st; restoreWallet := restoreWallet st;
     paperWallet := paperWallet st;
     isAddressFromSameWallet := isAddressFromSameWallet st;
     isDeleting := isDeleting st; _pollingBlocked := _pollingBlocked st;
     stores := stores st; effects := effects st |}.

Definition withCreateWallet (c : CreateWallet) (st : Store) : Store :=
  {| walletsRequest := walletsRequest st; activeWallet := activeWallet st;
     createWallet := c; restoreWallet := restoreWallet st;
     paperWallet := paperWallet st;
     isAddressFromSameWallet := isAddressFromSameWallet st;
     isDeleting := isDeleting st; _pollingBlocked := _pollingBlocked st;
     stores := stores st; effects := effects st |}.

Definition withRestoreWallet (r : RestoreWallet) (st : Store) : Store :=
  {| walletsRequest := walletsRequest st; activeWallet := activeWallet st;
     createWallet := createWallet st; restoreWallet := r;
     paperWallet := paperWallet st;
     isAddressFromSameWallet := isAddressFromSameWallet st;
     isDeleting := isDeleting st; _pollingBlocked := _pollingBlocked st;
     stores := stores st; effects := effects st |}.

Definition withPaperWallet (p : PaperWallet) (st : Store) : Store :=
  {| walletsRequest := walletsRequest st; activeWallet := activeWallet st;
     createWallet := createWallet st; restoreWallet := restoreWallet st;
     paperWallet := p;
     isAddressFromSameWallet := isAddressFromSameWallet st;
     isDeleting := isDeleting st; _pollingBlocked := _pollingBlocked st;
     stores := stores st; effects := effects st |}.

Definition withIsAddressFromSameWallet (b : bool) (st : Store) : Store :=
  {| walletsRequest := walletsRequest st; activeWallet := activeWallet st;
     createWallet := createWallet st; restoreWallet := restoreWallet st;
     paperWallet := paperWallet st;
     isAddressFromSameWallet := b;
     isDeleting := isDeleting st; _pollingBlocked := _pollingBlocked st;
     stores := stores st; effects := effects st |}.

Definition withIsDeleting (b : bool) (st : Store) : Store :=
  {| walletsRequest := walletsRequest st; activeWallet := activeWallet st;
     createWallet := createWallet st; restoreWallet := restoreWallet st;
     paperWallet := paperWallet st;
     isAddressFromSameWallet := isAddressFromSameWallet st;
     isDeleting := b; _pollingBlocked := _pollingBlocked st;
     stores := stores st; effects := effects st |}.

Definition withPollingBlocked (b : bool) (st : Store) : Store :=
  {| walletsRequest := walletsRequest st; activeWallet := activeWallet st;
     createWallet := createWallet st; restoreWallet := restoreWallet st;
     paperWallet := paperWallet st;
     isAddressFromSameWallet := isAddressFromSameWallet st;
     isDeleting := isDeleting st; _pollingBlocked := b;
     stores := stores st; effects := effects st |}.

Definition withStores (s : Stores) (st : Store) : Store :=
  {| walletsRequest := walletsRequest st; activeWallet := activeWallet st;
     createWallet := createWallet st; restoreWallet := restoreWallet st;
     paperWallet := paperWallet st;
     isAddressFromSameWallet := isAddressFromSameWallet st;
     isDeleting := isDeleting st; _pollingBlocked := _pollingBlocked st;
     stores := s; effects := effects st |}.

(** An effect leaves the store: it is appended to the log. *)
Definition emit (e : Effect) (st : Store) : Store :=
  {| walletsRequest := walletsRequest st; activeWallet := activeWallet st;
     createWallet := createWallet st; restoreWallet := restoreWallet st;
     paperWallet := paperWallet st;
     isAddressFromSameWallet := isAddressFromSameWallet st;
     isDeleting := isDeleting st; _pollingBlocked := _pollingBlocked st;
     stores := stores st; effects := effects st ++ [e] |}.

(** [this.stores.addresses.lastGeneratedAddress = null]. *)
Definition clearLastGeneratedAddress (st : Store) : Store :=
  withStores
    {| currentRoute := currentRoute (stores st);
       isConnected := isConnected (stores st);
       lastGeneratedAddress := None;
       hardwareWalletsConnectionData :=
         hardwareWalletsConnectionData (stores st) |} st.

(** ** [WalletsStore.js]: getters and synchronous actions *)

Section Actions.

Context {imports : Imports}.

Definition isSome {A} (o : option A) : bool :=
  match o with Some _ => true | None => false end.

(** The getters (lines 939 to 994).  [get all] is
    [[...this.allWallets, ...this.allLegacyWallets]]. *)
Definition allWallets (st : Store) : list Wallet :=
  match result (walletsRequest st) with
  | Some r => filter (fun w => negb (isLegacy w)) r
  | None => []
  end.

Definition allLegacyWallets (st : Store) : list Wallet :=
  match result (walletsRequest st) with
  | Some r => filter (fun w => isLegacy w) r
  | None => []
  end.

Definition all (st : Store) : list Wallet :=
  allWallets st ++ allLegacyWallets st.

Definition hasActiveWallet (st : Store) : bool :=
  isSome (active (activeWallet st)).

Definition hasLoadedWallets (st : Store) : bool :=
  wasExecuted (walletsRequest st).

Definition hasAnyWallets (st : Store) : bool :=
  match result (walletsRequest st) with
  | None => false
  | Some r => wasExecuted (walletsRequest st) && (0 <? List.length r)%nat
  end.

Definition hasAnyLoaded (st : Store) : bool :=
  (0 <? List.length (all st))%nat.

Definition first (st : Store) : option Wallet :=
  if (0 <? List.length (all st))%nat then nth_error (all st) 0 else None.

Definition getWalletById (walletId : string) (st : Store) : option Wallet :=
  Js.find (fun w => String.eqb (id w) walletId) (all st).

Definition getWalletRoute (walletId : string) (page : string) : string :=
  buildRoute ROUTES_WALLETS_PAGE (Some [("id", walletId); ("page", page)]).

(** [_onRouteChange] (lines 1296 to 1304), the listener of this store on
    [router.goToRoute]. *)
Definition _onRouteChange (route : string) (params : option RouteParams)
    (st : Store) : Store :=
  if isSome (matchRoute ROUTES_WALLETS_SEND (buildRoute route params)) then
    withIsAddressFromSameWallet false (emit (Reset sendMoneyRequest) st)
  else st.

(** [this.actions.router.goToRoute.trigger({ route, params })]: the trigger
    leaves the store, and the store's own listener runs. *)
Definition goToRoute_trigger (route : string) (params : option RouteParams)
    (st : Store) : Store :=
  _onRouteChange route params (emit (GoToRoute route params) st).

Definition goToWalletRoute (walletId : string) (st : Store) : Store :=
  goToRoute_trigger (getWalletRoute walletId "summary") None st.

Definition _canRedirectToWallet (st : Store) : bool :=
  let currentRoute := currentRoute (stores st) in
  let isRootRoute := matchRoute ROUTES_WALLETS_ROOT currentRoute in
  let isAddWalletRoute := matchRoute ROUTES_WALLETS_ADD currentRoute in
  isSome isRootRoute || isSome isAddWalletRoute.

(** lodash [isEqual(this.active, newActiveWallet)]: [this.active] is [null]
    or a wallet and [newActiveWallet] is [undefined] or a wallet, and [null]
    is not equal to [undefined]. *)
Definition isEqual (a b : option Wallet) : bool :=
  match a, b with
  | Some x, Some y => Wallet_eqb x y
  | _, _ => false
  end.

(** [activeWalletId !== walletId] for a nullable [activeWalletId]. *)
Definition differs (activeWalletId : option string) (walletId : string) : bool :=
  match activeWalletId with
  | None => true
  | Some i => negb (String.eqb i walletId)
  end.

(** [_setActiveWallet] (lines 1241 to 1287).  [this.active.update] gives the
    active wallet the fields of its argument; were the active wallet also an
    element of the result, the element would change with it, which no
    property below depends on. *)
Definition _setActiveWallet (walletId : string) (st : Store) : Store :=
  if hasAnyWallets st then
    let this_active := active (activeWallet st) in
    let activeWalletId := option_map id this_active in
    let newActiveWallet :=
      Js.find (fun wallet => String.eqb (id wallet) walletId) (all st) in
    let st :=
      match newActiveWallet with
      | Some n =>
          if match this_active with
             | None => true
             | Some a => negb (isNotResponding a)
             end && isNotResponding n
          then goToRoute_trigger ROUTES_WALLETS_PAGE
                 (Some [("id", id n); ("page", "summary")]) st
          else st
      | None => st
      end in
    let hasActiveWalletBeenChanged := differs activeWalletId walletId in
    let hasActiveWalletBeenUpdated := negb (isEqual this_active newActiveWallet) in
    if hasActiveWalletBeenChanged then
      (* Active wallet has been replaced or removed *)
      let st := clearLastGeneratedAddress st in
      match newActiveWallet with
      | Some a =>
          let value := Some (formattedWalletAmount (amount a)) in
          if isHardwareWallet a then
            match hardwareWalletsConnectionData (stores st) (id a) with
            | Some extendedPublicKey =>
                let extendedPublicKeyHex :=
                  (publicKeyHex extendedPublicKey
                   ++ chainCodeHex extendedPublicKey)%string in
                let xpub := Buffer_from_hex extendedPublicKeyHex in
                let key := bech32EncodePublicKey xpub in
                withActiveWallet
                  {| active := Some a; activeValue := value;
                     activePublicKey :=
                       if String.eqb key "" then None else Some key |} st
            | None =>
                withActiveWallet
                  {| active := Some a; activeValue := value;
                     activePublicKey := activePublicKey (activeWallet st) |} st
            end
          else
            withActiveWallet
              {| active := Some a; activeValue := value;
                 activePublicKey := None |} st
      | None =>
          withActiveWallet
            {| active := None;
               activeValue := activeValue (activeWallet st);
               activePublicKey := activePublicKey (activeWallet st) |} st
      end
    else if hasActiveWalletBeenUpdated then
      (* Active wallet has been updated *)
      match this_active, newActiveWallet with
      | Some a, Some n =>
          withActiveWallet
            {| active := Some (Wallet_update a n);
               activeValue := activeValue (activeWallet st);
               activePublicKey := activePublicKey (activeWallet st) |} st
      | _, _ => st
      end
    else st
  else st.

(** [_unsetActiveWallet] (lines 1289 to 1294). *)
Definition _unsetActiveWallet (st : Store) : Store :=
  clearLastGeneratedAddress
    (withActiveWallet
       {| active := None; activeValue := None; activePublicKey := None |} st).

(** [_updateActiveWalletOnRouteChanges] (lines 1082 to 1115), the reaction
    on route changes.  [this.all[0]] is read only where [hasAnyWalletLoaded]
    holds, so the list is not empty there. *)
Definition _updateActiveWalletOnRouteChanges (st : Store) : Store :=
  let currentRoute := currentRoute (stores st) in
  let hasAnyWalletLoaded := hasAnyLoaded st in
  let isWalletAddPage := matchRoute ROUTES_WALLETS_ADD currentRoute in
  (* There are not wallets loaded (yet) -> unset active and return *)
  if isSome isWalletAddPage || negb hasAnyWalletLoaded then
    _unsetActiveWallet st
  else
    match matchRoute (ROUTES_WALLETS_ROOT ++ "/:id(*page)")%string
            currentRoute with
    | Some match_ =>
        (* We have a route for a specific wallet -> let's try to find it *)
        let walletForCurrentRoute :=
          Js.find (fun w =>
                     match param "id" match_ with
                     | Some i => String.eqb (id w) i
                     | None => false
                     end) (all st) in
        match walletForCurrentRoute with
        | Some w =>
            (* The wallet exists, we are done *)
            _setActiveWallet (id w) st
        | None =>
            if hasAnyWalletLoaded then
              (* There is no wallet with given id -> pick first wallet *)
              match all st with
              | w0 :: _ =>
                  let st := _setActiveWallet (id w0) st in
                  match active (activeWallet st) with
                  | Some a => goToWalletRoute (id a) st
                  | None => st
                  end
              | [] => st
              end
            else st
        end
    | None =>
        if _canRedirectToWallet st then
          (* The route does not specify any wallet -> pick first wallet *)
          let st :=
            if negb (hasActiveWallet st) && hasAnyWalletLoaded then
              match all st with
              | w0 :: _ => _setActiveWallet (id w0) st
              | [] => st
              end
            else st in
          match active (activeWallet st) with
          | Some a => goToWalletRoute (id a) st
          | None => st
          end
        else st
    end.

(** *** The wallet list *)

(** The function that [_patchWalletRequestWithNewWallet] gives to
    [walletsRequest.patch] (lines 1060 to 1074), on a result that is an
    array. *)
Definition patchWithNewWallet (wallet : Wallet) (result : list Wallet)
    : list Wallet :=
  (* Only add the new wallet if it does not exist yet in the result! *)
  if negb (isSome (Js.find (fun w => String.eqb (id w) (id wallet)) result)) then
    if isLegacy wallet then
      (* Legacy wallets are always added to the end of the list! *)
      Js.push wallet result
    else
      let index := Js.findIndex (fun w => isLegacy w) result in
      if (index >=? 0)%Z then Js.splice index 0 [wallet] result
      else Js.push wallet result
  else result.

(** The function that [_deleteWallet] gives to [walletsRequest.patch] (lines
    676 to 678). *)
Definition spliceDeletedWallet (indexOfWalletToDelete : Z)
    (result : list Wallet) : list Wallet :=
  Js.splice indexOfWalletToDelete 1 [] result.

(** *** The wizards (lines 453 to 547 and 1572 to 1613) *)

Definition _createWalletBegin (st : Store) : Store :=
  withCreateWallet
    {| createWalletStep := Some 0%Z;
       createWalletShowAbortConfirmation := false |} st.

Definition _createWalletChangeStep (isBack : bool) (st : Store) : Store :=
  let currrentCreateWalletStep :=
    Js.orZ (createWalletStep (createWallet st)) 0 in
  withCreateWallet
    {| createWalletStep :=
         Some (if isBack then currrentCreateWalletStep - 1
               else currrentCreateWalletStep + 1)%Z;
       createWalletShowAbortConfirmation := false |} st.

Definition _createWalletClose (st : Store) : Store :=
  withCreateWallet
    {| createWalletStep := None;
       createWalletShowAbortConfirmation := false |} st.

Definition _createWalletAbort (st : Store) : Store :=
  withCreateWallet
    {| createWalletStep := createWalletStep (createWallet st);
       createWalletShowAbortConfirmation := true |} st.

Definition setRestoreStep (step : option Z) (showAbort : bool)
    (r : RestoreWallet) : RestoreWallet :=
  {| restoreWalletStep := step;
     restoreWalletShowAbortConfirmation := showAbort;
     walletKind := walletKind r;
     walletKindDaedalus := walletKindDaedalus r;
     walletKindYoroi := walletKindYoroi r;
     walletKindHardware := walletKindHardware r;
     mnemonics := mnemonics r;
     walletName := walletName r;
     spendingPassword := spendingPassword r;
     repeatPassword := repeatPassword r;
     restoredWallet := restoredWallet r |}.

Definition _restoreWalletBegin (st : Store) : Store :=
  withRestoreWallet (setRestoreStep (Some 0%Z) false (restoreWallet st)) st.

Definition _restoreWalletResetRequests (st : Store) : Store :=
  emit (Reset getWalletRecoveryPhraseFromCertificateRequest)
    (emit (Reset restoreByronTrezorWalletRequest)
       (emit (Reset restoreByronRandomWalletRequest)
          (emit (Reset restoreByronLedgerWalletRequest)
             (emit (Reset restoreByronIcarusWalletRequest)
                (emit (Reset restoreDaedalusRequest) st))))).

Definition _restoreWalletResetData (st : Store) : Store :=
  withRestoreWallet
    {| restoreWalletStep := None;
       restoreWalletShowAbortConfirmation := false;
       walletKind := None;
       walletKindDaedalus := None;
       walletKindYoroi := None;
       walletKindHardware := None;
       mnemonics := [];
       walletName := "";
       spendingPassword := "";
       repeatPassword := "";
       restoredWallet := None |} st.

Definition _restoreWalletChangeStep (isBack : bool) (st : Store) : Store :=
  (* Reset restore requests to clear previous errors *)
  let currrentRestoreWalletStep :=
    Js.orZ (restoreWalletStep (restoreWallet st)) 0 in
  let st := _restoreWalletResetRequests st in
  let st :=
    match restoreWalletStep (restoreWallet st) with
    | None => _restoreWalletResetData st
    | Some _ => st
    end in
  withRestoreWallet
    (setRestoreStep
       (Some (if isBack then currrentRestoreWalletStep - 1
              else currrentRestoreWalletStep + 1)%Z)
       false (restoreWallet st)) st.

Definition _restoreWalletClose (st : Store) : Store :=
  let r := restoreWallet st in
  let shouldDisplayAbortAlert :=
    (negb (List.length (mnemonics r) =? 0)%nat
     || negb (String.length (walletName r) =? 0)%nat
     || negb (String.length (spendingPassword r) =? 0)%nat)
    && match restoreWalletStep r with
       | None => false
       | Some step => (step <? RESTORE_WALLET_STEPS_length - 1)%Z
       end in
  if shouldDisplayAbortAlert && negb (restoreWalletShowAbortConfirmation r) then
    withRestoreWallet (setRestoreStep (restoreWalletStep r) true r) st
  else
    emit CloseActiveDialog
      (_restoreWalletResetData (_restoreWalletResetRequests st)).

Definition _restoreWalletCancelClose (st : Store) : Store :=
  withRestoreWallet
    (setRestoreStep (restoreWalletStep (restoreWallet st)) false
       (restoreWallet st)) st.

(** [_updateGeneratingCertificateError(error)]. *)
Definition _updateGeneratingCertificateError (error : option JsError)
    (st : Store) : Store :=
  let p := paperWallet st in
  withPaperWallet
    {| walletCertificatePassword := walletCertificatePassword p;
       walletCertificateAddress := walletCertificateAddress p;
       walletCertificateRecoveryPhrase := walletCertificateRecoveryPhrase p;
       generatingCertificateInProgress := generatingCertificateInProgress p;
       generatingCertificateError :=
         match error with
         | Some e =>
             match syscall e with
             | Some s => String.eqb s "open"
             | None => false
             end
         | None => false
         end;
       certificateStep := certificateStep p;
       certificateTemplate := certificateTemplate p;
       additionalMnemonicWords := additionalMnemonicWords p |} st.

Definition _updateCertificateStep (isBack : bool) (st : Store) : Store :=
  let st := _updateGeneratingCertificateError None st in
  let p := paperWallet st in
  let currrentCertificateStep := Js.orZ (certificateStep p) 0 in
  withPaperWallet
    {| walletCertificatePassword := walletCertificatePassword p;
       walletCertificateAddress := walletCertificateAddress p;
       walletCertificateRecoveryPhrase := walletCertificateRecoveryPhrase p;
       generatingCertificateInProgress := generatingCertificateInProgress p;
       generatingCertificateError := generatingCertificateError p;
       certificateStep :=
         Some (if isBack then currrentCertificateStep - 1
               else currrentCertificateStep + 1)%Z;
       certificateTemplate := certificateTemplate p;
       additionalMnemonicWords := additionalMnemonicWords p |} st.

Definition _setCertificateTemplate (selectedTemplate : string) (st : Store)
    : Store :=
  let p := paperWallet st in
  _updateCertificateStep false
    (withPaperWallet
       {| walletCertificatePassword := walletCertificatePassword p;
          walletCertificateAddress := walletCertificateAddress p;
          walletCertificateRecoveryPhrase := walletCertificateRecoveryPhrase p;
          generatingCertificateInProgress := generatingCertificateInProgress p;
          generatingCertificateError := generatingCertificateError p;
          certificateStep := certificateStep p;
          certificateTemplate := TemplateName selectedTemplate;
          additionalMnemonicWords := additionalMnemonicWords p |} st).

Definition _resetCertificateData (st : Store) : Store :=
  let p := paperWallet st in
  _updateGeneratingCertificateError None
    (withPaperWallet
       {| walletCertificatePassword := None;
          walletCertificateAddress := None;
          walletCertificateRecoveryPhrase := None;
          generatingCertificateInProgress := false;
          generatingCertificateError := generatingCertificateError p;
          certificateStep := None;
          certificateTemplate := TemplateFalse;
          additionalMnemonicWords := additionalMnemonicWords p |} st).

Definition _closeCertificateGeneration (st : Store) : Store :=
  _resetCertificateData (emit CloseActiveDialog st).

Definition _finishCertificate (st : Store) : Store :=
  _closeCertificateGeneration (_updateGeneratingCertificateError None st).

(** *** Polling *)

(** [_resumePolling] (lines 1321 to 1323). *)
Definition _resumePolling (st : Store) : Store :=
  withPollingBlocked false st.

End Actions.

(** ** [WalletsStore.js]: asynchronous actions *)

(** The arguments of the requests. *)
Record WalletSummaryAsset : Type := {
  policyId : string;
  assetName : string;
}.

Record ApiAsset : Type := {
  policy_id : string;
  asset_name : string;
  quantity : JsNumber;
}.

Module SendMoney.
Record Params : Type := {
  receiver : string;
  amount : string;
  passphrase : string;
  assets : option (list WalletSummaryAsset);
  assetsAmounts : option (list string);
}.
End SendMoney.

Module CreateTransaction.
Record Args : Type := {
  address : string;
  amount : JsNumber;
  passphrase : string;
  walletId : string;
  isLegacy : bool;
  assets : option (list ApiAsset);
}.
End CreateTransaction.

Module RestoreData.
Record Args : Type := {
  recoveryPhrase : list string;
  walletName : string;
  spendingPassword : string;
}.
End RestoreData.

(** A function given to [walletsRequest.patch]: it edits the result in
    place, and throws a [TypeError] on a result that is [null]. *)
Definition PatchFunction : Type := option (list Wallet) -> JsError + list Wallet.

Definition onArray (f : list Wallet -> list Wallet) : PatchFunction :=
  fun result =>
    match result with
    | Some r => inr (f r)
    | None => inl (Error "TypeError")
    end.

(** What an [await] of the store waits for, with the type of the value that
    the store reads from it.  [Execute_*] issues a request and waits for its
    promise; [WalletsRequest_settled] waits for a [walletsRequest] that is
    already executing. *)
Inductive Call : Type -> Type :=
| WalletsRequest_execute : Call (option (list Wallet))
| WalletsRequest_settled : Call unit
| WalletsRequest_patch (modify : PatchFunction) : Call unit
| Execute_createTransaction (args : CreateTransaction.Args) : Call unit
| Execute_restore (request : RequestName) (data : RestoreData.Args)
    : Call (option Wallet)
| Execute_getWalletRecoveryPhraseFromCertificate
    (passphrase scrambledInput : string) : Call (list string)
| Execute_deleteWallet (walletId : string) (isLegacy : bool) : Call unit
| Trigger_refreshWalletsLocalData : Call unit
| HardwareWallets_unsetHardwareWalletLocalData (walletId : string) : Call unit.

Inductive Outcome (T : Type) : Type :=
| Fulfilled (v : T)
| Rejected (e : JsError).

Arguments Fulfilled {T} v.
Arguments Rejected {T} e.

(** An [async] method after it was called on a store: it returned, or threw,
    or it is suspended at an [await] with the store as it left it and a
    continuation that takes the outcome of the awaited promise and the store
    as it is found on resumption.  [Yield]: the method awaits a promise that
    is settled already (that of an [async] method of the store which has
    returned); it gives way to the pending jobs and goes on with the store
    as they leave it.  [Spawn]: an [async] method was called without
    [await]; the callee is left suspended and the caller goes on. *)
Inductive Async : Type :=
| Return (st : Store)
| Throw (st : Store) (e : JsError)
| Await (T : Type) (st : Store) (c : Call T) (k : Outcome T -> Store -> Async)
| Yield (st : Store) (k : Store -> Async)
| Spawn (callee : Async) (rest : Async).

(** [t; f]: the statements [f] after the statements [t]. *)
Fixpoint andThen (t : Async) (f : Store -> Async) : Async :=
  match t with
  | Return st => f st
  | Throw st e => Throw st e
  | Await st c k => Await st c (fun o st' => andThen (k o st') f)
  | Yield st k => Yield st (fun st' => andThen (k st') f)
  | Spawn callee rest => Spawn callee (andThen rest f)
  end.

(** [try { t } catch (error) { h }]. *)
Fixpoint tryCatch (t : Async) (h : JsError -> Store -> Async) : Async :=
  match t with
  | Return st => Return st
  | Throw st e => h e st
  | Await st c k => Await st c (fun o st' => tryCatch (k o st') h)
  | Yield st k => Yield st (fun st' => tryCatch (k st') h)
  | Spawn callee rest => Spawn callee (tryCatch rest h)
  end.

(** A call without [await]: the callee runs up to its first [await], and the
    caller goes on from the store it left (a rejection is not handled). *)
Fixpoint forked (callee : Async) (rest : Store -> Async) : Async :=
  match callee with
  | Return st => rest st
  | Throw st _ => rest st
  | Await st _ _ => Spawn callee (rest st)
  | Yield st _ => Spawn callee (rest st)
  | Spawn callee' r => Spawn callee' (forked r rest)
  end.

(** [await this.method()]: the method runs up to its end, across its own
    awaits, and the caller resumes after the pending jobs. *)
Definition awaitAction (method : Async) (k : Store -> Async) : Async :=
  andThen method (fun st => Yield st k).

(** [await promise], rethrowing a rejection. *)
Definition await {T} (st : Store) (c : Call T) (k : T -> Store -> Async)
    : Async :=
  Await st c (fun o st' =>
    match o with
    | Fulfilled v => k v st'
    | Rejected e => Throw st' e
    end).

Fixpoint mapi_from {A B} (i : nat) (f : A -> nat -> B) (l : list A) : list B :=
  match l with
  | [] => []
  | x :: l' => f x i :: mapi_from (S i) f l'
  end.

(** [array.map((x, index) => ...)]. *)
Definition mapi {A B} (f : A -> nat -> B) (l : list A) : list B :=
  mapi_from 0 f l.

Section AsyncActions.

Context {imports : Imports}.

(** [refreshWalletsData] (lines 1167 to 1214). *)
Definition refreshWalletsData (st : Store) : Async :=
  (* Prevent wallets data refresh if polling is blocked *)
  if _pollingBlocked st then Return st
  else if isConnected (stores st) then
    await st WalletsRequest_execute (fun result st =>
      match result with
      | None => Return st
      | Some result =>
          let walletIds :=
            map id
              (filter (fun w =>
                         negb (String.eqb (syncStateStatus w) NOT_RESPONDING))
                      result) in
          await st Trigger_refreshWalletsLocalData (fun _ st =>
            (* refresh active wallet *)
            let st :=
              match active (activeWallet st) with
              | Some a => _setActiveWallet (id a) st
              | None => st
              end in
            (* refresh address data *)
            let st := emit RefreshAddresses
                        (emit (SetAddressesRequests walletIds) st) in
            (* refresh transaction data *)
            let st := emit RefreshTransactionData
                        (emit (SetTransactionsRequests walletIds) st) in
            Return (emit RefreshWalletsDataSuccess st))
      end)
  else Return st.


(** [_pausePolling] (lines 1314 to 1319). *)
Definition _pausePolling (st : Store) : Async :=
  if isExecuting (walletsRequest st) then
    await st WalletsRequest_settled (fun _ st =>
      Return (withPollingBlocked true st))
  else Return (withPollingBlocked true st).

(** [_patchWalletRequestWithNewWallet] (lines 1058 to 1075). *)
Definition _patchWalletRequestWithNewWallet (wallet : Wallet) (st : Store)
    : Async :=
  await st (WalletsRequest_patch (onArray (patchWithNewWallet wallet)))
    (fun _ st => Return st).

(** [_restoreWalletEnd] (lines 481 to 491). *)
Definition _restoreWalletEnd (st : Store) : Async :=
  let st := _resumePolling st in
  match restoredWallet (restoreWallet st) with
  | Some restoredWallet =>
      awaitAction (_patchWalletRequestWithNewWallet restoredWallet st) (fun st =>
        let st := goToWalletRoute (id restoredWallet) st in
        forked (refreshWalletsData st) (fun st =>
          Return (_restoreWalletResetData (_restoreWalletResetRequests st))))
  | None => Return st
  end.

Definition equals (x : option string) (constant : string) : bool :=
  match x with
  | Some s => String.eqb s constant
  | None => false
  end.

(** [get restoreRequest]. *)
Definition restoreRequest (st : Store) : RequestName :=
  let r := restoreWallet st in
  if equals (walletKind r) WALLET_KINDS_DAEDALUS then
    if equals (walletKindDaedalus r) DAEDALUS_SHELLEY_15_WORD
       || equals (walletKindDaedalus r) DAEDALUS_SHELLEY_24_WORD
    then restoreDaedalusRequest
    else restoreByronRandomWalletRequest
  else if equals (walletKind r) WALLET_KINDS_YOROI then
    if equals (walletKindYoroi r) YOROI_BYRON_15_WORD
    then restoreByronIcarusWalletRequest
    else restoreDaedalusRequest
  else if equals (walletKind r) WALLET_KINDS_HARDWARE then
    if equals (walletKindHardware r) HARDWARE_LEDGER
    then restoreByronLedgerWalletRequest
    else restoreByronTrezorWalletRequest
  else restoreDaedalusRequest.

(** The [runInAction] of [_restore], once the wallet was received. *)
Definition setRestoredWallet (restoredWallet : Wallet) (st : Store) : Store :=
  let r := restoreWallet st in
  withRestoreWallet
    {| restoreWalletStep := Some 3%Z;
       restoreWalletShowAbortConfirmation :=
         restoreWalletShowAbortConfirmation r;
       walletKind := walletKind r;
       walletKindDaedalus := walletKindDaedalus r;
       walletKindYoroi := walletKindYoroi r;
       walletKindHardware := walletKindHardware r;
       mnemonics := mnemonics r;
       walletName := walletName r;
       spendingPassword := spendingPassword r;
       repeatPassword := repeatPassword r;
       restoredWallet := Some restoredWallet |} st.

(** [await this._getUnscrambledMnemonics(mnemonics)], the value given to [k]. *)
Definition _getUnscrambledMnemonics (mnemonics : list string) (st : Store)
    (k : list string -> Store -> Async) : Async :=
  (* Split recovery phrase to 18 (scrambled mnemonics) + 9 (mnemonics seed) mnemonics *)
  let (passphrase, scrambledInput) := getScrambledInput mnemonics in
  (* Unscramble 18-word wallet certificate mnemonic to 12-word mnemonic *)
  await st
    (Execute_getWalletRecoveryPhraseFromCertificate passphrase scrambledInput)
    (fun unscrambledRecoveryPhrase st =>
       Yield (emit (Reset getWalletRecoveryPhraseFromCertificateRequest) st)
         (k unscrambledRecoveryPhrase)).

(** [_restore] (lines 748 to 785). *)
Definition _restore (st : Store) : Async :=
  (* Pause polling in order to avoid fetching data for wallet we are about to restore *)
  awaitAction (_pausePolling st) (fun st =>
    (* Reset restore requests to clear previous errors *)
    let st := _restoreWalletResetRequests st in
    let r := restoreWallet st in
    let data :=
      {| RestoreData.recoveryPhrase := mnemonics r;
         RestoreData.walletName := walletName r;
         RestoreData.spendingPassword := spendingPassword r |} in
    let request := restoreRequest st in
    let execute (data : RestoreData.Args) (st : Store) : Async :=
      tryCatch
        (await st (Execute_restore request data) (fun restoredWallet st =>
           match restoredWallet with
           | None =>
               Throw st (Error "Restored wallet was not received correctly")
           | Some restoredWallet => Return (setRestoredWallet restoredWallet st)
           end))
        (fun _ st => Return (_resumePolling st)) in
    if equals (walletKind r) WALLET_KINDS_DAEDALUS
       && equals (walletKindDaedalus r) DAEDALUS_BYRON_27_WORD
    then
      (* Reset getWalletRecoveryPhraseFromCertificateRequest to clear previous errors *)
      let st := emit (Reset getWalletRecoveryPhraseFromCertificateRequest) st in
      _getUnscrambledMnemonics (mnemonics (restoreWallet st)) st
        (fun recoveryPhrase st =>
           execute
             {| RestoreData.recoveryPhrase := recoveryPhrase;
                RestoreData.walletName := RestoreData.walletName data;
                RestoreData.spendingPassword :=
                  RestoreData.spendingPassword data |} st)
    else execute data st).

(** The constants [assetsAmounts] and [formattedAssets] of [_sendMoney]
    (lines 800 to 813). *)
Definition assetsAmounts (params : SendMoney.Params) : option (list JsNumber) :=
  match SendMoney.assetsAmounts params with
  | Some assetsAmountsStr =>
      Some (map (fun assetAmount => parseInt10 assetAmount) assetsAmountsStr)
  | None => None
  end.

(** [assets && assets.length ? assets.map(...) : null]: every asset of the
    array, with the amount at its own index. *)
Definition formattedAssets (params : SendMoney.Params)
    : option (list ApiAsset) :=
  match SendMoney.assets params with
  | Some assets =>
      if (List.length assets =? 0)%nat then None
      else
        Some (mapi (fun asset index =>
                      {| policy_id := policyId asset;
                         asset_name := assetName asset;
                         quantity :=
                           Js.get (assetsAmounts params) index (Num 0) |})
                   assets)
  | None => None
  end.

(** [_sendMoney] (lines 787 to 829). *)
Definition _sendMoney (params : SendMoney.Params) (st : Store) : Async :=
  match active (activeWallet st) with
  | None => Throw st (Error "Active wallet required before sending.")
  | Some wallet =>
      await st
        (Execute_createTransaction
           {| CreateTransaction.address := SendMoney.receiver params;
              CreateTransaction.amount := parseInt10 (SendMoney.amount params);
              CreateTransaction.passphrase := SendMoney.passphrase params;
              CreateTransaction.walletId := id wallet;
              CreateTransaction.isLegacy := isLegacy wallet;
              CreateTransaction.assets := formattedAssets params |})
        (fun _ st =>
           forked (refreshWalletsData st) (fun st =>
             let st := emit CloseActiveDialog st in
             let st := emit (Reset sendMoneyRequest) st in
             Return (goToWalletRoute (id wallet) st)))
  end.

(** [_deleteWallet] (lines 658 to 704). *)
Definition _deleteWallet (walletId : string) (isLegacy : bool) (st : Store)
    : Async :=
  (* Pause polling in order to avoid fetching data for wallet we are about to delete *)
  let st := withIsDeleting true st in
  awaitAction (_pausePolling st) (fun st =>
    match getWalletById walletId st with
    | None => Return (withIsDeleting false st)
    | Some walletToDelete =>
        let indexOfWalletToDelete :=
          Js.indexOf Wallet_eqb walletToDelete (all st) in
        await st (Execute_deleteWallet walletId (isLegacy || false))
          (fun _ st =>
        await st
          (WalletsRequest_patch
             (onArray (spliceDeletedWallet indexOfWalletToDelete)))
          (fun _ st =>
        let st := withIsDeleting false st in
        let next :=
          if hasAnyWallets st then
            let nextIndexInList := Z.max (indexOfWalletToDelete - 1) 0 in
            match nth_error (all st) (Z.to_nat nextIndexInList) with
            | Some nextWalletInList =>
                inr (goToWalletRoute (id nextWalletInList) st)
            | None => inl st
            end
          else
            inr (goToRoute_trigger ROUTES_WALLETS_ADD None
                   (withActiveWallet
                      {| active := None; activeValue := None;
                         activePublicKey :=
                           activePublicKey (activeWallet st) |} st)) in
        match next with
        | inl st => Throw st (Error "TypeError")
        | inr st =>
            let st := emit CloseActiveDialog st in
            let st := emit (UnsetWalletLocalData walletId) st in
            await st (HardwareWallets_unsetHardwareWalletLocalData walletId)
              (fun _ st =>
                 let st := _resumePolling st in
                 let st := emit (Reset deleteWalletRequest) st in
                 forked (refreshWalletsData st) Return)
        end))
    end).

(** *** Running an action *)

(** The world around an action: for an awaited call and the store at the
    suspension, the outcome of the call and the store at the resumption; and
    for an action that gives way, the store when it goes on. *)
Record World : Type := {
  respond : forall T, Call T -> Store -> Outcome T * Store;
  resume : Store -> Store;
}.

(** The action run to its end: the final store, and the error if it threw. *)
Fixpoint run (world : World) (t : Async) : Store * option JsError :=
  match t with
  | Return st => (st, None)
  | Throw st e => (st, Some e)
  | Await st c k =>
      let r := respond world c st in run world (k (fst r) (snd r))
  | Yield st k => run world (k (resume world st))
  | Spawn _ rest => run world rest
  end.

Inductive AnyCall : Type :=
| anyCall (T : Type) (c : Call T).

(** Every call that the action makes, and that the actions it spawns make. *)
Fixpoint calls (world : World) (t : Async) : list AnyCall :=
  match t with
  | Return _ => []
  | Throw _ _ => []
  | Await st c k =>
      let r := respond world c st in
      anyCall c :: calls world (k (fst r) (snd r))
  | Yield st k => calls world (k (resume world st))
  | Spawn callee rest => calls world callee ++ calls world rest
  end.

Definition isCreateTransaction (c : AnyCall) : bool :=
  match c with
  | anyCall (Execute_createTransaction _) => true
  | anyCall _ => false
  end.

End AsyncActions.

(** ** [WalletsStore.js]: the settings of the restore wizard *)

(** [_restoreWalletSetKind] (lines 549 to 558): the field
    [walletKind + (param || '')] gets the kind; a [param] that names no field
    of the store leaves the fields as they are. *)
Definition _restoreWalletSetKind (param : option string) (kind : string)
    (st : Store) : Store :=
  let r := restoreWallet st in
  let field :=
    ("walletKind" ++ match param with Some p => p | None => "" end)%string in
  withRestoreWallet
    {| restoreWalletStep := restoreWalletStep r;
       restoreWalletShowAbortConfirmation :=
         restoreWalletShowAbortConfirmation r;
       walletKind :=
         if String.eqb field "walletKind" then Some kind else walletKind r;
       walletKindDaedalus :=
         if String.eqb field "walletKindDaedalus" then Some kind
         else walletKindDaedalus r;
       walletKindYoroi :=
         if String.eqb field "walletKindYoroi" then Some kind
         else walletKindYoroi r;
       walletKindHardware :=
         if String.eqb field "walletKindHardware" then Some kind
         else walletKindHardware r;
       mnemonics := [];
       walletName := walletName r;
       spendingPassword := spendingPassword r;
       repeatPassword := repeatPassword r;
       restoredWallet := restoredWallet r |} st.

(** [_restoreWalletSetMnemonics] (lines 560 to 566). *)
Definition _restoreWalletSetMnemonics (words : list string) (st : Store)
    : Store :=
  let r := restoreWallet st in
  withRestoreWallet
    {| restoreWalletStep := restoreWalletStep r;
       restoreWalletShowAbortConfirmation :=
         restoreWalletShowAbortConfirmation r;
       walletKind := walletKind r;
       walletKindDaedalus := walletKindDaedalus r;
       walletKindYoroi := walletKindYoroi r;
       walletKindHardware := walletKindHardware r;
       mnemonics := words;
       walletName := walletName r;
       spendingPassword := spendingPassword r;
       repeatPassword := repeatPassword r;
       restoredWallet := restoredWallet r |} st.

(** [_restoreWalletSetConfig] (lines 568 to 582). *)
Definition _restoreWalletSetConfig (param value : string) (st : Store)
    : Store :=
  let r := restoreWallet st in
  withRestoreWallet
    {| restoreWalletStep := restoreWalletStep r;
       restoreWalletShowAbortConfirmation :=
         restoreWalletShowAbortConfirmation r;
       walletKind := walletKind r;
       walletKindDaedalus := walletKindDaedalus r;
       walletKindYoroi := walletKindYoroi r;
       walletKindHardware := walletKindHardware r;
       mnemonics := mnemonics r;
       walletName :=
         if String.eqb param "walletName" then value else walletName r;
       spendingPassword :=
         if String.eqb param "spendingPassword" then value
         else spendingPassword r;
       repeatPassword :=
         if String.eqb param "repeatPassword" then value
         else repeatPassword r;
       restoredWallet := restoredWallet r |} st.

(** ** [WalletsStore.js]: the transfer of funds *)

(** The observable fields under "Transfer Funds" (lines 210 to 215), and the
    resets of [transferFundsCalculateFeeRequest] made so far. *)
Record TransferFunds : Type := {
  transferFundsSourceWalletId : string;
  transferFundsTargetWalletId : string;
  transferFundsStep : Z;
  transferFundsFee : option Z;
  transferFundsLeftovers : option Z;
  calculateFeeRequestResets : nat;
}.

Definition setTransferFundsStep (step : Z) (t : TransferFunds) : TransferFunds :=
  {| transferFundsSourceWalletId := transferFundsSourceWalletId t;
     transferFundsTargetWalletId := transferFundsTargetWalletId t;
     transferFundsStep := step;
     transferFundsFee := transferFundsFee t;
     transferFundsLeftovers := transferFundsLeftovers t;
     calculateFeeRequestResets := calculateFeeRequestResets t |}.

(** A string as a condition: the empty string is false. *)
Definition truthy (s : string) : bool := negb (String.eqb s "").

(** [_transferFundsNextStep] awaits [_transferFundsCalculateFee], which
    awaits the promise of [transferFundsCalculateFeeRequest]: the action
    returned, or threw, or waits for the fee of the source wallet, or gives
    way after the awaited method returned. *)
Inductive TransferAsync : Type :=
| TransferReturn (t : TransferFunds)
| TransferThrow (t : TransferFunds) (e : JsError)
| TransferAwaitFee (t : TransferFunds) (sourceWalletId : string)
    (k : Outcome (option (Z * Z)) -> TransferFunds -> TransferAsync)
| TransferYield (t : TransferFunds) (k : TransferFunds -> TransferAsync).

(** [_transferFundsCalculateFee] (lines 918 to 933), followed by [k]; the
    value of the promise is [{ fee, leftovers }], and a [null] cannot be
    taken apart. *)
Definition _transferFundsCalculateFee (sourceWalletId : string)
    (t : TransferFunds) (k : TransferFunds -> TransferAsync) : TransferAsync :=
  TransferAwaitFee t sourceWalletId (fun o t =>
    match o with
    | Fulfilled (Some (fee, leftovers)) =>
        k {| transferFundsSourceWalletId := transferFundsSourceWalletId t;
             transferFundsTargetWalletId := transferFundsTargetWalletId t;
             transferFundsStep := transferFundsStep t;
             transferFundsFee := Some fee;
             transferFundsLeftovers := Some leftovers;
             calculateFeeRequestResets := calculateFeeRequestResets t |}
    | Fulfilled None => TransferThrow t (Error "TypeError")
    | Rejected e => TransferThrow t e
    end).

(** [_transferFundsNextStep] (lines 831 to 854). *)
Definition _transferFundsNextStep (t : TransferFunds) : TransferAsync :=
  let step := transferFundsStep t in
  let source := transferFundsSourceWalletId t in
  let target := transferFundsTargetWalletId t in
  let nextStep := if (step =? 0)%Z && truthy source then 1%Z else 0%Z in
  if (step =? 1)%Z && truthy source && truthy target then
    _transferFundsCalculateFee source t (fun t =>
      TransferYield t (fun t => TransferReturn (setTransferFundsStep 2 t)))
  else TransferReturn (setTransferFundsStep nextStep t).

(** [_transferFundsPrevStep] (lines 856 to 860). *)
Definition _transferFundsPrevStep (t : TransferFunds) : TransferFunds :=
  let prevStep :=
    if (transferFundsStep t >? 0)%Z then (transferFundsStep t - 1)%Z
    else 0%Z in
  setTransferFundsStep prevStep t.

(** [_transferFundsSetSourceWalletId] (lines 886 to 897); the target is
    [get(allWallets, [0, 'id'], '')]. *)
Definition _transferFundsSetSourceWalletId (sourceWalletId : string)
    (st : Store) (t : TransferFunds) : TransferFunds :=
  {| transferFundsSourceWalletId := sourceWalletId;
     (* Sets the target wallet to the first wallet *)
     transferFundsTargetWalletId :=
       match allWallets st with
       | w :: _ => id w
       | [] => ""
       end;
     (* Sets to first step *)
     transferFundsStep := 1;
     transferFundsFee := transferFundsFee t;
     transferFundsLeftovers := transferFundsLeftovers t;
     calculateFeeRequestResets := calculateFeeRequestResets t |}.

(** [_transferFundsSetTargetWalletId] (lines 899 to 905). *)
Definition _transferFundsSetTargetWalletId (targetWalletId : string)
    (t : TransferFunds) : TransferFunds :=
  {| transferFundsSourceWalletId := transferFundsSourceWalletId t;
     transferFundsTargetWalletId := targetWalletId;
     transferFundsStep := transferFundsStep t;
     transferFundsFee := transferFundsFee t;
     transferFundsLeftovers := transferFundsLeftovers t;
     calculateFeeRequestResets := calculateFeeRequestResets t |}.

(** [_transferFundsRedeem] (lines 907 to 910). *)
Definition _transferFundsRedeem (t : TransferFunds) : TransferFunds :=
  setTransferFundsStep 0 t.

(** [_transferFundsClose] (lines 912 to 916). *)
Definition _transferFundsClose (t : TransferFunds) : TransferFunds :=
  {| transferFundsSourceWalletId := transferFundsSourceWalletId t;
     transferFundsTargetWalletId := transferFundsTargetWalletId t;
     transferFundsStep := 0;
     transferFundsFee := None;
     transferFundsLeftovers := transferFundsLeftovers t;
     calculateFeeRequestResets := S (calculateFeeRequestResets t) |}.

(** The world of a transfer: the outcome of the fee request for a source
    wallet and the fields at the resumption, and the fields when an action
    that gave way goes on. *)
Record TransferWorld : Type := {
  feeOutcome :
    string -> TransferFunds -> Outcome (option (Z * Z)) * TransferFunds;
  transferResume : TransferFunds -> TransferFunds;
}.

(** The action run to its end, and the number of fee requests it made. *)
Fixpoint runTransfer (world : TransferWorld) (t : TransferAsync)
    : TransferFunds * option JsError * nat :=
  match t with
  | TransferReturn t => (t, None, O)
  | TransferThrow t e => (t, Some e, O)
  | TransferAwaitFee t sourceWalletId k =>
      let r := feeOutcome world sourceWalletId t in
      let '(t', e, n) := runTransfer world (k (fst r) (snd r)) in
      (t', e, S n)
  | TransferYield t k => runTransfer world (k (transferResume world t))
  end.

(** The fields of a transfer stay within the steps of the dialog. *)
Definition stepInRange (t : TransferFunds) : Prop :=
  (0 <= transferFundsStep t <= 2)%Z.

(** ** [WalletsStore.js]: the validation of an address *)

(** The flags that [isValidAddress] reads, of [global] and of
    [this.environment]. *)
Record Environment : Type := {
  isMainnet : bool;
  isStaging : bool;
  isIncentivizedTestnet : bool;
  isTestnet : bool;
  isShelleyTestnet : bool;
  isSelfnode : bool;
}.

(** A network tag ([?number]): an integer, [null], or [undefined] (no tag
    at all).  An expected tag is one tag or an array of tags
    ([?Array<?number> | ?number]). *)
Inductive Tag : Type :=
| TagInteger (n : Z)
| TagNull
| TagUndefined.

Inductive NetworkTag : Type :=
| TagNumber (tag : Tag)
| TagArray (tags : list Tag).

(** [a === b] on tags, which is also the comparison of lodash [includes]:
    [null] and [undefined] are each equal to themselves only. *)
Definition tag_eqb (a b : Tag) : bool :=
  match a, b with
  | TagInteger x, TagInteger y => Z.eqb x y
  | TagNull, TagNull => true
  | TagUndefined, TagUndefined => true
  | _, _ => false
  end.

(** The response of [introspectAddressChannel]: ['Invalid'], or an object
    with the style and the network tag of the address. *)
Inductive IntrospectAddressResponse : Type :=
| Invalid
| Introspection (address_style : string) (network_tag : Tag).

(** How the promise of [isValidAddress] ends: fulfilled with a boolean, or
    with [undefined] after an error was logged, or rejected. *)
Inductive AddressValidity : Type :=
| ValidityReturned (valid : bool)
| ValidityUndefined
| ValidityThrown (e : JsError).

Section AddressValidation.

(** The constants of [config/cryptoConfig], not among the sources. *)
Variable MAINNET_MAGIC : NetworkTag.
Variable STAGING_MAGIC : NetworkTag.
Variable ITN_MAGIC : NetworkTag.
Variable TESTNET_MAGIC : NetworkTag.
Variable SHELLEY_TESTNET_NETWORK_ID : NetworkTag.
Variable SELFNODE_MAGIC : NetworkTag.

(** [expectedNetworkTag] and [validAddressStyles] as the chain of
    conditions leaves them (lines 1120 to 1139); [None] where it throws. *)
Definition expectedNetwork (environment : Environment)
    : option (NetworkTag * list string) :=
  let validAddressStyles := ["Byron"; "Icarus"; "Shelley"]%string in
  if isMainnet environment then Some (MAINNET_MAGIC, validAddressStyles)
  else if isStaging environment then Some (STAGING_MAGIC, validAddressStyles)
  else if isIncentivizedTestnet environment then
    Some (ITN_MAGIC, ["Jormungandr"%string])
  else if isTestnet environment then Some (TESTNET_MAGIC, validAddressStyles)
  else if isShelleyTestnet environment then
    Some (SHELLEY_TESTNET_NETWORK_ID, validAddressStyles)
  else if isSelfnode environment then Some (SELFNODE_MAGIC, validAddressStyles)
  else None.

(** [isValidAddress] (lines 1117 to 1162).  [walletAddresses] are the ids of
    [this.stores.addresses.all]; [send] gives the outcome of
    [introspectAddressChannel.send] and the store at the resumption. *)
Definition isValidAddress (environment : Environment)
    (walletAddresses : list string)
    (send : string -> Store -> Outcome IntrospectAddressResponse * Store)
    (address : string) (st : Store) : Store * AddressValidity :=
  let st := withIsAddressFromSameWallet false st in
  match expectedNetwork environment with
  | None => (st, ValidityThrown (Error "Unexpected environment"))
  | Some (expectedNetworkTag, validAddressStyles) =>
      let (response, st) := send address st in
      match response with
      | Rejected _ => (st, ValidityUndefined)
      | Fulfilled Invalid => (st, ValidityReturned false)
      | Fulfilled (Introspection address_style network_tag) =>
          let st :=
            withIsAddressFromSameWallet
              (negb (List.length
                       (filter (fun addr => String.eqb addr address)
                               walletAddresses) =? 0)%nat)
              st in
          (st,
           ValidityReturned
             (existsb (String.eqb address_style) validAddressStyles
              && match expectedNetworkTag with
                 | TagArray tags => existsb (tag_eqb network_tag) tags
                 | TagNumber tag => tag_eqb tag network_tag
                 end))
      end
  end.

End AddressValidation.

(** ** Notions that the properties are stated with *)

(** The world leaves a part of the store as the action left it. *)
Definition leaves {A} (part : Store -> A) (world : World) : Prop :=
  (forall st, part (resume world st) = part st)
  /\ (forall T (c : Call T) st, part (snd (respond world c st)) = part st).

(** Kinds of calls, and whether a call of a list is of a kind. *)
Definition isRestore T (c : Call T) : bool :=
  match c with
  | Execute_restore _ _ => true
  | _ => false
  end.

Definition isUnscramble T (c : Call T) : bool :=
  match c with
  | Execute_getWalletRecoveryPhraseFromCertificate _ _ => true
  | _ => false
  end.

Definition isPatch T (c : Call T) : bool :=
  match c with
  | WalletsRequest_patch _ => true
  | _ => false
  end.

Definition isSend T (c : Call T) : bool :=
  match c with
  | Execute_createTransaction _ => true
  | _ => false
  end.

Definition makes (kind : forall T, Call T -> bool) (l : list AnyCall) : bool :=
  existsb (fun c => match c with anyCall c' => kind _ c' end) l.

(** All non-legacy wallets of the list come before all legacy wallets. *)
Definition NonLegacyFirst (l : list Wallet) : Prop :=
  exists ws ls,
    l = ws ++ ls
    /\ Forall (fun w => isLegacy w = false) ws
    /\ Forall (fun w => isLegacy w = true) ls.




(** In this world an awaited [walletsRequest] settles, a recovery phrase is
    unscrambled, and a restore request returns the wallet [w]. *)
Definition restoreSucceeds (world : World) (w : Wallet) : Prop :=
  (forall st, exists v, fst (respond world WalletsRequest_settled st) = Fulfilled v)
  /\ (forall passphrase scrambledInput st,
        exists v,
          fst (respond world
                 (Execute_getWalletRecoveryPhraseFromCertificate
                    passphrase scrambledInput) st)
          = Fulfilled v)
  /\ (forall request data st,
        fst (respond world (Execute_restore request data) st)
        = Fulfilled (Some w)).

(** The step that a wizard reaches from [step] by going on or back,
    [null] counted as [0]. *)
Definition adjacent (step next : option Z) : Prop :=
  next = Some (Js.orZ step 0 + 1)%Z \/ next = Some (Js.orZ step 0 - 1)%Z.

End WalletsStore.

(** ** A store to run the actions on *)

Module Sample.

Import WalletsStore.
Local Open Scope string_scope.

(** What is left of [s] after the prefix [p]. *)
Fixpoint afterPrefix (p s : string) : option string :=
  match p, s with
  | EmptyString, _ => Some s
  | String a p', String b s' =>
      if Ascii.eqb a b then afterPrefix p' s' else None
  | String _ _, EmptyString => None
  end.

(** [s] up to its first slash, and what follows the slash. *)
Fixpoint segment (s : string) : string * string :=
  match s with
  | EmptyString => ("", "")
  | String c s' =>
      if Ascii.eqb c "/"%char then ("", s')
      else let (a, b) := segment s' in (String c a, b)
  end.

(** The routes of the wallet pages, matched as the route parser matches
    the patterns that the store uses. *)
Definition matchRoute (pattern route : string) : option RouteParams :=
  if String.eqb pattern "/wallets/:id(*page)" then
    match afterPrefix "/wallets/" route with
    | Some rest =>
        let (i, page) := segment rest in
        if String.eqb i "" then None else Some [("id", i); ("page", page)]
    | None => None
    end
  else if String.eqb pattern "/wallets/:id/send" then
    match afterPrefix "/wallets/" route with
    | Some rest =>
        let (i, page) := segment rest in
        if String.eqb page "send" then Some [("id", i)] else None
    | None => None
    end
  else if String.eqb pattern route then Some []
  else None.

Definition buildRoute (pattern : string) (params : option RouteParams)
    : string :=
  match params with
  | Some ps =>
      match param "id" ps, param "page" ps with
      | Some i, Some page =>
          if String.eqb pattern "/wallets/:id/:page"
          then "/wallets/" ++ i ++ "/" ++ page
          else pattern
      | _, _ => pattern
      end
  | None => pattern
  end.

(** The decimal digits at the start of a string. *)
Fixpoint digits (s : string) (acc : option Z) : option Z :=
  match s with
  | EmptyString => acc
  | String c s' =>
      let n := nat_of_ascii c in
      if (48 <=? n)%nat && (n <=? 57)%nat then
        digits s'
          (Some (10 * match acc with Some a => a | None => 0 end
                 + Z.of_nat (n - 48))%Z)
      else acc
  end.

(** A string without the white space of ASCII at its start (tab, line
    feed, vertical tab, form feed, carriage return, space). *)
Fixpoint trimStart (s : string) : string :=
  match s with
  | EmptyString => s
  | String c s' =>
      let n := nat_of_ascii c in
      if ((9 <=? n)%nat && (n <=? 13)%nat) || (n =? 32)%nat then trimStart s'
      else s
  end.

(** [parseInt(s, 10)] on a string of ASCII characters: white space, a sign,
    and the digits up to the first other character; [NaN] without a digit.
    The integer is exact, as a double is up to [2^53]. *)
Definition parseInt10 (s : string) : JsNumber :=
  let s := trimStart s in
  let (negative, s) :=
    match s with
    | String "-"%char s' => (true, s')
    | String "+"%char s' => (false, s')
    | _ => (false, s)
    end in
  match digits s None with
  | Some z => Num (if negative then - z else z)
  | None => NaN
  end.

Definition imports : Imports :=
  {| ROUTES_WALLETS_ROOT := "/wallets";
     ROUTES_WALLETS_ADD := "/wallets/add";
     ROUTES_WALLETS_PAGE := "/wallets/:id/:page";
     ROUTES_WALLETS_SEND := "/wallets/:id/send";
     WalletsStore.matchRoute := matchRoute;
     WalletsStore.buildRoute := buildRoute;
     formattedWalletAmount := fun _ => "0.000000";
     Buffer_from_hex := fun _ => [];
     bech32EncodePublicKey := fun _ => "acct_xvk";
     NOT_RESPONDING := "not_responding";
     Wallet_update := fun _ other => other;
     WALLET_KINDS_DAEDALUS := "Daedalus";
     WALLET_KINDS_YOROI := "Yoroi";
     WALLET_KINDS_HARDWARE := "Hardware";
     DAEDALUS_SHELLEY_15_WORD := "15WordShelley";
     DAEDALUS_SHELLEY_24_WORD := "24WordShelley";
     DAEDALUS_BYRON_27_WORD := "27WordByron";
     YOROI_BYRON_15_WORD := "15WordByron";
     HARDWARE_LEDGER := "Ledger";
     RESTORE_WALLET_STEPS_length := 4;
     getScrambledInput := fun _ => ("", "");
     WalletsStore.parseInt10 := parseInt10 |}.

Definition wallet (i : string) (legacy : bool) : Wallet :=
  {| id := i; name := i; amount := 0; isLegacy := legacy;
     isHardwareWallet := false; isNotResponding := false;
     syncStateStatus := "ready" |}.

Definition byron : Wallet := wallet "legacy_1" true.
Definition shelley : Wallet := wallet "2" false.
Definition shelley3 : Wallet := wallet "3" false.

(** The store as its field initialisers leave it, on the route [route] and
    with [walletsRequest] as given. *)
Definition store (route : string) (request : Request) : Store :=
  {| walletsRequest := request;
     activeWallet :=
       {| active := None; activeValue := None; activePublicKey := None |};
     createWallet :=
       {| createWalletStep := None;
          createWalletShowAbortConfirmation := false |};
     restoreWallet :=
       {| restoreWalletStep := None;
          restoreWalletShowAbortConfirmation := false;
          walletKind := None; walletKindDaedalus := None;
          walletKindYoroi := None; walletKindHardware := None;
          mnemonics := []; walletName := ""; spendingPassword := "";
          repeatPassword := ""; restoredWallet := None |};
     paperWallet :=
       {| walletCertificatePassword := None;
          walletCertificateAddress := None;
          walletCertificateRecoveryPhrase := None;
          generatingCertificateInProgress := false;
          generatingCertificateError := false;
          certificateStep := None;
          certificateTemplate := TemplateNull;
          additionalMnemonicWords := None |};
     isAddressFromSameWallet := false;
     isDeleting := false;
     _pollingBlocked := false;
     stores :=
       {| currentRoute := route; isConnected := true;
          lastGeneratedAddress := None;
          hardwareWalletsConnectionData := fun _ => None |};
     effects := [] |}.

(** [walletsRequest] before its first execution, after an execution that
    returned [wallets], and while a further execution is in flight. *)
Definition notExecuted : Request :=
  {| result := None; wasExecuted := false; isExecuting := false |}.

Definition executed (wallets : list Wallet) : Request :=
  {| result := Some wallets; wasExecuted := true; isExecuting := false |}.

Definition executing (wallets : list Wallet) : Request :=
  {| result := Some wallets; wasExecuted := true; isExecuting := true |}.

(** A world in which every request succeeds, a restore returns [restored],
    [walletsRequest] applies the function it is patched with, and no other
    action touches the store in between. *)
Definition calm (restored : Wallet) : World :=
  {| resume := fun st => st;
     respond := fun T (c : Call T) st =>
    match c in Call T return Outcome T * Store with
    | WalletsRequest_execute => (Fulfilled (result (walletsRequest st)), st)
    | WalletsRequest_settled =>
        (Fulfilled tt,
         withWalletsRequest
           {| result := result (walletsRequest st);
              wasExecuted := true; isExecuting := false |} st)
    | WalletsRequest_patch modify =>
        (Fulfilled tt,
         match modify (result (walletsRequest st)) with
         | inr r =>
             withWalletsRequest
               {| result := Some r;
                  wasExecuted := wasExecuted (walletsRequest st);
                  isExecuting := isExecuting (walletsRequest st) |} st
         | inl _ => st
         end)
    | Execute_createTransaction _ => (Fulfilled tt, st)
    | Execute_restore _ _ => (Fulfilled (Some restored), st)
    | Execute_getWalletRecoveryPhraseFromCertificate _ _ => (Fulfilled [], st)
    | Execute_deleteWallet _ _ => (Fulfilled tt, st)
    | Trigger_refreshWalletsLocalData => (Fulfilled tt, st)
    | HardwareWallets_unsetHardwareWalletLocalData _ => (Fulfilled tt, st)
    end |}.

(** The calm world, but with the calls that [fails] selects rejected with
    [error] and the store left as it is. *)
Definition failing (fails : forall T, Call T -> bool) (error : JsError)
    (restored : Wallet) : World :=
  {| resume := fun st => st;
     respond := fun T (c : Call T) st =>
       if fails T c then (Rejected error, st)
       else respond (calm restored) c st |}.

Definition backendError : JsError := Error "Backend error".

(** A world of a transfer in which the fee request returns [fee] and
    [leftovers], and no other action touches the fields in between. *)
Definition transferCalm (fee leftovers : Z) : TransferWorld :=
  {| feeOutcome := fun _ t => (Fulfilled (Some (fee, leftovers)), t);
     transferResume := fun t => t |}.

(** The fields of a transfer as their initialisers leave them. *)
Definition transfer : TransferFunds :=
  {| transferFundsSourceWalletId := "";
     transferFundsTargetWalletId := "";
     transferFundsStep := 0;
     transferFundsFee := None;
     transferFundsLeftovers := None;
     calculateFeeRequestResets := 0 |}.

End Sample.

(* ================================================================== *)
(** * Part II: properties *)
(* ================================================================== *)

Local Open Scope string_scope.
Local Open Scope list_scope.

Unset Implicit Arguments.

(** ** The search filter of the items dropdown *)

Section ItemsDropdownFacts.

Import ItemsDropdown.

Variable Canonicalize : ascii -> ascii.
Variable Value : Type.
Variable ToString : Value -> jsstring.

Lemma backslash_is_syntax : isSyntaxCharacter backslash = true.
Proof. reflexivity. Qed.

Lemma not_syntax_not_backslash (c : ascii) :
  isSyntaxCharacter c = false -> Ascii.eqb c backslash = false.
Proof.
  intros Hc. destruct (Ascii.eqb_spec c backslash) as [-> | _]; [| reflexivity].
  rewrite backslash_is_syntax in Hc. discriminate.
Qed.

(** The tokens of an escaped string are the characters of the string, each
    one a literal: escaping followed by reading is the identity. *)
Lemma tokens_escapeRegExp (s : jsstring) :
  tokens (escapeRegExp s) = Some (map TLiteral s).
Proof.
  induction s as [| c s IH]; [reflexivity |].
  cbn [escapeRegExp]. destruct (isSyntaxCharacter c) eqn:Hc.
  - cbn [tokens]. rewrite Ascii.eqb_refl, Hc, IH. reflexivity.
  - cbn [tokens]. rewrite (not_syntax_not_backslash _ Hc), Hc, IH. reflexivity.
Qed.

Lemma atoms_literals (s : jsstring) :
  atoms (map TLiteral s) = Some (map AChar s).
Proof.
  induction s as [| c s IH]; [reflexivity |].
  cbn [map atoms atom]. rewrite IH. reflexivity.
Qed.

(** [new RegExp(escapeRegExp(s), 'i')] never throws, and is the pattern of
    the characters of [s]. *)
Lemma RegExp_i_escapeRegExp (s : jsstring) :
  RegExp_i (escapeRegExp s) = Some (map AChar s).
Proof.
  unfold RegExp_i. rewrite tokens_escapeRegExp. apply atoms_literals.
Qed.

Lemma matchHere_literal (needle s : jsstring) :
  matchHere Canonicalize (map AChar needle) s = true
  <-> exists mid post,
        s = mid ++ post /\ map Canonicalize mid = map Canonicalize needle.
Proof.
  revert s. induction needle as [| p needle IH]; intros s.
  - cbn. split; [| reflexivity]. intros _. exists [], s. split; reflexivity.
  - destruct s as [| c s]; cbn [map matchHere].
    + split; [discriminate |].
      intros (mid & post & Hs & Hm). destruct mid; discriminate.
    + rewrite andb_true_iff, IH. cbn [atomMatches]. split.
      * intros [Hc (mid & post & -> & Hm)].
        apply Ascii.eqb_eq in Hc.
        exists (c :: mid), post. cbn [map]. split; [reflexivity |].
        rewrite Hm, Hc. reflexivity.
      * intros (mid & post & Hs & Hm).
        destruct mid as [| m mid]; [discriminate |].
        cbn [map] in Hm. injection Hs as -> ->. injection Hm as Hc Hm.
        split; [apply Ascii.eqb_eq; symmetry; exact Hc |].
        exists mid, post. split; [reflexivity | exact Hm].
Qed.

(** [regex.test] with a pattern of literal characters is the search for a
    substring, letter case apart. *)
Lemma test_literal (needle s : jsstring) :
  test Canonicalize (map AChar needle) s = true
  <-> ciSubstring Canonicalize needle s.
Proof.
  unfold ciSubstring. induction s as [| c s IH].
  - cbn [test]. rewrite orb_false_r, matchHere_literal. split.
    + intros (mid & post & Hs & Hm). exists [], mid, post. split; assumption.
    + intros (pre & mid & post & Hs & Hm).
      destruct pre; [| discriminate]. exists mid, post. split; assumption.
  - cbn [test]. rewrite orb_true_iff, matchHere_literal, IH. split.
    + intros [(mid & post & Hs & Hm) | (pre & mid & post & Hs & Hm)].
      * exists [], mid, post. split; assumption.
      * exists (c :: pre), mid, post. rewrite Hs. split; [reflexivity | exact Hm].
    + intros (pre & mid & post & Hs & Hm). destruct pre as [| c' pre].
      * left. exists mid, post. split; assumption.
      * right. injection Hs as _ Hs. exists pre, mid, post.
        split; assumption.
Qed.

Lemma filterM_total {A} (p : A -> option bool) (q : A -> bool) (l : list A) :
  (forall x, p x = Some (q x)) -> filterM p l = Some (filter q l).
Proof.
  intros Hp. induction l as [| x l IH]; [reflexivity |].
  cbn [filterM filter]. rewrite Hp, IH. destruct (q x); reflexivity.
Qed.

(** The empty pattern matches every string. *)
Lemma test_empty (s : jsstring) : test Canonicalize [] s = true.
Proof. destruct s; reflexivity. Qed.

(** C7.  For every search value and every list of options,
    [onSearchItemsDropdown] returns (it does not throw, whatever characters
    the search value holds) the options, in their order, of which the label,
    the detail or the value, read as a string, has the search value as a
    substring letter case apart; and every option for the empty search
    value. *)
Theorem onSearchItemsDropdown_literal_substring
    (searchValue : jsstring) (options : list (ItemDropdown Value)) :
  (exists keep : ItemDropdown Value -> bool,
     onSearchItemsDropdown Canonicalize ToString searchValue options
       = Some (filter keep options)
     /\ forall o,
          keep o = true
          <-> ciSubstring Canonicalize searchValue (ToString (label o))
              \/ ciSubstring Canonicalize searchValue (ToString (detail o))
              \/ ciSubstring Canonicalize searchValue (ToString (value o)))
  /\ onSearchItemsDropdown Canonicalize ToString [] options = Some options.
Proof.
  split.
  - exists (fun o =>
              test Canonicalize (map AChar searchValue) (ToString (label o))
              || test Canonicalize (map AChar searchValue) (ToString (detail o))
              || test Canonicalize (map AChar searchValue) (ToString (value o))).
    split.
    + apply filterM_total. intros o. unfold optionMatches.
      rewrite RegExp_i_escapeRegExp. reflexivity.
    + intros o. rewrite !orb_true_iff, !test_literal. tauto.
  - unfold onSearchItemsDropdown.
    rewrite (@filterM_total _ _ (fun _ => true)).
    + f_equal. induction options as [| o l IH]; [reflexivity |].
      cbn [filter]. rewrite IH. reflexivity.
    + intros o. unfold optionMatches. cbn. rewrite !test_empty. reflexivity.
Qed.

End ItemsDropdownFacts.

(** The filter at work: a search value with syntax characters is looked for
    as it is written, and an option without a detail is read as the string
    "undefined". *)
Example onSearchItemsDropdown_examples :
  let ToString (v : option string) :=
    match v with
    | Some s => ItemsDropdown.chars s
    | None => ItemsDropdown.chars "undefined"
    end in
  let item l d v :=
    {| ItemsDropdown.label := l; ItemsDropdown.detail := d;
       ItemsDropdown.value := v |} in
  let a := item (Some "Wallet (a.c)") (Some "1.5 ADA") (Some "id1") in
  let b := item (Some "Wallet abc") None (Some "id2") in
  let search s :=
    ItemsDropdown.onSearchItemsDropdown ItemsDropdown.asciiUpper ToString
      (ItemsDropdown.chars s) [a; b] in
  search "A.C" = Some [a]
  /\ search "wallet" = Some [a; b]
  /\ search "(" = Some [a]
  /\ search "undef" = Some [b]
  /\ search "" = Some [a; b]
  /\ ItemsDropdown.RegExp_i (ItemsDropdown.chars "a.c")
     = Some [ItemsDropdown.AChar "a"%char; ItemsDropdown.AAnyChar;
             ItemsDropdown.AChar "c"%char]
  /\ ItemsDropdown.RegExp_i (ItemsDropdown.chars "(") = None.
Proof. vm_compute. repeat split. Qed.

(** ** The confirm button of the send confirmation dialog *)

Section ConfirmationDialogFacts.

Import ConfirmationDialog.

Variable VERIFYING_TRANSACTION_SUCCEEDED : string.

(** The passphrase validator refuses the empty passphrase of a software
    wallet, and nothing else. *)
Lemma passphraseValidator_refuses (props : Props) (fieldValue : string) :
  fst (passphraseValidator props fieldValue) = false
  <-> isHardwareWallet props = false /\ fieldValue = "".
Proof.
  unfold passphraseValidator.
  destruct (isHardwareWallet props); cbn; [intuition discriminate |].
  destruct (String.eqb_spec fieldValue ""); cbn; intuition discriminate.
Qed.

(** The button is enabled only when none of the three conditions holds. *)
Lemma confirmDisabled_false (props : Props) (state : State) (valid : bool) :
  confirmDisabled VERIFYING_TRANSACTION_SUCCEEDED props state valid = false ->
  (isHardwareWallet props = false -> valid = true)
  /\ (isHardwareWallet props = true
      -> hwDeviceStatus props = VERIFYING_TRANSACTION_SUCCEEDED)
  /\ (isFlight props = true -> areTermsAccepted state = true).
Proof.
  unfold confirmDisabled.
  destruct (String.eqb_spec (hwDeviceStatus props) VERIFYING_TRANSACTION_SUCCEEDED);
    destruct (isHardwareWallet props), valid, (areTermsAccepted state),
      (isFlight props); cbn; intros H; try discriminate H;
    repeat split; intros; congruence.
Qed.

(** C8.  The confirm button is disabled whenever the wallet is a software
    wallet and the passphrase field is not valid, or the wallet is a hardware
    wallet and the device status is not [VERIFYING_TRANSACTION_SUCCEEDED], or
    the build is a flight candidate and the terms are not accepted. *)
Theorem confirm_button_disabled (props : Props) (state : State)
    (passphraseIsValid : bool) :
  (isHardwareWallet props = false /\ passphraseIsValid = false)
  \/ (isHardwareWallet props = true
      /\ hwDeviceStatus props <> VERIFYING_TRANSACTION_SUCCEEDED)
  \/ (isFlight props = true /\ areTermsAccepted state = false) ->
  confirmDisabled VERIFYING_TRANSACTION_SUCCEEDED props state passphraseIsValid
  = true.
Proof.
  unfold confirmDisabled.
  intros [[Hhw Hvalid] | [[Hhw Hstatus] | [Hflight Hterms]]].
  - rewrite Hhw, Hvalid. reflexivity.
  - rewrite Hhw. apply String.eqb_neq in Hstatus. rewrite Hstatus.
    cbn. reflexivity.
  - rewrite Hflight, Hterms. cbn. apply orb_true_r.
Qed.

End ConfirmationDialogFacts.

(** A hardware wallet whose device is still verifying the transaction: the
    button is disabled, with the terms accepted and the field valid. *)
Lemma confirm_button_disabled_witness :
  ConfirmationDialog.confirmDisabled "verifying_transaction_succeeded"
    {| ConfirmationDialog.isHardwareWallet := true;
       ConfirmationDialog.hwDeviceStatus := "verifying_transaction";
       ConfirmationDialog.isFlight := true;
       ConfirmationDialog.isSubmitting := false |}
    {| ConfirmationDialog.areTermsAccepted := true |} true
  = true.
Proof.
  apply confirm_button_disabled. right. left.
  split; [reflexivity | discriminate].
Defined.

(** ** Lists: [findIndex] and [splice] *)

Section ListFacts.

Variable A : Type.

Lemma findIndex_cases (p : A -> bool) (l : list A) :
  (Js.findIndex p l = (-1)%Z /\ Forall (fun x => p x = false) l)
  \/ (exists ws x ls,
        l = ws ++ x :: ls
        /\ Forall (fun x => p x = false) ws
        /\ p x = true
        /\ Js.findIndex p l = Z.of_nat (List.length ws)).
Proof.
  induction l as [| y l IH].
  - left. split; [reflexivity | constructor].
  - cbn [Js.findIndex]. destruct (p y) eqn:Hy.
    + right. exists [], y, l. repeat split; [constructor | exact Hy].
    + destruct IH as [[Hi Hall] | (ws & x & ls & -> & Hws & Hx & Hi)].
      * left. rewrite Hi. split; [reflexivity | constructor; assumption].
      * right. exists (y :: ws), x, ls. rewrite Hi.
        repeat split; [constructor; assumption | exact Hx |].
        destruct (Z.of_nat (List.length ws) <? 0)%Z eqn:Hneg.
        -- apply Z.ltb_lt in Hneg. lia.
        -- cbn [List.length]. lia.
Qed.

Lemma firstn_length_app (ws ls : list A) :
  firstn (List.length ws) (ws ++ ls) = ws.
Proof. induction ws as [| w ws IH]; [reflexivity |]. cbn. now rewrite IH. Qed.

Lemma skipn_length_app (ws ls : list A) :
  skipn (List.length ws) (ws ++ ls) = ls.
Proof. induction ws as [| w ws IH]; [reflexivity |]. cbn. exact IH. Qed.

(** [splice(index, 0, x)] at the index of an element puts [x] before it. *)
Lemma splice_insert_at (ws ls : list A) (x : A) :
  Js.splice (Z.of_nat (List.length ws)) 0 [x] (ws ++ ls) = ws ++ x :: ls.
Proof.
  unfold Js.splice, Js.spliceStart.
  destruct (Z.of_nat (List.length ws) <? 0)%Z eqn:Hneg;
    [apply Z.ltb_lt in Hneg; lia |].
  replace (Z.to_nat (Z.min (Z.of_nat (List.length ws))
                           (Z.of_nat (List.length (ws ++ ls)))))
    with (List.length ws)
    by (rewrite length_app; lia).
  rewrite firstn_length_app, skipn_length_app. reflexivity.
Qed.

(** [splice(start, 1)] takes out at most one element, and keeps the others
    in their order. *)
Lemma splice_delete_one (start : Z) (l : list A) :
  exists n, Js.splice start 1 [] l = firstn n l ++ skipn 1 (skipn n l).
Proof. exists (Js.spliceStart start l). reflexivity. Qed.

End ListFacts.

(** ** The wallet list of the store *)

Section WalletListFacts.

Import WalletsStore.

Lemma filter_all {A} (p : A -> bool) (l : list A) :
  Forall (fun x => p x = true) l -> filter p l = l.
Proof.
  induction 1 as [| x l Hx _ IH]; [reflexivity |].
  cbn. rewrite Hx, IH. reflexivity.
Qed.

Lemma filter_none {A} (p : A -> bool) (l : list A) :
  Forall (fun x => p x = false) l -> filter p l = [].
Proof.
  induction 1 as [| x l Hx _ IH]; [reflexivity |].
  cbn. rewrite Hx, IH. reflexivity.
Qed.

Lemma filter_Forall {A} (p : A -> bool) (l : list A) :
  Forall (fun x => p x = true) (filter p l).
Proof. apply Forall_forall. intros x Hx. apply filter_In in Hx. tauto. Qed.

Lemma legacy_split (r : list Wallet) :
  NonLegacyFirst
    (filter (fun w => negb (isLegacy w)) r ++ filter (fun w => isLegacy w) r).
Proof.
  exists (filter (fun w => negb (isLegacy w)) r), (filter (fun w => isLegacy w) r).
  split; [reflexivity |]. split.
  - eapply Forall_impl; [| apply filter_Forall].
    cbn. intros w Hw. now apply negb_true_iff in Hw.
  - apply filter_Forall.
Qed.

Lemma legacy_split_id (r : list Wallet) :
  NonLegacyFirst r ->
  filter (fun w => negb (isLegacy w)) r ++ filter (fun w => isLegacy w) r = r.
Proof.
  intros (ws & ls & -> & Hws & Hls). rewrite !filter_app.
  rewrite (filter_all (fun w => negb (isLegacy w)) ws),
    (filter_none (fun w => negb (isLegacy w)) ls),
    (filter_none (fun w => isLegacy w) ws),
    (filter_all (fun w => isLegacy w) ls).
  - rewrite app_nil_r. reflexivity.
  - exact Hls.
  - exact Hws.
  - eapply Forall_impl; [| exact Hls]. cbn. intros w ->. reflexivity.
  - eapply Forall_impl; [| exact Hws]. cbn. intros w ->. reflexivity.
Qed.

Lemma legacy_split_Permutation (r : list Wallet) :
  Permutation r
    (filter (fun w => negb (isLegacy w)) r ++ filter (fun w => isLegacy w) r).
Proof.
  induction r as [| w r IH]; [constructor |].
  cbn [filter]. destruct (isLegacy w); cbn [negb].
  - apply Permutation_cons_app. exact IH.
  - cbn. constructor. exact IH.
Qed.

(** A suffix of an ordered list is ordered, and so is what is left of an
    ordered list when a part of it is taken out. *)
Lemma NonLegacyFirst_cons_inv (w : Wallet) (l : list Wallet) :
  NonLegacyFirst (w :: l) ->
  NonLegacyFirst l /\ (isLegacy w = true -> Forall (fun x => isLegacy x = true) l).
Proof.
  intros (ws & ls & Heq & Hws & Hls). destruct ws as [| w' ws].
  - cbn in Heq. subst ls. inversion Hls; subst. split; [| intros _; assumption].
    exists [], l. repeat split; [constructor | assumption].
  - cbn in Heq. injection Heq as -> ->. inversion Hws; subst. split.
    + exists ws, ls. repeat split; assumption.
    + congruence.
Qed.

Lemma NonLegacyFirst_cons (w : Wallet) (l : list Wallet) :
  NonLegacyFirst l ->
  (isLegacy w = true -> Forall (fun x => isLegacy x = true) l) ->
  NonLegacyFirst (w :: l).
Proof.
  intros (ws & ls & -> & Hws & Hls) Hw. destruct (isLegacy w) eqn:E.
  - exists [], (w :: ws ++ ls). repeat split; [constructor |].
    constructor; [exact E | apply Hw; reflexivity].
  - exists (w :: ws), ls. repeat split; [constructor |]; assumption.
Qed.

Lemma Forall_skipn {A} (P : A -> Prop) (n : nat) (l : list A) :
  Forall P l -> Forall P (skipn n l).
Proof.
  intros H. rewrite <- (firstn_skipn n l) in H.
  apply Forall_app in H. tauto.
Qed.

Lemma NonLegacyFirst_skipn (n : nat) (l : list Wallet) :
  NonLegacyFirst l -> NonLegacyFirst (skipn n l).
Proof.
  revert l. induction n as [| n IH]; intros l H; [exact H |].
  destruct l as [| w l]; [exact H |].
  cbn. apply IH. now apply NonLegacyFirst_cons_inv in H.
Qed.

Lemma NonLegacyFirst_remove (n m : nat) (l : list Wallet) :
  NonLegacyFirst l -> NonLegacyFirst (firstn n l ++ skipn m (skipn n l)).
Proof.
  revert l. induction n as [| n IH]; intros l H.
  - cbn. now apply NonLegacyFirst_skipn.
  - destruct l as [| w l].
    + cbn. rewrite skipn_nil. exact H.
    + cbn. apply NonLegacyFirst_cons_inv in H as [Hl Hw].
      apply NonLegacyFirst_cons; [now apply IH |].
      intros E. specialize (Hw E). apply Forall_app. split.
      * rewrite <- (firstn_skipn n l) in Hw. apply Forall_app in Hw. tauto.
      * now apply Forall_skipn, Forall_skipn.
Qed.

(** *** What [patchWithNewWallet] does, case by case *)

Lemma find_id_absent (i : string) (r : list Wallet) :
  ~ In i (map id r) <-> Js.find (fun w => String.eqb (id w) i) r = None.
Proof.
  unfold Js.find. split.
  - intros Hnot. destruct (find _ r) as [w |] eqn:E; [| reflexivity].
    apply find_some in E as [Hin Heq]. apply String.eqb_eq in Heq.
    exfalso. apply Hnot. rewrite <- Heq. now apply in_map.
  - intros Hnone Hin. apply in_map_iff in Hin as (w & Hw & Hin).
    pose proof (find_none _ _ Hnone w Hin) as E. cbn in E.
    rewrite Hw, String.eqb_refl in E. discriminate.
Qed.

Lemma patch_present (wallet : Wallet) (r : list Wallet) :
  In (id wallet) (map id r) -> patchWithNewWallet wallet r = r.
Proof.
  intros Hin. unfold patchWithNewWallet.
  destruct (Js.find _ r) eqn:E; [reflexivity |].
  apply find_id_absent in E. contradiction.
Qed.

Lemma patch_legacy (wallet : Wallet) (r : list Wallet) :
  ~ In (id wallet) (map id r) -> isLegacy wallet = true ->
  patchWithNewWallet wallet r = r ++ [wallet].
Proof.
  intros Hnot Hl. unfold patchWithNewWallet.
  apply find_id_absent in Hnot. rewrite Hnot, Hl. reflexivity.
Qed.

Lemma patch_non_legacy (wallet : Wallet) (r : list Wallet) :
  ~ In (id wallet) (map id r) -> isLegacy wallet = false ->
  exists ws ls,
    r = ws ++ ls
    /\ Forall (fun w => isLegacy w = false) ws
    /\ match ls with
       | [] => True
       | firstLegacy :: _ => isLegacy firstLegacy = true
       end
    /\ patchWithNewWallet wallet r = ws ++ wallet :: ls.
Proof.
  intros Hnot Hl. unfold patchWithNewWallet.
  apply find_id_absent in Hnot. rewrite Hnot, Hl. cbn [isSome negb].
  destruct (findIndex_cases Wallet (fun w => isLegacy w) r)
    as [[Hi Hall] | (ws & x & ls & -> & Hws & Hx & Hi)].
  - rewrite Hi. cbn. exists r, [].
    split; [now rewrite app_nil_r |]. split; [exact Hall |].
    split; [exact I | reflexivity].
  - rewrite Hi.
    destruct (Z.of_nat (List.length ws) >=? 0)%Z eqn:Hge;
      [| rewrite Z.geb_leb in Hge; apply Z.leb_gt in Hge; lia].
    exists ws, (x :: ls).
    split; [reflexivity |]. split; [exact Hws |]. split; [exact Hx |].
    apply splice_insert_at.
Qed.

Lemma patch_Permutation (wallet : Wallet) (r : list Wallet) :
  ~ In (id wallet) (map id r) ->
  Permutation (wallet :: r) (patchWithNewWallet wallet r).
Proof.
  intros Hnot. destruct (isLegacy wallet) eqn:Hl.
  - rewrite (patch_legacy _ _ Hnot Hl). apply Permutation_cons_append.
  - destruct (patch_non_legacy _ _ Hnot Hl) as (ws & ls & -> & _ & _ & ->).
    apply Permutation_middle.
Qed.

Lemma patch_NonLegacyFirst (wallet : Wallet) (r : list Wallet) :
  NonLegacyFirst r -> NonLegacyFirst (patchWithNewWallet wallet r).
Proof.
  intros Hr.
  destruct (in_dec string_dec (id wallet) (map id r)) as [Hin | Hnot].
  - rewrite (patch_present _ _ Hin). exact Hr.
  - destruct (isLegacy wallet) eqn:Hl.
    + rewrite (patch_legacy _ _ Hnot Hl).
      destruct Hr as (ws & ls & -> & Hws & Hls).
      exists ws, (ls ++ [wallet]). rewrite app_assoc.
      split; [reflexivity |]. split; [exact Hws |].
      apply Forall_app. split; [exact Hls |].
      constructor; [exact Hl | constructor].
    + destruct (patch_non_legacy _ _ Hnot Hl) as (ws & ls & -> & Hws & Hhd & ->).
      exists (ws ++ [wallet]), ls. rewrite <- app_assoc. split; [reflexivity |].
      split.
      * apply Forall_app. split; [exact Hws |].
        constructor; [exact Hl | constructor].
      * assert (Hsuffix : NonLegacyFirst ls).
        { rewrite <- (skipn_length_app Wallet ws ls).
          now apply NonLegacyFirst_skipn. }
        destruct ls as [| x ls]; [constructor |].
        apply NonLegacyFirst_cons_inv in Hsuffix as [_ Hx].
        constructor; [exact Hhd | apply Hx; exact Hhd].
Qed.

End WalletListFacts.

Section WalletListTheorems.

Import WalletsStore.

Lemma all_of_result (st : Store) (wallets : list Wallet) :
  result (walletsRequest st) = Some wallets ->
  all st
  = filter (fun w => negb (isLegacy w)) wallets
    ++ filter (fun w => isLegacy w) wallets.
Proof. intros H. unfold all, allWallets, allLegacyWallets. now rewrite H. Qed.

Lemma all_NonLegacyFirst (st : Store) : NonLegacyFirst (all st).
Proof.
  destruct (result (walletsRequest st)) as [wallets |] eqn:H.
  - rewrite (all_of_result st wallets H). apply legacy_split.
  - unfold all, allWallets, allLegacyWallets. rewrite H.
    exists [], []. repeat split; constructor.
Qed.

Lemma spliceDeletedWallet_NonLegacyFirst (index : Z) (wallets : list Wallet) :
  NonLegacyFirst wallets -> NonLegacyFirst (spliceDeletedWallet index wallets).
Proof.
  intros H. unfold spliceDeletedWallet.
  destruct (splice_delete_one Wallet index wallets) as [n ->].
  now apply NonLegacyFirst_remove.
Qed.

(** C6.  The edits of the wallet list keep all non-legacy wallets before all
    legacy wallets.  The function that [_patchWalletRequestWithNewWallet]
    patches the result with leaves the list as it is when the id of the
    wallet occurs in it; otherwise it appends a legacy wallet, and puts a
    non-legacy wallet right before the first legacy wallet, at the end when
    there is none; an ordered list stays ordered under it and under the
    splice of [_deleteWallet].  [all] is always the non-legacy wallets of
    the result followed by the legacy ones, each in the order of the
    result. *)
Theorem wallet_list_non_legacy_first
    (st : Store) (wallet : Wallet) (wallets : list Wallet)
    (indexOfWalletToDelete : Z) :
  NonLegacyFirst (all st)
  /\ (result (walletsRequest st) = Some wallets ->
      all st = filter (fun w => negb (isLegacy w)) wallets
               ++ filter (fun w => isLegacy w) wallets)
  /\ (In (id wallet) (map id wallets) ->
      patchWithNewWallet wallet wallets = wallets)
  /\ (~ In (id wallet) (map id wallets) -> isLegacy wallet = true ->
      patchWithNewWallet wallet wallets = wallets ++ [wallet])
  /\ (~ In (id wallet) (map id wallets) -> isLegacy wallet = false ->
      exists ws ls,
        wallets = ws ++ ls
        /\ Forall (fun w => isLegacy w = false) ws
        /\ match ls with
           | [] => True
           | firstLegacy :: _ => isLegacy firstLegacy = true
           end
        /\ patchWithNewWallet wallet wallets = ws ++ wallet :: ls)
  /\ (NonLegacyFirst wallets ->
      NonLegacyFirst (patchWithNewWallet wallet wallets)
      /\ NonLegacyFirst (spliceDeletedWallet indexOfWalletToDelete wallets)).
Proof.
  split; [apply all_NonLegacyFirst |].
  split; [apply all_of_result |].
  split; [apply patch_present |].
  split; [apply patch_legacy |].
  split; [apply patch_non_legacy |].
  intros H. split.
  - now apply patch_NonLegacyFirst.
  - now apply spliceDeletedWallet_NonLegacyFirst.
Qed.

(** C4, as amended.  The store does order the wallet list by a rule of its
    own: [all] holds the wallets of the backend result with all non-legacy
    wallets before all legacy ones, and it is the result itself exactly when
    the result is so ordered already; a wallet is added to the result only
    when no wallet of the result has its id, so that ids that are distinct
    stay distinct, and it is placed so that an ordered result stays
    ordered. *)
Theorem wallet_list_local_constraints
    (st : Store) (wallets : list Wallet) (wallet : Wallet) :
  result (walletsRequest st) = Some wallets ->
  Permutation wallets (all st)
  /\ NonLegacyFirst (all st)
  /\ (all st = wallets <-> NonLegacyFirst wallets)
  /\ (In (id wallet) (map id wallets) ->
      patchWithNewWallet wallet wallets = wallets)
  /\ (~ In (id wallet) (map id wallets) ->
      Permutation (wallet :: wallets) (patchWithNewWallet wallet wallets))
  /\ (NoDup (map id wallets) ->
      NoDup (map id (patchWithNewWallet wallet wallets)))
  /\ (NonLegacyFirst wallets ->
      NonLegacyFirst (patchWithNewWallet wallet wallets)).
Proof.
  intros Hresult. rewrite (all_of_result st wallets Hresult).
  split; [apply legacy_split_Permutation |].
  split; [apply legacy_split |].
  split.
  { split; [intros <-; apply legacy_split | apply legacy_split_id]. }
  split; [apply patch_present |].
  split; [apply patch_Permutation |].
  split; [| apply patch_NonLegacyFirst].
  intros Hnodup.
  destruct (in_dec string_dec (id wallet) (map id wallets)) as [Hin | Hnot].
  - now rewrite (patch_present _ _ Hin).
  - apply (Permutation_NoDup (l := map id (wallet :: wallets))).
    + apply Permutation_map. now apply patch_Permutation.
    + cbn. constructor; assumption.
Qed.

End WalletListTheorems.

(** A non-legacy wallet goes between the non-legacy and the legacy wallet. *)
Lemma wallet_list_non_legacy_first_witness :
  WalletsStore.patchWithNewWallet Sample.shelley3 [Sample.shelley; Sample.byron]
  = [Sample.shelley; Sample.shelley3; Sample.byron]
  /\ WalletsStore.NonLegacyFirst
       (WalletsStore.patchWithNewWallet Sample.shelley3
          [Sample.shelley; Sample.byron]).
Proof.
  split; [reflexivity |].
  apply (wallet_list_non_legacy_first
           (Sample.store "/wallets" Sample.notExecuted) Sample.shelley3
           [Sample.shelley; Sample.byron] 0).
  exists [Sample.shelley], [Sample.byron].
  split; [reflexivity |].
  split; constructor; solve [reflexivity | constructor].
Defined.

(** C4 fails: with a backend result that lists a legacy wallet first, [all]
    is not the result; and a wallet is placed by its kind, or not added at
    all when its id is there. *)
Lemma wallet_list_mirrors_backend_counterexample :
  let st := Sample.store "/wallets"
              (Sample.executed [Sample.byron; Sample.shelley]) in
  WalletsStore.result (WalletsStore.walletsRequest st)
  = Some [Sample.byron; Sample.shelley]
  /\ WalletsStore.all st = [Sample.shelley; Sample.byron]
  /\ WalletsStore.all st <> [Sample.byron; Sample.shelley]
  /\ WalletsStore.patchWithNewWallet Sample.shelley3
       [Sample.shelley; Sample.byron]
     = [Sample.shelley; Sample.shelley3; Sample.byron]
  /\ WalletsStore.patchWithNewWallet Sample.shelley
       [Sample.shelley; Sample.byron]
     = [Sample.shelley; Sample.byron].
Proof.
  cbv zeta. repeat split; try reflexivity. discriminate.
Qed.

Lemma wallet_list_local_constraints_witness :
  let st := Sample.store "/wallets"
              (Sample.executed [Sample.byron; Sample.shelley]) in
  Permutation [Sample.byron; Sample.shelley] (WalletsStore.all st)
  /\ WalletsStore.NonLegacyFirst (WalletsStore.all st).
Proof.
  cbv zeta.
  pose proof (wallet_list_local_constraints
                (Sample.store "/wallets"
                   (Sample.executed [Sample.byron; Sample.shelley]))
                [Sample.byron; Sample.shelley] Sample.shelley3 eq_refl) as H.
  split; [exact (proj1 H) | exact (proj1 (proj2 H))].
Defined.

(** ** The active wallet *)

Section ActiveWalletFacts.

Import WalletsStore.

Context {imports : Imports}.

Lemma Wallet_eqb_eq (a b : Wallet) : Wallet_eqb a b = true -> a = b.
Proof.
  unfold Wallet_eqb. rewrite !andb_true_iff.
  intros [[[[[[Hid Hname] Hamount] Hlegacy] Hhw] Hnr] Hsync].
  destruct a, b; cbn in *.
  apply String.eqb_eq in Hid, Hname, Hsync. apply Z.eqb_eq in Hamount.
  apply Bool.eqb_prop in Hlegacy, Hhw, Hnr. congruence.
Qed.

(** A trigger of [goToRoute] leaves the wallets and the active wallet alone. *)
Lemma goToRoute_trigger_activeWallet route params (st : Store) :
  activeWallet (goToRoute_trigger route params st) = activeWallet st.
Proof.
  unfold goToRoute_trigger, _onRouteChange.
  destruct (isSome _); reflexivity.
Qed.

Lemma hasAnyLoaded_all (st : Store) :
  hasAnyLoaded st = true -> exists w0 rest, all st = w0 :: rest.
Proof.
  unfold hasAnyLoaded. destruct (all st) as [| w0 rest]; [discriminate |].
  intros _. now exists w0, rest.
Qed.

(** Once [walletsRequest] was executed, a wallet in [all] is a wallet of a
    result that is not empty. *)
Lemma hasAnyWallets_of_loaded (st : Store) :
  hasLoadedWallets st = true -> hasAnyLoaded st = true ->
  hasAnyWallets st = true.
Proof.
  unfold hasLoadedWallets, hasAnyLoaded, hasAnyWallets, all, allWallets,
    allLegacyWallets.
  intros ->. destruct (result (walletsRequest st)) as [[| w r] |];
    cbn; intros H; [discriminate | reflexivity | discriminate].
Qed.

(** [_setActiveWallet] with the id of a wallet of the list makes the first
    wallet with this id the active one. *)
Lemma _setActiveWallet_found (walletId : string) (w : Wallet) (st : Store) :
  hasAnyWallets st = true ->
  (forall a other, Wallet_update a other = other) ->
  Js.find (fun wallet => String.eqb (id wallet) walletId) (all st) = Some w ->
  active (activeWallet (_setActiveWallet walletId st)) = Some w.
Proof.
  intros Hany Hupdate Hfind. unfold _setActiveWallet.
  rewrite Hany, Hfind.
  set (st1 := if _ : bool then goToRoute_trigger _ _ st else st).
  assert (Hactive : activeWallet st1 = activeWallet st).
  { subst st1. destruct (_ && _); [apply goToRoute_trigger_activeWallet |].
    reflexivity. }
  destruct (differs _ walletId) eqn:Hd.
  - destruct (isHardwareWallet w); [| reflexivity].
    destruct (hardwareWalletsConnectionData _ _); reflexivity.
  - destruct (active (activeWallet st)) as [a |] eqn:Ha; [| discriminate].
    cbn [isEqual]. destruct (Wallet_eqb a w) eqn:Heq; cbn [negb].
    + rewrite Hactive, Ha. f_equal. now apply Wallet_eqb_eq.
    + cbn. now rewrite Hupdate.
Qed.

Lemma goToWalletRoute_activeWallet walletId (st : Store) :
  activeWallet (goToWalletRoute walletId st) = activeWallet st.
Proof. apply goToRoute_trigger_activeWallet. Qed.

(** C1.  [_updateActiveWalletOnRouteChanges] derives the active wallet from
    the route.  On the add-wallet page, or with no wallet loaded, [active],
    [activeValue] and [activePublicKey] are [null] afterwards.  Otherwise
    (with [walletsRequest] executed, as it is when it has a result, and
    [Wallet.update] copying the fields of its argument), when the route names
    the id of a wallet of the list, this wallet is the active one afterwards,
    and when it names an id that no wallet of the list has, the first wallet
    of the list is. *)
Theorem active_wallet_follows_route (st : Store) :
  let route := currentRoute (stores st) in
  let st' := _updateActiveWalletOnRouteChanges st in
  (isSome (matchRoute ROUTES_WALLETS_ADD route) = true
   \/ hasAnyLoaded st = false ->
   active (activeWallet st') = None
   /\ activeValue (activeWallet st') = None
   /\ activePublicKey (activeWallet st') = None)
  /\ (forall params walletId,
        isSome (matchRoute ROUTES_WALLETS_ADD route) = false ->
        hasLoadedWallets st = true ->
        (forall a other, Wallet_update a other = other) ->
        matchRoute (ROUTES_WALLETS_ROOT ++ "/:id(*page)")%string route
        = Some params ->
        param "id" params = Some walletId ->
        (forall w, getWalletById walletId st = Some w ->
                   active (activeWallet st') = Some w)
        /\ (getWalletById walletId st = None -> hasAnyLoaded st = true ->
            exists w0, first st = Some w0
                       /\ active (activeWallet st') = Some w0)).
Proof.
  cbv zeta. unfold _updateActiveWalletOnRouteChanges. split.
  - intros H.
    assert (E : isSome (matchRoute ROUTES_WALLETS_ADD (currentRoute (stores st)))
                || negb (hasAnyLoaded st) = true).
    { destruct H as [-> | ->]; [reflexivity | apply orb_true_r]. }
    rewrite E. repeat split.
  - intros params walletId Hadd Hloaded Hupdate Hmatch Hparam.
    rewrite Hadd, Hmatch, Hparam. cbn [orb].
    fold (getWalletById walletId st). split.
    + intros w Hfound.
      assert (Hany : hasAnyLoaded st = true).
      { unfold hasAnyLoaded. unfold getWalletById, Js.find in Hfound.
        destruct (all st); [discriminate | reflexivity]. }
      rewrite Hany, Hfound. cbn [negb].
      apply _setActiveWallet_found;
        [now apply hasAnyWallets_of_loaded | exact Hupdate |].
      unfold getWalletById, Js.find in Hfound.
      pose proof (find_some _ _ Hfound) as [_ Hid].
      apply String.eqb_eq in Hid. rewrite Hid. exact Hfound.
    + intros Hnone Hany. rewrite Hany, Hnone. cbn [negb].
      destruct (hasAnyLoaded_all st Hany) as (w0 & rest & Hall).
      exists w0. split.
      { unfold first. fold (hasAnyLoaded st). now rewrite Hany, Hall. }
      rewrite Hall.
      assert (Hset : active (activeWallet (_setActiveWallet (id w0) st))
                     = Some w0).
      { apply _setActiveWallet_found;
          [now apply hasAnyWallets_of_loaded | exact Hupdate |].
        rewrite Hall. unfold Js.find. cbn. now rewrite String.eqb_refl. }
      rewrite Hset, goToWalletRoute_activeWallet. exact Hset.
Qed.

End ActiveWalletFacts.

(** The route of the wallet "2", with a legacy wallet and the wallet "2"
    loaded: the wallet "2" becomes the active wallet. *)
Lemma active_wallet_follows_route_witness :
  WalletsStore.active
    (WalletsStore.activeWallet
       (@WalletsStore._updateActiveWalletOnRouteChanges Sample.imports
          (Sample.store "/wallets/2/summary"
             (Sample.executed [Sample.byron; Sample.shelley]))))
  = Some Sample.shelley.
Proof.
  destruct (proj2 (@active_wallet_follows_route Sample.imports
                     (Sample.store "/wallets/2/summary"
                        (Sample.executed [Sample.byron; Sample.shelley])))
              [("id", "2"); ("page", "summary")] "2"
              eq_refl eq_refl (fun _ _ => eq_refl) eq_refl eq_refl)
    as [Hfound _].
  apply Hfound. reflexivity.
Defined.

(** The same store on other routes: an id that no wallet has gives the first
    wallet of [all] and a redirection to it; the add-wallet page gives no
    active wallet. *)
Example _updateActiveWalletOnRouteChanges_examples :
  let run route :=
    @WalletsStore._updateActiveWalletOnRouteChanges Sample.imports
      (Sample.store route (Sample.executed [Sample.byron; Sample.shelley])) in
  WalletsStore.active (WalletsStore.activeWallet (run "/wallets/9/summary"))
  = Some Sample.shelley
  /\ WalletsStore.effects (run "/wallets/9/summary")
     = [WalletsStore.GoToRoute "/wallets/2/summary" None]
  /\ WalletsStore.active (WalletsStore.activeWallet (run "/wallets/add")) = None
  /\ WalletsStore.active (WalletsStore.activeWallet (run "/wallets"))
     = Some Sample.shelley.
Proof. vm_compute. repeat split. Qed.

(** ** Asynchronous actions: polling, restore, send *)

Section AsyncFacts.

Import WalletsStore.

Context {imports : Imports}.

Variable world : World.

(** Running [t; f] is running [t] and then, unless it threw, [f]. *)
Lemma run_andThen (t : Async) (f : Store -> Async) :
  run world (andThen t f)
  = match run world t with
    | (st, None) => run world (f st)
    | (st, Some e) => (st, Some e)
    end.
Proof.
  induction t as [st | st e | T st c k IH | st k IH | callee _ rest IH];
    cbn; try reflexivity; apply IH.
Qed.

Lemma run_tryCatch (t : Async) (h : JsError -> Store -> Async) :
  run world (tryCatch t h)
  = match run world t with
    | (st, None) => (st, None)
    | (st, Some e) => run world (h e st)
    end.
Proof.
  induction t as [st | st e | T st c k IH | st k IH | callee _ rest IH];
    cbn; try reflexivity; apply IH.
Qed.

(** The calls of a caller that goes on after a call without [await] are the
    calls of the callee and those of the rest of the caller. *)
Lemma calls_forked (t : Async) (rest : Store -> Async) :
  exists st, calls world (forked t rest) = calls world t ++ calls world (rest st).
Proof.
  induction t as [st | st e | T st c k _ | st k _ | callee _ r IH]; cbn.
  - now exists st.
  - now exists st.
  - now exists st.
  - now exists st.
  - destruct IH as [st' ->]. exists st'. apply app_assoc.
Qed.

(** [refreshWalletsData] makes no call to [createTransaction]. *)
Lemma refreshWalletsData_calls (st : Store) :
  filter isCreateTransaction (calls world (refreshWalletsData st)) = [].
Proof.
  unfold refreshWalletsData, await.
  destruct (_pollingBlocked st); [reflexivity |].
  destruct (isConnected (stores st)); [| reflexivity].
  cbn. destruct (fst (respond world WalletsRequest_execute st)) as [[r |] | e];
    cbn; try reflexivity.
  destruct (fst (respond world Trigger_refreshWalletsLocalData _)); reflexivity.
Qed.

(** *** Which awaits are on a request in flight *)





(** *** Pausing and resuming *)

(** C2.  Polling is paused and resumed by one boolean field.
    [_resumePolling] sets [_pollingBlocked] to [false].  [_pausePolling]
    sets it to [true]: at once when [walletsRequest] is not executing, and
    otherwise when the awaited request is fulfilled; it changes nothing
    else, and whenever it returns the field is [true].  With the field
    [true], [refreshWalletsData] returns at once: the store is as it was, no
    effect was issued and no request made. *)
Theorem polling_blocked_flag (st : Store) :
  _resumePolling st = withPollingBlocked false st
  /\ _pollingBlocked (_resumePolling st) = false
  /\ (isExecuting (walletsRequest st) = false ->
      _pausePolling st = Return (withPollingBlocked true st))
  /\ (isExecuting (walletsRequest st) = true ->
      exists k,
        _pausePolling st = Await st WalletsRequest_settled k
        /\ forall v st', k (Fulfilled v) st'
                         = Return (withPollingBlocked true st'))
  /\ (snd (run world (_pausePolling st)) = None ->
      _pollingBlocked (fst (run world (_pausePolling st))) = true)
  /\ (_pollingBlocked st = true ->
      refreshWalletsData st = Return st
      /\ run world (refreshWalletsData st) = (st, None)
      /\ calls world (refreshWalletsData st) = []).
Proof.
  split; [reflexivity |]. split; [reflexivity |].
  unfold _pausePolling, await. split; [intros ->; reflexivity |].
  split.
  { intros ->. eexists. split; [reflexivity |]. reflexivity. }
  split.
  { destruct (isExecuting (walletsRequest st)); cbn; [| reflexivity].
    destruct (fst (respond world WalletsRequest_settled st)); cbn;
      [reflexivity | discriminate]. }
  intros Hblocked. unfold refreshWalletsData. rewrite Hblocked.
  repeat split.
Qed.


End AsyncFacts.

(** [walletsRequest] is executing: pausing waits for it, and sets the field
    when it is fulfilled. *)
Lemma polling_blocked_flag_witness :
  WalletsStore._pollingBlocked
    (fst (WalletsStore.run (Sample.calm Sample.shelley)
            (WalletsStore._pausePolling
               (Sample.store "/wallets" (Sample.executing [Sample.shelley])))))
  = true.
Proof.
  destruct (@polling_blocked_flag Sample.imports (Sample.calm Sample.shelley)
              (Sample.store "/wallets" (Sample.executing [Sample.shelley])))
    as (_ & _ & _ & _ & H & _).
  apply H. reflexivity.
Defined.



(** ** The wizards *)

Section WizardFacts.

Import WalletsStore.

Context {imports : Imports}.

Variable world : World.

Lemma run_pausePolling (st : Store) :
  (forall st, exists v, fst (respond world WalletsRequest_settled st) = Fulfilled v) ->
  exists st', run world (_pausePolling st) = (st', None).
Proof.
  intros Hsettled. unfold _pausePolling, await.
  destruct (isExecuting (walletsRequest st)); cbn; [| eexists; reflexivity].
  destruct (Hsettled st) as [v ->]. eexists. reflexivity.
Qed.

(** A restore that succeeds ends with the [runInAction] that records the
    wallet. *)
Lemma run_restore (st : Store) (w : Wallet) :
  restoreSucceeds world w ->
  exists st', run world (_restore st) = (setRestoredWallet w st', None).
Proof.
  intros (Hsettled & Hphrase & Hrestore). unfold _restore, awaitAction.
  rewrite run_andThen.
  destruct (run_pausePolling st Hsettled) as [st1 ->]. cbn [run].
  destruct (_ && _).
  - unfold _getUnscrambledMnemonics.
    destruct (getScrambledInput _) as [passphrase scrambledInput].
    unfold await at 1. cbn [run].
    match goal with
    | |- context [respond world
                    (Execute_getWalletRecoveryPhraseFromCertificate ?p ?s) ?x] =>
        destruct (Hphrase p s x) as [v ->]
    end.
    cbn [run]. rewrite run_tryCatch. unfold await. cbn [run]. rewrite Hrestore.
    cbn. eexists. reflexivity.
  - rewrite run_tryCatch. unfold await. cbn [run]. rewrite Hrestore.
    cbn. eexists. reflexivity.
Qed.

(** C3, as amended.  The change-step actions of the three wizards change
    the step by exactly one, up, or down when going back, from its current
    value with [null] counted as [0], and choosing a certificate template
    goes one step up; the close and reset actions set the step to [null],
    and [_restoreWalletClose] does so unless it asks for a confirmation and
    leaves the step; the abort and cancel actions leave the step.  The begin
    actions set the step to [0], and a restore that succeeds sets
    [restoreWalletStep] to [3], whatever the step was. *)
Theorem wizard_steps (st : Store) (isBack : bool) (selectedTemplate : string)
    (w : Wallet) :
  createWalletStep (createWallet (_createWalletChangeStep isBack st))
  = Some (if isBack then Js.orZ (createWalletStep (createWallet st)) 0 - 1
          else Js.orZ (createWalletStep (createWallet st)) 0 + 1)%Z
  /\ restoreWalletStep (restoreWallet (_restoreWalletChangeStep isBack st))
     = Some (if isBack then Js.orZ (restoreWalletStep (restoreWallet st)) 0 - 1
             else Js.orZ (restoreWalletStep (restoreWallet st)) 0 + 1)%Z
  /\ certificateStep (paperWallet (_updateCertificateStep isBack st))
     = Some (if isBack then Js.orZ (certificateStep (paperWallet st)) 0 - 1
             else Js.orZ (certificateStep (paperWallet st)) 0 + 1)%Z
  /\ certificateStep (paperWallet (_setCertificateTemplate selectedTemplate st))
     = Some (Js.orZ (certificateStep (paperWallet st)) 0 + 1)%Z
  /\ createWalletStep (createWallet (_createWalletClose st)) = None
  /\ restoreWalletStep (restoreWallet (_restoreWalletResetData st)) = None
  /\ certificateStep (paperWallet (_resetCertificateData st)) = None
  /\ certificateStep (paperWallet (_closeCertificateGeneration st)) = None
  /\ certificateStep (paperWallet (_finishCertificate st)) = None
  /\ createWalletStep (createWallet (_createWalletBegin st)) = Some 0%Z
  /\ restoreWalletStep (restoreWallet (_restoreWalletBegin st)) = Some 0%Z
  /\ createWalletStep (createWallet (_createWalletAbort st))
     = createWalletStep (createWallet st)
  /\ restoreWalletStep (restoreWallet (_restoreWalletCancelClose st))
     = restoreWalletStep (restoreWallet st)
  /\ (restoreWalletStep (restoreWallet (_restoreWalletClose st))
      = restoreWalletStep (restoreWallet st)
      \/ restoreWalletStep (restoreWallet (_restoreWalletClose st)) = None)
  /\ (restoreSucceeds world w ->
      restoreWalletStep (restoreWallet (fst (run world (_restore st))))
      = Some 3%Z).
Proof.
  split; [reflexivity |].
  split.
  { unfold _restoreWalletChangeStep. cbn.
    destruct (restoreWalletStep (restoreWallet st)); reflexivity. }
  do 11 (split; [reflexivity |]).
  split.
  { unfold _restoreWalletClose. destruct (_ && _); [left | right]; reflexivity. }
  intros Hworld. destruct (run_restore st w Hworld) as [st' ->]. reflexivity.
Qed.

End WizardFacts.

(** C3 fails: the begin action of the restore wizard takes the step from
    [null] to [0]; from step [0], a restore that succeeds goes to step [3];
    and the begin action of the create wizard goes from step [2] to step
    [0].  None of these is a move by one. *)
Lemma wizard_step_jump_counterexample :
  let st0 := Sample.store "/wallets/add" Sample.notExecuted in
  let st := WalletsStore._restoreWalletBegin st0 in
  let st' := fst (WalletsStore.run (Sample.calm Sample.shelley)
                    (@WalletsStore._restore Sample.imports st)) in
  let c2 := WalletsStore._createWalletChangeStep false
              (WalletsStore._createWalletChangeStep false
                 (WalletsStore._createWalletBegin st)) in
  WalletsStore.restoreWalletStep (WalletsStore.restoreWallet st0) = None
  /\ WalletsStore.restoreWalletStep (WalletsStore.restoreWallet st) = Some 0%Z
  /\ ~ WalletsStore.adjacent None (Some 0%Z)
  /\ WalletsStore.restoreWalletStep (WalletsStore.restoreWallet st') = Some 3%Z
  /\ ~ WalletsStore.adjacent (Some 0%Z) (Some 3%Z)
  /\ WalletsStore.createWalletStep (WalletsStore.createWallet c2) = Some 2%Z
  /\ WalletsStore.createWalletStep
       (WalletsStore.createWallet (WalletsStore._createWalletBegin c2))
     = Some 0%Z
  /\ ~ WalletsStore.adjacent (Some 2%Z) (Some 0%Z).
Proof.
  cbv zeta. repeat split; try reflexivity;
    intros [H | H]; discriminate H.
Qed.

(** In the calm world a restore from the first step of the wizard ends on
    step 3. *)
Lemma wizard_steps_witness :
  WalletsStore.restoreWalletStep
    (WalletsStore.restoreWallet
       (fst (WalletsStore.run (Sample.calm Sample.shelley)
               (@WalletsStore._restore Sample.imports
                  (WalletsStore._restoreWalletBegin
                     (Sample.store "/wallets/add" Sample.notExecuted))))))
  = Some 3%Z.
Proof.
  apply (@wizard_steps Sample.imports (Sample.calm Sample.shelley)
           (WalletsStore._restoreWalletBegin
              (Sample.store "/wallets/add" Sample.notExecuted))
           false "" Sample.shelley).
  repeat split; intros; eexists; reflexivity.
Defined.

(** ** Sending money *)

Section SendMoneyFacts.

Import WalletsStore.

Context {imports : Imports}.

Variable world : World.

Lemma nth_error_mapi_from {A B} (f : A -> nat -> B) (l : list A) (s i : nat) :
  nth_error (mapi_from s f l) i
  = option_map (fun a => f a (s + i)) (nth_error l i).
Proof.
  revert s i. induction l as [| x l IH]; intros s i.
  - destruct i; reflexivity.
  - destruct i as [| i]; cbn.
    + now rewrite Nat.add_0_r.
    + rewrite IH. now rewrite Nat.add_succ_r.
Qed.

Lemma length_mapi_from {A B} (f : A -> nat -> B) (l : list A) (s : nat) :
  List.length (mapi_from s f l) = List.length l.
Proof.
  revert s. induction l as [| x l IH]; intros s; [reflexivity |].
  cbn. now rewrite IH.
Qed.

Lemma nth_map_nth_error {A B} (f : A -> B) (l : list A) (i : nat) (d : B) :
  nth i (map f l) d
  = match nth_error l i with
    | Some a => f a
    | None => d
    end.
Proof.
  revert i. induction l as [| x l IH]; intros [| i]; cbn;
    try reflexivity. apply IH.
Qed.

(** C5.  [_sendMoney] builds and signs no transaction.  Without an active
    wallet it throws before any request, with the store as it was.  With an
    active wallet, the first thing it does, with the store as it was, is to
    execute [sendMoneyRequest], that is the backend's [createTransaction],
    with the receiver as address, [parseInt(amount, 10)], the passphrase,
    the id and the [isLegacy] flag of the active wallet and the formatted
    assets; and no other call that the action makes, or leaves running, is a
    [createTransaction].  The formatted assets are [null] without assets or
    with an empty array of assets, and otherwise one entry for every asset,
    in the order of the assets, with the policy id and the name of the
    asset and, as quantity, [parseInt] of the amount string at the index of
    the asset, or [0] when there are no amounts or none at this index. *)
Theorem sendMoney_delegates_to_backend (params : SendMoney.Params)
    (st : Store) :
  (active (activeWallet st) = None ->
   _sendMoney params st
   = Throw st (Error "Active wallet required before sending.")
   /\ calls world (_sendMoney params st) = [])
  /\ (forall wallet, active (activeWallet st) = Some wallet ->
      exists formatted,
        let args :=
          {| CreateTransaction.address := SendMoney.receiver params;
             CreateTransaction.amount := parseInt10 (SendMoney.amount params);
             CreateTransaction.passphrase := SendMoney.passphrase params;
             CreateTransaction.walletId := id wallet;
             CreateTransaction.isLegacy := isLegacy wallet;
             CreateTransaction.assets := formatted |} in
        (exists k,
           _sendMoney params st = Await st (Execute_createTransaction args) k)
        /\ filter isCreateTransaction (calls world (_sendMoney params st))
           = [anyCall (Execute_createTransaction args)]
        /\ match SendMoney.assets params with
           | None => formatted = None
           | Some [] => formatted = None
           | Some assets =>
               exists entries,
                 formatted = Some entries
                 /\ List.length entries = List.length assets
                 /\ forall index asset,
                      nth_error assets index = Some asset ->
                      nth_error entries index
                      = Some
                          {| policy_id := policyId asset;
                             asset_name := assetName asset;
                             quantity :=
                               match SendMoney.assetsAmounts params with
                               | Some amounts =>
                                   match nth_error amounts index with
                                   | Some amount => parseInt10 amount
                                   | None => Num 0
                                   end
                               | None => Num 0
                               end |}
           end).
Proof.
  split.
  - intros Hnone. unfold _sendMoney. rewrite Hnone. split; reflexivity.
  - intros wallet Hsome. exists (formattedAssets params). cbv zeta.
    split; [| split].
    + unfold _sendMoney, await. rewrite Hsome. eexists. reflexivity.
    + unfold _sendMoney, await. rewrite Hsome.
      cbn [calls filter isCreateTransaction]. f_equal.
      destruct (fst (respond world _ st)) as [v | e]; [| reflexivity].
      match goal with
      | |- context [forked ?t ?rest] =>
          destruct (calls_forked world t rest) as [st' ->]
      end.
      rewrite filter_app, refreshWalletsData_calls. reflexivity.
    + unfold formattedAssets.
      destruct (SendMoney.assets params) as [[| a assets] |];
        try reflexivity.
      cbn [List.length Nat.eqb]. eexists. split; [reflexivity |]. split.
      * unfold mapi. rewrite length_mapi_from. reflexivity.
      * intros index asset Hnth. unfold mapi.
        rewrite nth_error_mapi_from, Hnth. cbn [option_map Nat.add].
        do 2 f_equal. unfold Js.get, assetsAmounts.
        destruct (SendMoney.assetsAmounts params) as [amounts |];
          [| reflexivity].
        apply nth_map_nth_error.
Qed.

End SendMoneyFacts.

(** A payment of ada and of two assets from the active wallet "2": one
    [createTransaction], with the amount parsed from the string and each
    asset with the amount at its index. *)
Lemma sendMoney_delegates_to_backend_witness :
  let token name := {| WalletsStore.policyId := "policy"; WalletsStore.assetName := name |} in
  let params :=
    {| WalletsStore.SendMoney.receiver := "addr1";
       WalletsStore.SendMoney.amount := "1500000";
       WalletsStore.SendMoney.passphrase := "secret";
       WalletsStore.SendMoney.assets := Some [token "gold"; token "silver"];
       WalletsStore.SendMoney.assetsAmounts := Some ["5"; "7"] |} in
  let st := @WalletsStore._updateActiveWalletOnRouteChanges Sample.imports
              (Sample.store "/wallets/2/send"
                 (Sample.executed [Sample.byron; Sample.shelley])) in
  filter WalletsStore.isCreateTransaction
    (WalletsStore.calls (Sample.calm Sample.shelley)
       (@WalletsStore._sendMoney Sample.imports params st))
  = [WalletsStore.anyCall
       (WalletsStore.Execute_createTransaction
          {| WalletsStore.CreateTransaction.address := "addr1";
             WalletsStore.CreateTransaction.amount := WalletsStore.Num 1500000;
             WalletsStore.CreateTransaction.passphrase := "secret";
             WalletsStore.CreateTransaction.walletId := "2";
             WalletsStore.CreateTransaction.isLegacy := false;
             WalletsStore.CreateTransaction.assets :=
               Some [{| WalletsStore.policy_id := "policy";
                        WalletsStore.asset_name := "gold";
                        WalletsStore.quantity := WalletsStore.Num 5 |};
                     {| WalletsStore.policy_id := "policy";
                        WalletsStore.asset_name := "silver";
                        WalletsStore.quantity := WalletsStore.Num 7 |}] |})].
Proof.
  cbv zeta.
  destruct (proj2 (@sendMoney_delegates_to_backend Sample.imports
                     (Sample.calm Sample.shelley)
                     {| WalletsStore.SendMoney.receiver := "addr1";
                        WalletsStore.SendMoney.amount := "1500000";
                        WalletsStore.SendMoney.passphrase := "secret";
                        WalletsStore.SendMoney.assets :=
                          Some [{| WalletsStore.policyId := "policy";
                                   WalletsStore.assetName := "gold" |};
                                {| WalletsStore.policyId := "policy";
                                   WalletsStore.assetName := "silver" |}];
                        WalletsStore.SendMoney.assetsAmounts :=
                          Some ["5"; "7"] |}
                     (@WalletsStore._updateActiveWalletOnRouteChanges
                        Sample.imports
                        (Sample.store "/wallets/2/send"
                           (Sample.executed [Sample.byron; Sample.shelley]))))
              Sample.shelley eq_refl)
    as (formatted & _ & Hcalls & Hassets).
  cbv zeta in Hcalls. rewrite Hcalls. cbn in Hassets.
  destruct Hassets as (entries & -> & Hlength & Hnth).
  destruct entries as [| e0 [| e1 [| e2 entries]]]; try discriminate Hlength.
  pose proof (Hnth 0%nat _ eq_refl) as H0.
  pose proof (Hnth 1%nat _ eq_refl) as H1.
  cbn in H0, H1. injection H0 as ->. injection H1 as ->.
  reflexivity.
Defined.

(* ================================================================== *)
(** * Part III: further properties of the code *)
(* ================================================================== *)

(** ** Adding, finding and deleting wallets *)

Section WalletListMore.

Import WalletsStore.

Lemma Wallet_eqb_refl (w : Wallet) : Wallet_eqb w w = true.
Proof.
  unfold Wallet_eqb.
  now rewrite !String.eqb_refl, Z.eqb_refl, !Bool.eqb_reflx.
Qed.

Lemma Wallet_eqb_other_id (x w : Wallet) :
  id x <> id w -> Wallet_eqb x w = false.
Proof.
  intros Hid. destruct (Wallet_eqb x w) eqn:E; [| reflexivity].
  apply Wallet_eqb_eq in E. congruence.
Qed.

Lemma find_split {A} (p : A -> bool) (l : list A) (w : A) :
  Js.find p l = Some w ->
  exists ws ls,
    l = ws ++ w :: ls /\ Forall (fun x => p x = false) ws /\ p w = true.
Proof.
  unfold Js.find. induction l as [| x l IH]; [discriminate |].
  cbn [find]. destruct (p x) eqn:Hx.
  - intros [= ->]. exists [], l. repeat split; [constructor | exact Hx].
  - intros H. destruct (IH H) as (ws & ls & -> & Hws & Hw).
    exists (x :: ws), ls. repeat split; [constructor; assumption | exact Hw].
Qed.

Lemma find_only {A} (p : A -> bool) (l : list A) (w : A) :
  In w l -> p w = true -> (forall x, In x l -> p x = true -> x = w) ->
  Js.find p l = Some w.
Proof.
  unfold Js.find. induction l as [| x l IH]; [intros [] |].
  intros Hin Hw Honly. cbn [find]. destruct (p x) eqn:Hx.
  - f_equal. apply Honly; [now left | exact Hx].
  - destruct Hin as [-> | Hin]; [congruence |].
    apply IH; [exact Hin | exact Hw |].
    intros y Hy. apply Honly. now right.
Qed.

Lemma indexOf_at {A} (eqb : A -> A -> bool) (ws ls : list A) (w : A) :
  Forall (fun x => eqb x w = false) ws -> eqb w w = true ->
  Js.indexOf eqb w (ws ++ w :: ls) = Z.of_nat (List.length ws).
Proof.
  intros Hws Hw. induction Hws as [| x ws Hx _ IH]; cbn [app Js.indexOf].
  - now rewrite Hw.
  - rewrite Hx, IH.
    destruct (Z.of_nat (List.length ws) <? 0)%Z eqn:Hneg.
    + apply Z.ltb_lt in Hneg. lia.
    + cbn [List.length]. lia.
Qed.

(** [splice(index, 1)] at the index of an element takes this element out. *)
Lemma splice_delete_at {A} (ws ls : list A) (w : A) :
  Js.splice (Z.of_nat (List.length ws)) 1 [] (ws ++ w :: ls) = ws ++ ls.
Proof.
  unfold Js.splice, Js.spliceStart.
  destruct (Z.of_nat (List.length ws) <? 0)%Z eqn:Hneg;
    [apply Z.ltb_lt in Hneg; lia |].
  replace (Z.to_nat (Z.min (Z.of_nat (List.length ws))
                           (Z.of_nat (List.length (ws ++ w :: ls)))))
    with (List.length ws)
    by (rewrite length_app; cbn [List.length]; lia).
  rewrite firstn_length_app, skipn_length_app. reflexivity.
Qed.

(** With an ordered result, [all] is the result. *)
Lemma all_ordered (st : Store) (wallets : list Wallet) :
  result (walletsRequest st) = Some wallets -> NonLegacyFirst wallets ->
  all st = wallets.
Proof.
  intros Hresult Hordered. rewrite (all_of_result st wallets Hresult).
  now apply legacy_split_id.
Qed.

(** What a patch with a wallet of a new id gives: the wallet, between two
    parts of the result. *)
Lemma patch_new_split (wallet : Wallet) (wallets : list Wallet) :
  ~ In (id wallet) (map id wallets) ->
  exists ws ls,
    wallets = ws ++ ls
    /\ patchWithNewWallet wallet wallets = ws ++ wallet :: ls.
Proof.
  intros Hnot. destruct (isLegacy wallet) eqn:Hl.
  - exists wallets, []. rewrite app_nil_r. split; [reflexivity |].
    now apply patch_legacy.
  - destruct (patch_non_legacy wallet wallets Hnot Hl)
      as (ws & ls & Hsplit & _ & _ & Hpatch).
    now exists ws, ls.
Qed.

(** X1.  Adding a wallet twice is adding it once: the function that
    [_patchWalletRequestWithNewWallet] patches the result with is
    idempotent. *)
Theorem patchWithNewWallet_idempotent (wallet : Wallet)
    (wallets : list Wallet) :
  patchWithNewWallet wallet (patchWithNewWallet wallet wallets)
  = patchWithNewWallet wallet wallets.
Proof.
  apply patch_present.
  destruct (in_dec string_dec (id wallet) (map id wallets)) as [Hin | Hnot].
  - now rewrite (patch_present wallet wallets Hin).
  - apply (Permutation_in (l := map id (wallet :: wallets))).
    + apply Permutation_map. now apply patch_Permutation.
    + now left.
Qed.

(** X2.  A wallet that was added is found by its id: once the result is
    patched with a wallet, [getWalletById] with the id of the wallet finds a
    wallet with this id, and it finds the wallet itself when no wallet of
    the result had the id. *)
Theorem getWalletById_after_patch (st : Store) (wallet : Wallet)
    (wallets : list Wallet) :
  result (walletsRequest st) = Some (patchWithNewWallet wallet wallets) ->
  (exists found,
     getWalletById (id wallet) st = Some found /\ id found = id wallet)
  /\ (~ In (id wallet) (map id wallets) ->
      getWalletById (id wallet) st = Some wallet).
Proof.
  intros Hresult.
  assert (Hperm : Permutation (patchWithNewWallet wallet wallets) (all st)).
  { rewrite (all_of_result st _ Hresult). apply legacy_split_Permutation. }
  assert (Hnew : ~ In (id wallet) (map id wallets) ->
                 getWalletById (id wallet) st = Some wallet).
  { intros Hnot. apply find_only.
    - apply (Permutation_in _ Hperm).
      apply (Permutation_in _ (patch_Permutation wallet wallets Hnot)).
      now left.
    - apply String.eqb_refl.
    - intros x Hx Hid. apply String.eqb_eq in Hid.
      apply (Permutation_in _ (Permutation_sym Hperm)) in Hx.
      apply (Permutation_in
               _ (Permutation_sym (patch_Permutation wallet wallets Hnot)))
        in Hx.
      destruct Hx as [-> | Hx]; [reflexivity |].
      exfalso. apply Hnot. rewrite <- Hid. now apply in_map. }
  split; [| exact Hnew].
  destruct (in_dec string_dec (id wallet) (map id wallets)) as [Hin | Hnot].
  - rewrite (patch_present wallet wallets Hin) in Hperm.
    apply in_map_iff in Hin as (x & Hid & Hx).
    apply (Permutation_in _ Hperm) in Hx.
    destruct (getWalletById (id wallet) st) as [found |] eqn:E.
    + exists found. split; [reflexivity |].
      apply find_some in E as [_ E]. now apply String.eqb_eq in E.
    + exfalso. unfold getWalletById, Js.find in E.
      pose proof (find_none _ _ E x Hx) as Hx'. cbn in Hx'.
      rewrite Hid, String.eqb_refl in Hx'. discriminate.
  - exists wallet. split; [now apply Hnew | reflexivity].
Qed.

(** X3.  With a result that lists the non-legacy wallets first,
    [_deleteWallet] takes the wallet it found out of the result: the index
    of the wallet in [all] is its index in the result, and the splice leaves
    the wallets before it and after it, in their order. *)
Theorem deleteWallet_splices_found_wallet (st : Store)
    (wallets : list Wallet) (walletId : string) (walletToDelete : Wallet) :
  result (walletsRequest st) = Some wallets ->
  NonLegacyFirst wallets ->
  getWalletById walletId st = Some walletToDelete ->
  exists before after,
    wallets = before ++ walletToDelete :: after
    /\ Forall (fun w => id w <> walletId) before
    /\ id walletToDelete = walletId
    /\ spliceDeletedWallet (Js.indexOf Wallet_eqb walletToDelete (all st))
         wallets
       = before ++ after.
Proof.
  intros Hresult Hordered Hfound.
  rewrite (all_ordered st wallets Hresult Hordered).
  unfold getWalletById in Hfound.
  rewrite (all_ordered st wallets Hresult Hordered) in Hfound.
  destruct (find_split _ _ _ Hfound) as (ws & ls & -> & Hws & Hw).
  apply String.eqb_eq in Hw.
  exists ws, ls. split; [reflexivity |].
  assert (Hids : Forall (fun w => id w <> walletId) ws).
  { eapply Forall_impl; [| exact Hws]. cbn. intros x Hx.
    now apply String.eqb_neq. }
  split; [exact Hids |]. split; [exact Hw |].
  unfold spliceDeletedWallet. rewrite indexOf_at.
  - apply splice_delete_at.
  - eapply Forall_impl; [| exact Hids]. cbn. intros x Hx.
    apply Wallet_eqb_other_id. congruence.
  - apply Wallet_eqb_refl.
Qed.

(** X4.  Deleting the wallet that was just added gives the result back:
    for an ordered result without the id of the wallet, the splice of
    [_deleteWallet], at the index of the wallet in [all], undoes the patch
    of [_patchWalletRequestWithNewWallet]. *)
Theorem deleteWallet_undoes_patch (st : Store) (wallet : Wallet)
    (wallets : list Wallet) :
  result (walletsRequest st) = Some (patchWithNewWallet wallet wallets) ->
  NonLegacyFirst wallets ->
  ~ In (id wallet) (map id wallets) ->
  spliceDeletedWallet (Js.indexOf Wallet_eqb wallet (all st))
    (patchWithNewWallet wallet wallets)
  = wallets.
Proof.
  intros Hresult Hordered Hnot.
  rewrite (all_ordered st _ Hresult (patch_NonLegacyFirst _ _ Hordered)).
  destruct (patch_new_split wallet wallets Hnot) as (ws & ls & Hsplit & ->).
  unfold spliceDeletedWallet. rewrite indexOf_at.
  - rewrite Hsplit. apply splice_delete_at.
  - apply Forall_forall. intros x Hx. apply Wallet_eqb_other_id.
    intros Hid. apply Hnot. rewrite <- Hid, Hsplit.
    apply in_map, in_or_app. now left.
  - apply Wallet_eqb_refl.
Qed.

(** X5.  The index that [_deleteWallet] splices at is taken in [all], not in
    the result: when the result lists a legacy wallet before a non-legacy
    wallet, deleting the non-legacy wallet takes the legacy wallet out of
    the result, and leaves the wallet that was to be deleted. *)
Theorem deleteWallet_index_is_taken_in_all (st : Store)
    (legacy wallet : Wallet) (others : list Wallet) :
  result (walletsRequest st) = Some (legacy :: wallet :: others) ->
  isLegacy legacy = true ->
  isLegacy wallet = false ->
  getWalletById (id wallet) st = Some wallet
  /\ spliceDeletedWallet (Js.indexOf Wallet_eqb wallet (all st))
       (legacy :: wallet :: others)
     = wallet :: others.
Proof.
  intros Hresult Hlegacy Hwallet.
  assert (Hall : exists rest, all st = wallet :: rest).
  { rewrite (all_of_result st _ Hresult). cbn [filter].
    rewrite Hlegacy, Hwallet. cbn. eexists. reflexivity. }
  destruct Hall as [rest Hall]. unfold getWalletById. rewrite Hall. split.
  - unfold Js.find. cbn. now rewrite String.eqb_refl.
  - cbn [Js.indexOf]. rewrite Wallet_eqb_refl. reflexivity.
Qed.

End WalletListMore.

Lemma getWalletById_after_patch_witness :
  WalletsStore.getWalletById "3"
    (Sample.store "/wallets"
       (Sample.executed [Sample.shelley; Sample.shelley3; Sample.byron]))
  = Some Sample.shelley3.
Proof.
  apply (proj2 (getWalletById_after_patch
                  (Sample.store "/wallets"
                     (Sample.executed
                        [Sample.shelley; Sample.shelley3; Sample.byron]))
                  Sample.shelley3 [Sample.shelley; Sample.byron] eq_refl)).
  cbn. intros [H | [H | []]]; discriminate H.
Defined.

Lemma deleteWallet_splices_found_wallet_witness :
  exists before after,
    [Sample.shelley; Sample.byron] = before ++ Sample.byron :: after
    /\ Forall (fun w => WalletsStore.id w <> "legacy_1") before
    /\ WalletsStore.id Sample.byron = "legacy_1"
    /\ WalletsStore.spliceDeletedWallet
         (Js.indexOf WalletsStore.Wallet_eqb Sample.byron
            (WalletsStore.all
               (Sample.store "/wallets"
                  (Sample.executed [Sample.shelley; Sample.byron]))))
         [Sample.shelley; Sample.byron]
       = before ++ after.
Proof.
  apply (deleteWallet_splices_found_wallet
           (Sample.store "/wallets"
              (Sample.executed [Sample.shelley; Sample.byron]))
           [Sample.shelley; Sample.byron] "legacy_1" Sample.byron eq_refl).
  - exists [Sample.shelley], [Sample.byron].
    split; [reflexivity |]. split; constructor; solve [reflexivity | constructor].
  - reflexivity.
Defined.

Lemma deleteWallet_undoes_patch_witness :
  WalletsStore.spliceDeletedWallet
    (Js.indexOf WalletsStore.Wallet_eqb Sample.shelley3
       (WalletsStore.all
          (Sample.store "/wallets"
             (Sample.executed [Sample.shelley; Sample.shelley3; Sample.byron]))))
    (WalletsStore.patchWithNewWallet Sample.shelley3
       [Sample.shelley; Sample.byron])
  = [Sample.shelley; Sample.byron].
Proof.
  apply (deleteWallet_undoes_patch
           (Sample.store "/wallets"
              (Sample.executed [Sample.shelley; Sample.shelley3; Sample.byron]))
           Sample.shelley3 [Sample.shelley; Sample.byron] eq_refl).
  - exists [Sample.shelley], [Sample.byron].
    split; [reflexivity |]. split; constructor; solve [reflexivity | constructor].
  - cbn. intros [H | [H | []]]; discriminate H.
Defined.

Lemma deleteWallet_index_is_taken_in_all_witness :
  WalletsStore.spliceDeletedWallet
    (Js.indexOf WalletsStore.Wallet_eqb Sample.shelley
       (WalletsStore.all
          (Sample.store "/wallets"
             (Sample.executed [Sample.byron; Sample.shelley]))))
    [Sample.byron; Sample.shelley]
  = [Sample.shelley].
Proof.
  apply (deleteWallet_index_is_taken_in_all
           (Sample.store "/wallets"
              (Sample.executed [Sample.byron; Sample.shelley]))
           Sample.byron Sample.shelley [] eq_refl eq_refl eq_refl).
Defined.

(** ** Asynchronous actions: what happens when a request fails *)

Section AsyncMore.

Import WalletsStore.

Context {imports : Imports}.

Variable world : World.

(** A caller that goes on after a call without [await] ends as the rest of
    the caller does, from the store that the callee left. *)
Lemma run_forked (t : Async) (rest : Store -> Async) :
  exists st, run world (forked t rest) = run world (rest st).
Proof.
  induction t as [st | st e | T st c k _ | st k _ | callee _ r IH]; cbn;
    try (now exists st).
  exact IH.
Qed.

(** The wallet of an id is looked up in the result of [walletsRequest]. *)
Lemma getWalletById_result (walletId : string) (st st' : Store) :
  result (walletsRequest st') = result (walletsRequest st) ->
  getWalletById walletId st' = getWalletById walletId st.
Proof.
  intros H. unfold getWalletById, all, allWallets, allLegacyWallets.
  now rewrite H.
Qed.

(** X6.  Deleting a wallet that the list does not have ends without a
    request to the backend, but leaves polling blocked: in a world that
    leaves the wallet list and the polling flag as the action left them,
    [_deleteWallet] with an id that no wallet has returns with [isDeleting]
    false and [_pollingBlocked] true, and the only call it can have made is
    the wait for a [walletsRequest] in flight. *)
Theorem deleteWallet_unknown_id (walletId : string) (isLegacy : bool)
    (st : Store) :
  leaves (fun st => result (walletsRequest st)) world ->
  leaves _pollingBlocked world ->
  (forall st, exists v,
      fst (respond world WalletsRequest_settled st) = Fulfilled v) ->
  getWalletById walletId st = None ->
  exists st',
    run world (_deleteWallet walletId isLegacy st) = (st', None)
    /\ isDeleting st' = false
    /\ _pollingBlocked st' = true
    /\ Forall (fun c => c = anyCall WalletsRequest_settled)
         (calls world (_deleteWallet walletId isLegacy st)).
Proof.
  intros [Hresume Hrespond] [Hresume' Hrespond'] Hsettled Hnone.
  unfold _deleteWallet, awaitAction, _pausePolling, await.
  destruct (isExecuting (walletsRequest (withIsDeleting true st))).
  - cbn [andThen run calls].
    destruct (Hsettled (withIsDeleting true st)) as [v Hv]. rewrite Hv.
    cbn [andThen run calls].
    rewrite (getWalletById_result walletId st), Hnone.
    + eexists. split; [reflexivity |]. split; [reflexivity |]. split.
      * cbn. now rewrite Hresume'.
      * repeat constructor.
    + rewrite Hresume. cbn. rewrite Hrespond. reflexivity.
  - cbn [andThen run calls].
    rewrite (getWalletById_result walletId st), Hnone.
    + eexists. split; [reflexivity |]. split; [reflexivity |]. split.
      * cbn. now rewrite Hresume'.
      * constructor.
    + rewrite Hresume. reflexivity.
Qed.

(** X7.  A restore that fails does not throw and unblocks polling: when the
    restore request is rejected, or returns no wallet, [_restore] returns
    normally and leaves [_pollingBlocked] false. *)
Theorem restore_failure_resumes_polling (st : Store) :
  (forall st, exists v,
      fst (respond world WalletsRequest_settled st) = Fulfilled v) ->
  (forall passphrase scrambledInput st, exists v,
      fst (respond world
             (Execute_getWalletRecoveryPhraseFromCertificate
                passphrase scrambledInput) st)
      = Fulfilled v) ->
  (forall request data st w,
      fst (respond world (Execute_restore request data) st)
      <> Fulfilled (Some w)) ->
  snd (run world (_restore st)) = None
  /\ _pollingBlocked (fst (run world (_restore st))) = false.
Proof.
  intros Hsettled Hphrase Hfail.
  assert (Hexecute : forall request data st1 (k : option Wallet -> Store -> Async),
    (forall st, k None st
                = Throw st (Error "Restored wallet was not received correctly")) ->
    exists st2,
      run world
        (tryCatch (await st1 (Execute_restore request data) k)
           (fun _ st => Return (_resumePolling st)))
      = (_resumePolling st2, None)).
  { intros request data st1 k Hk. rewrite run_tryCatch. unfold await.
    cbn [run]. pose proof (Hfail request data st1) as Hno.
    destruct (fst (respond world (Execute_restore request data) st1))
      as [[w |] | e]; [now destruct (Hno w) | |].
    - rewrite Hk. cbn. eexists. reflexivity.
    - cbn. eexists. reflexivity. }
  assert (Hrun : exists st2,
            run world (_restore st) = (_resumePolling st2, None)).
  { unfold _restore, awaitAction. rewrite run_andThen.
    destruct (run_pausePolling world st Hsettled) as [st1 ->]. cbn [run].
    destruct (_ && _).
    - unfold _getUnscrambledMnemonics.
      destruct (getScrambledInput _) as [passphrase scrambledInput].
      unfold await at 1. cbn [run].
      match goal with
      | |- context [respond world
                      (Execute_getWalletRecoveryPhraseFromCertificate ?p ?s) ?x] =>
          destruct (Hphrase p s x) as [v ->]
      end.
      cbn [run]. apply Hexecute. reflexivity.
    - apply Hexecute. reflexivity. }
  destruct Hrun as [st2 ->]. split; reflexivity.
Qed.

(** X8.  The [try] of [_restore] does not cover the unscrambling of a
    27-word recovery phrase: when that request is rejected, in a world that
    leaves the settings of the wizard and the polling flag as the action left
    them, [_restore] throws the error, makes no restore request, and leaves
    polling blocked. *)
Theorem restore_unscrambling_failure_blocks_polling (st : Store)
    (e : JsError) :
  leaves restoreWallet world ->
  leaves _pollingBlocked world ->
  (forall st, exists v,
      fst (respond world WalletsRequest_settled st) = Fulfilled v) ->
  equals (walletKind (restoreWallet st)) WALLET_KINDS_DAEDALUS
  && equals (walletKindDaedalus (restoreWallet st)) DAEDALUS_BYRON_27_WORD
  = true ->
  (forall passphrase scrambledInput st,
      fst (respond world
             (Execute_getWalletRecoveryPhraseFromCertificate
                passphrase scrambledInput) st)
      = Rejected e) ->
  snd (run world (_restore st)) = Some e
  /\ _pollingBlocked (fst (run world (_restore st))) = true
  /\ makes isRestore (calls world (_restore st)) = false.
Proof.
  intros [Hresume Hrespond] [Hresume' Hrespond'] Hsettled Hkind Hreject.
  unfold _restore, awaitAction, _pausePolling, await.
  destruct (isExecuting (walletsRequest st)).
  - cbn [andThen run calls].
    destruct (Hsettled st) as [v Hv]. rewrite Hv. cbn [andThen run calls].
    set (st1 := resume world _).
    assert (Hr : restoreWallet (_restoreWalletResetRequests st1)
                 = restoreWallet st).
    { cbn. subst st1. rewrite Hresume. cbn. apply Hrespond. }
    rewrite Hr, Hkind. unfold _getUnscrambledMnemonics.
    destruct (getScrambledInput _) as [passphrase scrambledInput].
    unfold await. cbn [run calls]. rewrite Hreject. cbn [run calls].
    split; [reflexivity |]. split; [| reflexivity].
    cbn [fst]. rewrite Hrespond'. cbn. subst st1. rewrite Hresume'.
    reflexivity.
  - cbn [andThen run calls].
    set (st1 := resume world _).
    assert (Hr : restoreWallet (_restoreWalletResetRequests st1)
                 = restoreWallet st).
    { cbn. subst st1. rewrite Hresume. reflexivity. }
    rewrite Hr, Hkind. unfold _getUnscrambledMnemonics.
    destruct (getScrambledInput _) as [passphrase scrambledInput].
    unfold await. cbn [run calls]. rewrite Hreject. cbn [run calls].
    split; [reflexivity |]. split; [| reflexivity].
    cbn [fst]. rewrite Hrespond'. cbn. subst st1. rewrite Hresume'.
    reflexivity.
Qed.

(** X9.  A transaction that the backend rejects changes nothing in the
    store: [_sendMoney] throws the error of the request, with the store as
    it found it on resumption (the dialog is not closed, the request is not
    reset, the route is not changed), and the request was its only call (no
    refresh of the wallets is started). *)
Theorem sendMoney_rejected (params : SendMoney.Params) (st : Store)
    (wallet : Wallet) (e : JsError) :
  active (activeWallet st) = Some wallet ->
  (forall transaction st,
      fst (respond world (Execute_createTransaction transaction) st)
      = Rejected e) ->
  exists transaction,
    calls world (_sendMoney params st)
    = [anyCall (Execute_createTransaction transaction)]
    /\ run world (_sendMoney params st)
       = (snd (respond world (Execute_createTransaction transaction) st),
          Some e).
Proof.
  intros Hactive Hreject. unfold _sendMoney, await. rewrite Hactive.
  eexists. cbn [run calls]. rewrite Hreject. split; reflexivity.
Qed.

(** X10.  Ending a restore adds the restored wallet and closes the wizard:
    with a restored wallet, and the patch of [walletsRequest] fulfilled,
    [_restoreWalletEnd] first patches the result with the function that adds
    this wallet, returns normally, and leaves the data of the wizard as
    [_restoreWalletResetData] sets them. *)
Theorem restoreWalletEnd_adds_wallet_and_resets (st : Store) (w : Wallet) :
  restoredWallet (restoreWallet st) = Some w ->
  (forall modify st, exists v,
      fst (respond world (WalletsRequest_patch modify) st) = Fulfilled v) ->
  snd (run world (_restoreWalletEnd st)) = None
  /\ restoreWallet (fst (run world (_restoreWalletEnd st)))
     = restoreWallet (_restoreWalletResetData st)
  /\ exists rest,
       calls world (_restoreWalletEnd st)
       = anyCall (WalletsRequest_patch (onArray (patchWithNewWallet w)))
         :: rest.
Proof.
  intros Hrestored Hpatch. unfold _restoreWalletEnd. cbv zeta.
  change (restoredWallet (restoreWallet (_resumePolling st)))
    with (restoredWallet (restoreWallet st)).
  rewrite Hrestored.
  unfold awaitAction, _patchWalletRequestWithNewWallet, await.
  cbn [andThen run calls].
  destruct (Hpatch (onArray (patchWithNewWallet w)) (_resumePolling st))
    as [v Hv].
  rewrite Hv. cbn [andThen run calls].
  match goal with
  | |- context [run world (forked ?t ?rest)] =>
      destruct (run_forked t rest) as [st' ->]
  end.
  cbn [run fst snd]. split; [reflexivity |]. split; [reflexivity |].
  eexists. reflexivity.
Qed.

End AsyncMore.

Lemma deleteWallet_unknown_id_witness :
  exists st',
    WalletsStore.run
      (Sample.failing WalletsStore.isPatch Sample.backendError Sample.byron)
      (@WalletsStore._deleteWallet Sample.imports "9" false
         (Sample.store "/wallets" (Sample.executing [Sample.shelley])))
    = (st', None)
    /\ WalletsStore.isDeleting st' = false
    /\ WalletsStore._pollingBlocked st' = true
    /\ Forall (fun c => c = WalletsStore.anyCall WalletsStore.WalletsRequest_settled)
         (WalletsStore.calls
            (Sample.failing WalletsStore.isPatch Sample.backendError
               Sample.byron)
            (@WalletsStore._deleteWallet Sample.imports "9" false
               (Sample.store "/wallets" (Sample.executing [Sample.shelley])))).
Proof.
  apply (@deleteWallet_unknown_id Sample.imports
           (Sample.failing WalletsStore.isPatch Sample.backendError
              Sample.byron)
           "9" false
           (Sample.store "/wallets" (Sample.executing [Sample.shelley]))).
  - split; [reflexivity |]. intros T c st. destruct c; reflexivity.
  - split; [reflexivity |]. intros T c st. destruct c; reflexivity.
  - intros st. exists tt. reflexivity.
  - reflexivity.
Defined.

Lemma restore_failure_resumes_polling_witness :
  snd (WalletsStore.run
         (Sample.failing WalletsStore.isRestore Sample.backendError
            Sample.byron)
         (@WalletsStore._restore Sample.imports
            (Sample.store "/wallets/add" Sample.notExecuted)))
  = None
  /\ WalletsStore._pollingBlocked
       (fst (WalletsStore.run
               (Sample.failing WalletsStore.isRestore Sample.backendError
                  Sample.byron)
               (@WalletsStore._restore Sample.imports
                  (Sample.store "/wallets/add" Sample.notExecuted))))
     = false.
Proof.
  apply (@restore_failure_resumes_polling Sample.imports
           (Sample.failing WalletsStore.isRestore Sample.backendError
              Sample.byron)
           (Sample.store "/wallets/add" Sample.notExecuted)).
  - intros st. exists tt. reflexivity.
  - intros passphrase scrambledInput st. exists []. reflexivity.
  - intros request data st w H. discriminate H.
Defined.

Lemma restore_unscrambling_failure_blocks_polling_witness :
  let world :=
    Sample.failing WalletsStore.isUnscramble Sample.backendError Sample.byron in
  let st :=
    @WalletsStore._restoreWalletSetKind (Some "Daedalus") "27WordByron"
      (@WalletsStore._restoreWalletSetKind None "Daedalus"
         (Sample.store "/wallets/add" Sample.notExecuted)) in
  snd (WalletsStore.run world (@WalletsStore._restore Sample.imports st))
  = Some Sample.backendError
  /\ WalletsStore._pollingBlocked
       (fst (WalletsStore.run world (@WalletsStore._restore Sample.imports st)))
     = true
  /\ WalletsStore.makes WalletsStore.isRestore
       (WalletsStore.calls world (@WalletsStore._restore Sample.imports st))
     = false.
Proof.
  apply (@restore_unscrambling_failure_blocks_polling Sample.imports
           (Sample.failing WalletsStore.isUnscramble Sample.backendError
              Sample.byron)
           (@WalletsStore._restoreWalletSetKind (Some "Daedalus") "27WordByron"
              (@WalletsStore._restoreWalletSetKind None "Daedalus"
                 (Sample.store "/wallets/add" Sample.notExecuted)))
           Sample.backendError).
  - split; [reflexivity |]. intros T c st. destruct c; try reflexivity.
    cbn. destruct (modify _); reflexivity.
  - split; [reflexivity |]. intros T c st. destruct c; try reflexivity.
    cbn. destruct (modify _); reflexivity.
  - intros st. exists tt. reflexivity.
  - reflexivity.
  - reflexivity.
Defined.

Lemma sendMoney_rejected_witness :
  let world :=
    Sample.failing WalletsStore.isSend Sample.backendError Sample.byron in
  let st :=
    @WalletsStore._updateActiveWalletOnRouteChanges Sample.imports
      (Sample.store "/wallets/2/send" (Sample.executed [Sample.shelley])) in
  let params :=
    {| WalletsStore.SendMoney.receiver := "addr1";
       WalletsStore.SendMoney.amount := "1000000";
       WalletsStore.SendMoney.passphrase := "secret";
       WalletsStore.SendMoney.assets := None;
       WalletsStore.SendMoney.assetsAmounts := None |} in
  exists transaction,
    WalletsStore.calls world (@WalletsStore._sendMoney Sample.imports params st)
    = [WalletsStore.anyCall (WalletsStore.Execute_createTransaction transaction)]
    /\ WalletsStore.run world
         (@WalletsStore._sendMoney Sample.imports params st)
       = (snd (WalletsStore.respond world
                 (WalletsStore.Execute_createTransaction transaction) st),
          Some Sample.backendError).
Proof.
  apply (@sendMoney_rejected Sample.imports
           (Sample.failing WalletsStore.isSend Sample.backendError Sample.byron)
           {| WalletsStore.SendMoney.receiver := "addr1";
              WalletsStore.SendMoney.amount := "1000000";
              WalletsStore.SendMoney.passphrase := "secret";
              WalletsStore.SendMoney.assets := None;
              WalletsStore.SendMoney.assetsAmounts := None |}
           (@WalletsStore._updateActiveWalletOnRouteChanges Sample.imports
              (Sample.store "/wallets/2/send"
                 (Sample.executed [Sample.shelley])))
           Sample.shelley Sample.backendError).
  - reflexivity.
  - intros transaction st. reflexivity.
Defined.

Lemma restoreWalletEnd_adds_wallet_and_resets_witness :
  let world := Sample.calm Sample.shelley3 in
  let st :=
    WalletsStore.setRestoredWallet Sample.shelley3
      (Sample.store "/wallets/add" (Sample.executed [Sample.shelley])) in
  snd (WalletsStore.run world (@WalletsStore._restoreWalletEnd Sample.imports st))
  = None
  /\ WalletsStore.restoreWallet
       (fst (WalletsStore.run world
               (@WalletsStore._restoreWalletEnd Sample.imports st)))
     = WalletsStore.restoreWallet (WalletsStore._restoreWalletResetData st)
  /\ exists rest,
       WalletsStore.calls world
         (@WalletsStore._restoreWalletEnd Sample.imports st)
       = WalletsStore.anyCall
           (WalletsStore.WalletsRequest_patch
              (WalletsStore.onArray
                 (WalletsStore.patchWithNewWallet Sample.shelley3)))
         :: rest.
Proof.
  apply (@restoreWalletEnd_adds_wallet_and_resets Sample.imports
           (Sample.calm Sample.shelley3)
           (WalletsStore.setRestoredWallet Sample.shelley3
              (Sample.store "/wallets/add" (Sample.executed [Sample.shelley])))
           Sample.shelley3).
  - reflexivity.
  - intros modify st. exists tt. reflexivity.
Defined.

(** ** The restore wizard: closing, cancelling, and what is sent *)

Section WizardMore.

Import WalletsStore.

Context {imports : Imports}.

Variable world : World.

(** The restore request is chosen by the settings of the wizard. *)
Lemma restoreRequest_restoreWallet (st st' : Store) :
  restoreWallet st' = restoreWallet st -> restoreRequest st' = restoreRequest st.
Proof. intros H. unfold restoreRequest. now rewrite H. Qed.

(** X11.  Closing the restore wizard twice always closes it: whatever was
    entered, after two [_restoreWalletClose] the data of the wizard are as
    [_restoreWalletResetData] sets them, and the last effect is the closing
    of the active dialog. *)
Theorem restoreWalletClose_twice (st : Store) :
  restoreWallet (_restoreWalletClose (_restoreWalletClose st))
  = restoreWallet (_restoreWalletResetData st)
  /\ exists before,
       effects (_restoreWalletClose (_restoreWalletClose st))
       = before ++ [CloseActiveDialog].
Proof.
  assert (Hcloses : forall st1,
            restoreWalletShowAbortConfirmation (restoreWallet st1) = true
            \/ (mnemonics (restoreWallet st1) = []
                /\ walletName (restoreWallet st1) = ""
                /\ spendingPassword (restoreWallet st1) = "") ->
            _restoreWalletClose st1
            = emit CloseActiveDialog
                (_restoreWalletResetData (_restoreWalletResetRequests st1))).
  { intros st1 H. unfold _restoreWalletClose.
    destruct H as [-> | (-> & -> & ->)]; [now rewrite andb_false_r |].
    reflexivity. }
  rewrite Hcloses.
  - split; [reflexivity |]. eexists. reflexivity.
  - unfold _restoreWalletClose.
    destruct (_ && negb (restoreWalletShowAbortConfirmation (restoreWallet st)));
      [left | right; repeat split]; reflexivity.
Qed.

(** X12.  Cancelling undoes a close that only asked: when
    [_restoreWalletClose] shows the abort confirmation that was not shown
    before, [_restoreWalletCancelClose] gives the store back as it was, with
    the step and everything that was entered. *)
Theorem restoreWalletCancelClose_undoes_close (st : Store) :
  restoreWalletShowAbortConfirmation (restoreWallet st) = false ->
  restoreWalletShowAbortConfirmation (restoreWallet (_restoreWalletClose st))
  = true ->
  _restoreWalletCancelClose (_restoreWalletClose st) = st.
Proof.
  intros Hbefore Hshown. unfold _restoreWalletClose in *.
  destruct (_ && negb (restoreWalletShowAbortConfirmation (restoreWallet st))).
  - destruct st as [? ? ? r ? ? ? ? ? ?]. destruct r. cbn in *.
    subst. reflexivity.
  - discriminate Hshown.
Qed.

(** X13.  What was entered survives a change of step of an open wizard, and
    is discarded by the first change of step of a closed one (step [null]);
    and choosing a kind discards the recovery phrase entered before. *)
Theorem restoreWallet_settings_and_steps (st : Store) (isBack : bool)
    (words : list string) (name : string) (param : option string)
    (kind : string) :
  let st' :=
    _restoreWalletChangeStep isBack
      (_restoreWalletSetConfig "walletName" name
         (_restoreWalletSetMnemonics words st)) in
  match restoreWalletStep (restoreWallet st) with
  | Some _ =>
      mnemonics (restoreWallet st') = words
      /\ walletName (restoreWallet st') = name
  | None =>
      mnemonics (restoreWallet st') = []
      /\ walletName (restoreWallet st') = ""
  end
  /\ mnemonics
       (restoreWallet
          (_restoreWalletSetKind param kind
             (_restoreWalletSetMnemonics words st)))
     = [].
Proof.
  cbv zeta. split; [| reflexivity].
  unfold _restoreWalletChangeStep. cbn.
  destruct (restoreWalletStep (restoreWallet st)); cbn; split; reflexivity.
Qed.

(** X14.  What the wizard holds is what the backend is asked to restore:
    for every kind of wallet but the 27-word one, in a world that leaves the
    settings of the wizard as the action left them, the last call of
    [_restore] is the restore request of the kind, with the recovery phrase,
    the name and the password of the store. *)
Theorem restore_sends_wizard_settings (st : Store) :
  leaves restoreWallet world ->
  (forall st, exists v,
      fst (respond world WalletsRequest_settled st) = Fulfilled v) ->
  equals (walletKind (restoreWallet st)) WALLET_KINDS_DAEDALUS
  && equals (walletKindDaedalus (restoreWallet st)) DAEDALUS_BYRON_27_WORD
  = false ->
  exists before,
    calls world (_restore st)
    = before
      ++ [anyCall
            (Execute_restore (restoreRequest st)
               {| RestoreData.recoveryPhrase := mnemonics (restoreWallet st);
                  RestoreData.walletName := walletName (restoreWallet st);
                  RestoreData.spendingPassword :=
                    spendingPassword (restoreWallet st) |})].
Proof.
  intros [Hresume Hrespond] Hsettled Hkind.
  unfold _restore, awaitAction, _pausePolling, await.
  destruct (isExecuting (walletsRequest st)).
  - cbn [andThen run calls].
    destruct (Hsettled st) as [v Hv]. rewrite Hv. cbn [andThen run calls].
    set (st1 := resume world _).
    assert (Hr : restoreWallet (_restoreWalletResetRequests st1)
                 = restoreWallet st).
    { cbn. subst st1. rewrite Hresume. cbn. apply Hrespond. }
    rewrite (restoreRequest_restoreWallet _ _ Hr), Hr, Hkind.
    exists [anyCall WalletsRequest_settled]. cbn [app tryCatch calls].
    do 2 f_equal.
    destruct (fst (respond world (Execute_restore _ _) _)) as [[w |] | e];
      reflexivity.
  - cbn [andThen run calls].
    set (st1 := resume world _).
    assert (Hr : restoreWallet (_restoreWalletResetRequests st1)
                 = restoreWallet st).
    { cbn. subst st1. rewrite Hresume. reflexivity. }
    rewrite (restoreRequest_restoreWallet _ _ Hr), Hr, Hkind.
    exists []. cbn [app tryCatch calls]. f_equal.
    destruct (fst (respond world (Execute_restore _ _) _)) as [[w |] | e];
      reflexivity.
Qed.

End WizardMore.

Lemma restoreWalletCancelClose_undoes_close_witness :
  let st :=
    WalletsStore._restoreWalletSetMnemonics ["abandon"; "ability"]
      (WalletsStore._restoreWalletBegin
         (Sample.store "/wallets/add" Sample.notExecuted)) in
  WalletsStore._restoreWalletCancelClose
    (@WalletsStore._restoreWalletClose Sample.imports st)
  = st.
Proof.
  apply (@restoreWalletCancelClose_undoes_close Sample.imports
           (WalletsStore._restoreWalletSetMnemonics ["abandon"; "ability"]
              (WalletsStore._restoreWalletBegin
                 (Sample.store "/wallets/add" Sample.notExecuted)))).
  - reflexivity.
  - reflexivity.
Defined.

(** The wizard filled in for a 15-word Yoroi wallet: the request of the
    Icarus wallets is sent what was entered. *)
Lemma restore_sends_wizard_settings_witness :
  let st :=
    WalletsStore._restoreWalletSetConfig "spendingPassword" "Secret1234"
      (WalletsStore._restoreWalletSetConfig "walletName" "Savings"
         (WalletsStore._restoreWalletChangeStep false
            (WalletsStore._restoreWalletSetMnemonics ["abandon"; "ability"]
               (WalletsStore._restoreWalletChangeStep false
                  (WalletsStore._restoreWalletSetKind (Some "Yoroi")
                     "15WordByron"
                     (WalletsStore._restoreWalletSetKind None "Yoroi"
                        (WalletsStore._restoreWalletBegin
                           (Sample.store "/wallets/add"
                              Sample.notExecuted)))))))) in
  exists before,
    WalletsStore.calls (Sample.calm Sample.byron)
      (@WalletsStore._restore Sample.imports st)
    = before
      ++ [WalletsStore.anyCall
            (WalletsStore.Execute_restore
               WalletsStore.restoreByronIcarusWalletRequest
               {| WalletsStore.RestoreData.recoveryPhrase :=
                    ["abandon"; "ability"];
                  WalletsStore.RestoreData.walletName := "Savings";
                  WalletsStore.RestoreData.spendingPassword := "Secret1234" |})].
Proof.
  apply (@restore_sends_wizard_settings Sample.imports
           (Sample.calm Sample.byron)
           (WalletsStore._restoreWalletSetConfig "spendingPassword" "Secret1234"
              (WalletsStore._restoreWalletSetConfig "walletName" "Savings"
                 (WalletsStore._restoreWalletChangeStep false
                    (WalletsStore._restoreWalletSetMnemonics
                       ["abandon"; "ability"]
                       (WalletsStore._restoreWalletChangeStep
                          false
                          (WalletsStore._restoreWalletSetKind (Some "Yoroi")
                             "15WordByron"
                             (WalletsStore._restoreWalletSetKind None "Yoroi"
                                (WalletsStore._restoreWalletBegin
                                   (Sample.store "/wallets/add"
                                      Sample.notExecuted)))))))))).
  - split; [reflexivity |]. intros T c st. destruct c; try reflexivity.
    cbn. destruct (modify _); reflexivity.
  - intros st. exists tt. reflexivity.
  - reflexivity.
Defined.

(** ** The active wallet: ids, a wallet that is gone, routes without a wallet *)

Section ActiveWalletMore.

Import WalletsStore.

Context {imports : Imports}.

(** A trigger of [goToRoute] adds the route to the effects, and nothing
    before it. *)
Lemma goToRoute_trigger_effects route params (st : Store) :
  exists after,
    effects (goToRoute_trigger route params st)
    = effects st ++ GoToRoute route params :: after.
Proof.
  unfold goToRoute_trigger, _onRouteChange.
  destruct (isSome _); cbn.
  - exists [Reset sendMoneyRequest]. now rewrite <- app_assoc.
  - now exists [].
Qed.

(** X15.  With wallets loaded, and [Wallet.update] keeping the id of its
    argument, the active wallet after [_setActiveWallet] has the id that was
    asked for, and there is no active wallet only if no wallet of the list
    has this id. *)
Theorem setActiveWallet_active_id (walletId : string) (st : Store) :
  hasAnyWallets st = true ->
  (forall a other, id (Wallet_update a other) = id other) ->
  match active (activeWallet (_setActiveWallet walletId st)) with
  | Some a => id a = walletId
  | None => getWalletById walletId st = None
  end.
Proof.
  intros Hany Hupdate. unfold _setActiveWallet, getWalletById. rewrite Hany.
  destruct (Js.find _ (all st)) as [n |] eqn:Hfind.
  - assert (Hn : id n = walletId).
    { apply find_some in Hfind as [_ H]. now apply String.eqb_eq. }
    set (st1 := if _ : bool then goToRoute_trigger _ _ st else st).
    assert (Hactive : activeWallet st1 = activeWallet st).
    { subst st1. destruct (_ && _); [apply goToRoute_trigger_activeWallet |].
      reflexivity. }
    destruct (differs _ walletId) eqn:Hd.
    + destruct (isHardwareWallet n); [| exact Hn].
      destruct (hardwareWalletsConnectionData _ _); exact Hn.
    + destruct (active (activeWallet st)) as [a |] eqn:Ha; [| discriminate].
      cbn [isEqual]. destruct (Wallet_eqb a n); cbn [negb].
      * rewrite Hactive, Ha. cbn in Hd.
        apply negb_false_iff, String.eqb_eq in Hd. exact Hd.
      * cbn. now rewrite Hupdate.
  - destruct (differs _ walletId) eqn:Hd; [reflexivity |].
    destruct (active (activeWallet st)) as [a |] eqn:Ha; [| discriminate].
    cbn. rewrite Ha. cbn in Hd.
    apply negb_false_iff, String.eqb_eq in Hd. exact Hd.
Qed.

(** X16.  A wallet that is gone from the list: with wallets loaded,
    [_setActiveWallet] with an id that no wallet has leaves no active wallet,
    but keeps [activeValue] and [activePublicKey] of the wallet that was
    active; unless the id is that of the active wallet, which then stays the
    active wallet, and the store is left as it was. *)
Theorem setActiveWallet_unknown_id (walletId : string) (st : Store) :
  hasAnyWallets st = true ->
  getWalletById walletId st = None ->
  if differs (option_map id (active (activeWallet st))) walletId then
    activeWallet (_setActiveWallet walletId st)
    = {| active := None;
         activeValue := activeValue (activeWallet st);
         activePublicKey := activePublicKey (activeWallet st) |}
    /\ lastGeneratedAddress (stores (_setActiveWallet walletId st)) = None
  else _setActiveWallet walletId st = st.
Proof.
  intros Hany Hnone. unfold _setActiveWallet. unfold getWalletById in Hnone.
  rewrite Hany, Hnone.
  destruct (differs _ walletId) eqn:Hd; [split; reflexivity |].
  destruct (active (activeWallet st)); [reflexivity | discriminate].
Qed.

(** X17.  On a route that names no wallet, with wallets loaded: a route
    other than the root route leaves the store as it is; on the root route
    (with [walletsRequest] executed and [Wallet.update] copying the fields of
    its argument) the wallet that was active, or else the first wallet of
    the list, is the active wallet afterwards, and the route of its summary
    is gone to. *)
Theorem updateActiveWallet_route_without_wallet (st : Store) :
  let route := currentRoute (stores st) in
  let st' := _updateActiveWalletOnRouteChanges st in
  isSome (matchRoute ROUTES_WALLETS_ADD route) = false ->
  hasAnyLoaded st = true ->
  matchRoute (ROUTES_WALLETS_ROOT ++ "/:id(*page)")%string route = None ->
  if _canRedirectToWallet st then
    hasLoadedWallets st = true ->
    (forall a other, Wallet_update a other = other) ->
    exists a,
      active (activeWallet st') = Some a
      /\ match active (activeWallet st) with
         | Some a0 => a = a0
         | None => first st = Some a
         end
      /\ exists before after,
           effects st'
           = before ++ GoToRoute (getWalletRoute (id a) "summary") None
                       :: after
  else st' = st.
Proof.
  cbv zeta. intros Hadd Hany Hmatch. unfold _updateActiveWalletOnRouteChanges.
  rewrite Hadd, Hany, Hmatch. cbn [orb negb].
  destruct (_canRedirectToWallet st); [| reflexivity].
  intros Hloaded Hupdate. unfold hasActiveWallet.
  destruct (active (activeWallet st)) as [a0 |] eqn:Ha0; cbn [isSome negb andb].
  - rewrite Ha0. exists a0. rewrite goToWalletRoute_activeWallet.
    split; [exact Ha0 |]. split; [reflexivity |].
    destruct (goToRoute_trigger_effects (getWalletRoute (id a0) "summary")
                None st) as [after Heffects].
    exists (effects st), after. exact Heffects.
  - destruct (hasAnyLoaded_all st Hany) as (w0 & rest & Hall). rewrite Hall.
    assert (Hset : active (activeWallet (_setActiveWallet (id w0) st))
                   = Some w0).
    { apply _setActiveWallet_found;
        [now apply hasAnyWallets_of_loaded | exact Hupdate |].
      rewrite Hall. unfold Js.find. cbn. now rewrite String.eqb_refl. }
    rewrite Hset. exists w0. rewrite goToWalletRoute_activeWallet.
    split; [exact Hset |]. split.
    + unfold first. fold (hasAnyLoaded st). now rewrite Hany, Hall.
    + destruct (goToRoute_trigger_effects (getWalletRoute (id w0) "summary")
                  None (_setActiveWallet (id w0) st)) as [after Heffects].
      exists (effects (_setActiveWallet (id w0) st)), after. exact Heffects.
Qed.

End ActiveWalletMore.

Lemma setActiveWallet_active_id_witness :
  match
    WalletsStore.active
      (WalletsStore.activeWallet
         (@WalletsStore._setActiveWallet Sample.imports "2"
            (Sample.store "/wallets"
               (Sample.executed [Sample.byron; Sample.shelley]))))
  with
  | Some a => WalletsStore.id a = "2"
  | None =>
      @WalletsStore.getWalletById "2"
        (Sample.store "/wallets"
           (Sample.executed [Sample.byron; Sample.shelley]))
      = None
  end.
Proof.
  apply (@setActiveWallet_active_id Sample.imports "2"
           (Sample.store "/wallets"
              (Sample.executed [Sample.byron; Sample.shelley]))
           eq_refl (fun _ _ => eq_refl)).
Defined.

(** No wallet has the id "9", and no wallet was active. *)
Lemma setActiveWallet_unknown_id_witness :
  let st :=
    Sample.store "/wallets/9/summary"
      (Sample.executed [Sample.byron; Sample.shelley]) in
  WalletsStore.activeWallet (@WalletsStore._setActiveWallet Sample.imports "9" st)
  = {| WalletsStore.active := None;
       WalletsStore.activeValue :=
         WalletsStore.activeValue (WalletsStore.activeWallet st);
       WalletsStore.activePublicKey :=
         WalletsStore.activePublicKey (WalletsStore.activeWallet st) |}
  /\ WalletsStore.lastGeneratedAddress
       (WalletsStore.stores
          (@WalletsStore._setActiveWallet Sample.imports "9" st))
     = None.
Proof.
  apply (@setActiveWallet_unknown_id Sample.imports "9"
           (Sample.store "/wallets/9/summary"
              (Sample.executed [Sample.byron; Sample.shelley]))
           eq_refl eq_refl).
Defined.

Lemma updateActiveWallet_route_without_wallet_witness :
  let st :=
    Sample.store "/wallets" (Sample.executed [Sample.byron; Sample.shelley]) in
  exists a,
    WalletsStore.active
      (WalletsStore.activeWallet
         (@WalletsStore._updateActiveWalletOnRouteChanges Sample.imports st))
    = Some a
    /\ @WalletsStore.first st = Some a
    /\ exists before after,
         WalletsStore.effects
           (@WalletsStore._updateActiveWalletOnRouteChanges Sample.imports st)
         = before
           ++ WalletsStore.GoToRoute
                (@WalletsStore.getWalletRoute Sample.imports
                   (WalletsStore.id a) "summary") None
              :: after.
Proof.
  apply (@updateActiveWallet_route_without_wallet Sample.imports
           (Sample.store "/wallets"
              (Sample.executed [Sample.byron; Sample.shelley]))
           eq_refl eq_refl eq_refl eq_refl (fun _ _ => eq_refl)).
Defined.

(** ** The send confirmation dialog: the Enter key and what is shown *)

Section ConfirmationDialogMore.

Import ConfirmationDialog.

Variable VERIFYING_TRANSACTION_SUCCEEDED : string.
Variable Event : Type.
Variable submitOnEnter : Event -> bool.

(** X18.  The Enter key submits only what the confirm button would: where
    the passphrase input is rendered, a key press that calls [submit] finds
    the confirm button enabled. *)
Theorem enter_submits_only_when_confirm_enabled (props : Props)
    (state : State) (passphraseIsValid : bool) (event : Event) :
  renderConfirmationElement props state = PassphraseInput ->
  handleSubmitOnEnter submitOnEnter props passphraseIsValid event = true ->
  confirmDisabled VERIFYING_TRANSACTION_SUCCEEDED props state passphraseIsValid
  = false.
Proof.
  unfold renderConfirmationElement, handleSubmitOnEnter, confirmDisabled.
  destruct (isHardwareWallet props), (isFlight props),
    (areTermsAccepted state), passphraseIsValid;
    cbn; intros Hrender Henter; try discriminate; reflexivity.
Qed.

(** X19.  An enabled confirm button has its confirmation element above it:
    when the button is enabled, [renderConfirmationElement] does not return
    [null]; it returns the status of the device for a hardware wallet, and
    the passphrase input otherwise. *)
Theorem confirm_enabled_shows_confirmation (props : Props) (state : State)
    (passphraseIsValid : bool) :
  confirmDisabled VERIFYING_TRANSACTION_SUCCEEDED props state passphraseIsValid
  = false ->
  renderConfirmationElement props state
  = if isHardwareWallet props then HardwareWalletStatusElement
    else PassphraseInput.
Proof.
  unfold renderConfirmationElement, confirmDisabled.
  destruct (isHardwareWallet props), (isFlight props),
    (areTermsAccepted state), passphraseIsValid,
    (String.eqb (hwDeviceStatus props) VERIFYING_TRANSACTION_SUCCEEDED);
    cbn; intros H; try discriminate; reflexivity.
Qed.

(** X20.  The separator of the assets is never shorter than its basic
    height of 27, and grows with every asset. *)
Theorem assetsSeparatorCalculatedHeight_grows (assetsLength : nat) :
  (27 <= assetsSeparatorCalculatedHeight assetsLength)%Z
  /\ (assetsSeparatorCalculatedHeight assetsLength
      < assetsSeparatorCalculatedHeight (S assetsLength))%Z.
Proof.
  unfold assetsSeparatorCalculatedHeight.
  destruct assetsLength as [| n]; [cbn; lia |]. lia.
Qed.

End ConfirmationDialogMore.

Lemma enter_submits_only_when_confirm_enabled_witness :
  ConfirmationDialog.confirmDisabled "verifying_transaction_succeeded"
    {| ConfirmationDialog.isHardwareWallet := false;
       ConfirmationDialog.hwDeviceStatus := "ready";
       ConfirmationDialog.isFlight := true;
       ConfirmationDialog.isSubmitting := false |}
    {| ConfirmationDialog.areTermsAccepted := true |} true
  = false.
Proof.
  apply (enter_submits_only_when_confirm_enabled
           "verifying_transaction_succeeded" string
           (fun key => String.eqb key "Enter")
           {| ConfirmationDialog.isHardwareWallet := false;
              ConfirmationDialog.hwDeviceStatus := "ready";
              ConfirmationDialog.isFlight := true;
              ConfirmationDialog.isSubmitting := false |}
           {| ConfirmationDialog.areTermsAccepted := true |} true "Enter").
  - reflexivity.
  - reflexivity.
Defined.

Lemma confirm_enabled_shows_confirmation_witness :
  ConfirmationDialog.renderConfirmationElement
    {| ConfirmationDialog.isHardwareWallet := true;
       ConfirmationDialog.hwDeviceStatus := "verifying_transaction_succeeded";
       ConfirmationDialog.isFlight := false;
       ConfirmationDialog.isSubmitting := false |}
    {| ConfirmationDialog.areTermsAccepted := false |}
  = ConfirmationDialog.HardwareWalletStatusElement.
Proof.
  apply (confirm_enabled_shows_confirmation "verifying_transaction_succeeded"
           {| ConfirmationDialog.isHardwareWallet := true;
              ConfirmationDialog.hwDeviceStatus :=
                "verifying_transaction_succeeded";
              ConfirmationDialog.isFlight := false;
              ConfirmationDialog.isSubmitting := false |}
           {| ConfirmationDialog.areTermsAccepted := false |} false).
  reflexivity.
Defined.

(** ** The search of the items dropdown: narrowing and letter case *)

Section ItemsDropdownMore.

Import ItemsDropdown.

Variable Canonicalize : ascii -> ascii.
Variable Value : Type.
Variable ToString : Value -> jsstring.

Lemma onSearchItemsDropdown_filter (searchValue : jsstring)
    (options : list (ItemDropdown Value)) :
  onSearchItemsDropdown Canonicalize ToString searchValue options
  = Some (filter (keeps Canonicalize ToString searchValue) options).
Proof.
  apply filterM_total. intros o. unfold optionMatches.
  rewrite RegExp_i_escapeRegExp. reflexivity.
Qed.

(** A string that has a search value has every part of the search value. *)
Lemma ciSubstring_part (pre needle post hay : jsstring) :
  ciSubstring Canonicalize (pre ++ needle ++ post) hay ->
  ciSubstring Canonicalize needle hay.
Proof.
  intros (a & mid & b & -> & Hmid).
  rewrite !map_app in Hmid.
  apply map_eq_app in Hmid as (m1 & m23 & -> & _ & Hm23).
  apply map_eq_app in Hm23 as (m2 & m3 & -> & Hm2 & _).
  exists (a ++ m1), m2, (m3 ++ b). split; [| exact Hm2].
  now rewrite <- !app_assoc.
Qed.

Lemma test_part (pre needle post hay : jsstring) :
  test Canonicalize (map AChar (pre ++ needle ++ post)) hay = true ->
  test Canonicalize (map AChar needle) hay = true.
Proof.
  rewrite !test_literal. apply ciSubstring_part.
Qed.

Lemma filter_filter_narrower {A} (p q : A -> bool) (l : list A) :
  (forall x, q x = true -> p x = true) ->
  filter q (filter p l) = filter q l.
Proof.
  intros Hqp. induction l as [| x l IH]; [reflexivity |].
  cbn [filter]. destruct (p x) eqn:Hp; cbn [filter].
  - now rewrite IH.
  - destruct (q x) eqn:Hq; [| exact IH].
    apply Hqp in Hq. congruence.
Qed.

(** X21.  Typing on narrows the search: the options found for a search
    value that was extended, at its start or at its end, are among those
    found before, and they are what the search finds among those. *)
Theorem onSearchItemsDropdown_narrows (pre searchValue post : jsstring)
    (options : list (ItemDropdown Value)) :
  exists found narrowed,
    onSearchItemsDropdown Canonicalize ToString searchValue options
    = Some found
    /\ onSearchItemsDropdown Canonicalize ToString
         (pre ++ searchValue ++ post) options
       = Some narrowed
    /\ onSearchItemsDropdown Canonicalize ToString
         (pre ++ searchValue ++ post) found
       = Some narrowed
    /\ incl narrowed found.
Proof.
  assert (Hnarrower : forall o,
            keeps Canonicalize ToString (pre ++ searchValue ++ post) o = true ->
            keeps Canonicalize ToString searchValue o = true).
  { intros o. unfold keeps. rewrite !orb_true_iff.
    intros [[H | H] | H]; apply test_part in H; auto. }
  exists (filter (keeps Canonicalize ToString searchValue) options),
    (filter (keeps Canonicalize ToString (pre ++ searchValue ++ post))
       options).
  rewrite !onSearchItemsDropdown_filter.
  split; [reflexivity |]. split; [reflexivity |]. split.
  - f_equal. now apply filter_filter_narrower.
  - intros o Ho. apply filter_In in Ho as [Hin Hkeep].
    apply filter_In. split; [exact Hin | now apply Hnarrower].
Qed.

Lemma matchHere_canonical (s1 s2 hay : jsstring) :
  map Canonicalize s1 = map Canonicalize s2 ->
  matchHere Canonicalize (map AChar s1) hay
  = matchHere Canonicalize (map AChar s2) hay.
Proof.
  revert s2 hay. induction s1 as [| c1 s1 IH]; intros [| c2 s2] hay H;
    try discriminate H; [reflexivity |].
  injection H as Hc Hs. destruct hay as [| h hay]; [reflexivity |].
  cbn [map matchHere atomMatches]. now rewrite Hc, (IH s2 hay Hs).
Qed.

Lemma test_canonical (s1 s2 hay : jsstring) :
  map Canonicalize s1 = map Canonicalize s2 ->
  test Canonicalize (map AChar s1) hay = test Canonicalize (map AChar s2) hay.
Proof.
  intros H. induction hay as [| h hay IH]; cbn [test];
    rewrite (matchHere_canonical s1 s2 _ H); [reflexivity |].
  now rewrite IH.
Qed.

(** X22.  The letter case of the search value does not matter: two search
    values with the same canonical characters find the same options. *)
Theorem onSearchItemsDropdown_case_of_search_value (s1 s2 : jsstring)
    (options : list (ItemDropdown Value)) :
  map Canonicalize s1 = map Canonicalize s2 ->
  onSearchItemsDropdown Canonicalize ToString s1 options
  = onSearchItemsDropdown Canonicalize ToString s2 options.
Proof.
  intros H. rewrite !onSearchItemsDropdown_filter. f_equal.
  apply filter_ext. intros o. unfold keeps.
  now rewrite !(test_canonical s1 s2 _ H).
Qed.

End ItemsDropdownMore.

Lemma onSearchItemsDropdown_case_of_search_value_witness :
  let item l :=
    {| ItemsDropdown.label := l; ItemsDropdown.detail := "";
       ItemsDropdown.value := "" |} in
  ItemsDropdown.onSearchItemsDropdown ItemsDropdown.asciiUpper
    ItemsDropdown.chars (ItemsDropdown.chars "ada")
    [item "Cardano"; item "Ada wallet"]
  = ItemsDropdown.onSearchItemsDropdown ItemsDropdown.asciiUpper
      ItemsDropdown.chars (ItemsDropdown.chars "ADA")
      [item "Cardano"; item "Ada wallet"].
Proof.
  apply (onSearchItemsDropdown_case_of_search_value ItemsDropdown.asciiUpper
           string ItemsDropdown.chars
           (ItemsDropdown.chars "ada") (ItemsDropdown.chars "ADA")).
  reflexivity.
Defined.

(** ** The transfer of funds *)

Section TransferFundsFacts.

Import WalletsStore.

Variable world : TransferWorld.

(** X23.  The step of a transfer stays one of the three steps of the
    dialog: if the other actions between the suspension and the resumption
    of [_transferFundsNextStep] keep it within [0 .. 2], so does every
    action of the transfer, whether the fee request succeeds or fails. *)
Theorem transferFunds_step_in_range (st : Store) (t : TransferFunds)
    (sourceWalletId targetWalletId : string) :
  (forall t, stepInRange t -> stepInRange (transferResume world t)) ->
  (forall sourceWalletId t,
      stepInRange t -> stepInRange (snd (feeOutcome world sourceWalletId t))) ->
  stepInRange t ->
  stepInRange (fst (fst (runTransfer world (_transferFundsNextStep t))))
  /\ stepInRange (_transferFundsPrevStep t)
  /\ stepInRange (_transferFundsSetSourceWalletId sourceWalletId st t)
  /\ stepInRange (_transferFundsSetTargetWalletId targetWalletId t)
  /\ stepInRange (_transferFundsRedeem t)
  /\ stepInRange (_transferFundsClose t).
Proof.
  intros Hresume Hfee Hrange. unfold stepInRange in *.
  split; [| split; [| repeat split; cbn; lia]].
  - unfold _transferFundsNextStep, _transferFundsCalculateFee.
    destruct (_ && _ && _).
    + cbn [runTransfer].
      pose proof (Hfee (transferFundsSourceWalletId t) t Hrange) as Hafter.
      destruct (fst (feeOutcome world (transferFundsSourceWalletId t) t))
        as [[[fee leftovers] |] | e]; cbn; try exact Hafter. lia.
    + cbn. destruct (_ && _); lia.
  - unfold _transferFundsPrevStep. cbn.
    destruct (transferFundsStep t >? 0)%Z eqn:Hpos; [| lia].
    apply Z.gtb_lt in Hpos. lia.
Qed.

(** X24.  [_transferFundsNextStep] asks for the fee exactly when it is at
    step 1 with a source and a target wallet, and then goes on to step 2
    only if the fee arrives: a request that is rejected, or that returns no
    fee, makes it throw with the fields as it found them on resumption.
    From every other state it makes no request and does not throw; it goes
    to step 1 from step 0 with a source wallet, and to step 0 otherwise. *)
Theorem transferFundsNextStep_fee_request (t : TransferFunds) :
  let source := transferFundsSourceWalletId t in
  let outcome := runTransfer world (_transferFundsNextStep t) in
  if (transferFundsStep t =? 1)%Z && truthy source
     && truthy (transferFundsTargetWalletId t)
  then
    snd outcome = 1%nat
    /\ match fst (feeOutcome world source t) with
       | Fulfilled (Some _) =>
           snd (fst outcome) = None
           /\ transferFundsStep (fst (fst outcome)) = 2%Z
       | _ =>
           (exists e, snd (fst outcome) = Some e)
           /\ fst (fst outcome) = snd (feeOutcome world source t)
       end
  else
    snd outcome = 0%nat
    /\ snd (fst outcome) = None
    /\ transferFundsStep (fst (fst outcome))
       = (if (transferFundsStep t =? 0)%Z && truthy source then 1 else 0)%Z
    /\ transferFundsFee (fst (fst outcome)) = transferFundsFee t.
Proof.
  cbv zeta. unfold _transferFundsNextStep, _transferFundsCalculateFee.
  destruct (_ && _ && _).
  - cbn [runTransfer].
    destruct (fst (feeOutcome world (transferFundsSourceWalletId t) t))
      as [[[fee leftovers] |] | e]; cbn.
    + repeat split.
    + split; [reflexivity |]. split; [eexists |]; reflexivity.
    + split; [reflexivity |]. split; [eexists |]; reflexivity.
  - cbn. repeat split.
Qed.

End TransferFundsFacts.

Lemma transferFunds_step_in_range_witness :
  let world := Sample.transferCalm 170000 5 in
  let t :=
    WalletsStore._transferFundsSetSourceWalletId "legacy_1"
      (Sample.store "/wallets" (Sample.executed [Sample.shelley; Sample.byron]))
      Sample.transfer in
  WalletsStore.stepInRange
    (fst (fst (WalletsStore.runTransfer world
                 (WalletsStore._transferFundsNextStep t))))
  /\ WalletsStore.stepInRange (WalletsStore._transferFundsPrevStep t)
  /\ WalletsStore.transferFundsStep
       (fst (fst (WalletsStore.runTransfer world
                    (WalletsStore._transferFundsNextStep t))))
     = 2%Z.
Proof.
  destruct (transferFunds_step_in_range (Sample.transferCalm 170000 5)
              (Sample.store "/wallets"
                 (Sample.executed [Sample.shelley; Sample.byron]))
              (WalletsStore._transferFundsSetSourceWalletId "legacy_1"
                 (Sample.store "/wallets"
                    (Sample.executed [Sample.shelley; Sample.byron]))
                 Sample.transfer)
              "legacy_1" "2"
              (fun t H => H) (fun _ t H => H))
    as (Hnext & Hprev & _).
  - unfold WalletsStore.stepInRange. cbn. lia.
  - split; [exact Hnext |]. split; [exact Hprev | reflexivity].
Defined.

(** ** The validation of an address *)

Section AddressValidationFacts.

Import WalletsStore.

Variable MAINNET_MAGIC : NetworkTag.
Variable STAGING_MAGIC : NetworkTag.
Variable ITN_MAGIC : NetworkTag.
Variable TESTNET_MAGIC : NetworkTag.
Variable SHELLEY_TESTNET_NETWORK_ID : NetworkTag.
Variable SELFNODE_MAGIC : NetworkTag.

Variable environment : Environment.
Variable walletAddresses : list string.
Variable send :
  string -> Store -> Outcome IntrospectAddressResponse * Store.

Lemma filter_length_In (address : string) (l : list string) :
  negb (List.length (filter (fun addr => String.eqb addr address) l) =? 0)%nat
  = true
  <-> In address l.
Proof.
  induction l as [| x l IH]; cbn [filter].
  - cbn. split; [discriminate | intros []].
  - destruct (String.eqb_spec x address) as [-> | Hne].
    + cbn. split; [now left | reflexivity].
    + rewrite IH. split; [now right |]. now intros [H | H].
Qed.

(** X25.  An address is valid only if the channel introspected it, with a
    style of the network: an invalid or failed introspection, or an
    environment that is none of the six, never gives [true]; the style
    Jormungandr is valid on the incentivized testnet (not mainnet, not
    staging) and nowhere else, and there it is the only valid style. *)
Theorem isValidAddress_true (address : string) (st : Store) :
  snd (isValidAddress MAINNET_MAGIC STAGING_MAGIC ITN_MAGIC TESTNET_MAGIC
          SHELLEY_TESTNET_NETWORK_ID SELFNODE_MAGIC environment
          walletAddresses send address st) = ValidityReturned true ->
  exists address_style network_tag,
    fst (send address (withIsAddressFromSameWallet false st))
    = Fulfilled (Introspection address_style network_tag)
    /\ In address_style ["Byron"; "Icarus"; "Shelley"; "Jormungandr"]
    /\ (address_style = "Jormungandr"
        <-> isMainnet environment = false
            /\ isStaging environment = false
            /\ isIncentivizedTestnet environment = true).
Proof.
  unfold isValidAddress, expectedNetwork.
  destruct (send address (withIsAddressFromSameWallet false st))
    as [[[| address_style network_tag] | e] st'].
  1, 3: destruct (isMainnet environment), (isStaging environment),
      (isIncentivizedTestnet environment), (isTestnet environment),
      (isShelleyTestnet environment), (isSelfnode environment);
    discriminate.
  intros H. exists address_style, network_tag. split; [reflexivity |].
  assert (Hstyles : forall tags,
            existsb (String.eqb address_style) ["Byron"; "Icarus"; "Shelley"]
            && tags = true ->
            In address_style ["Byron"; "Icarus"; "Shelley"]
            /\ address_style <> "Jormungandr").
  { intros tags Hs. apply andb_true_iff in Hs as [Hs _].
    apply existsb_exists in Hs as (x & Hin & Hx).
    apply String.eqb_eq in Hx. subst x. split; [exact Hin |].
    intros ->. cbn in Hin. destruct Hin as [Hin | [Hin | [Hin | []]]];
      discriminate Hin. }
  assert (Hitn : forall tags,
            existsb (String.eqb address_style) ["Jormungandr"] && tags = true ->
            address_style = "Jormungandr").
  { intros tags Hs. apply andb_true_iff in Hs as [Hs _]. cbn in Hs.
    rewrite orb_false_r in Hs. now apply String.eqb_eq. }
  destruct (isMainnet environment), (isStaging environment),
    (isIncentivizedTestnet environment), (isTestnet environment),
    (isShelleyTestnet environment), (isSelfnode environment);
    cbn [snd fst] in H; try discriminate H;
    injection H as H;
    first
      [ apply Hitn in H; subst address_style;
        split; [cbn; tauto | split; [intros _; repeat split | reflexivity]]
      | apply Hstyles in H; destruct H as [Hin Hnot];
        split; [cbn in Hin |- *; tauto |];
        split; [intros Hj; now destruct (Hnot Hj) |];
        intros (H1 & H2 & H3); discriminate ].
Qed.

(** X26.  [isAddressFromSameWallet] tells whether the address that was
    validated last is one of the wallet: when the channel leaves the flag as
    it is, the flag is true after [isValidAddress] exactly if the
    environment is one of the six, the channel introspected the address,
    and the address is among the addresses of the wallet; so it is reset by
    the validation of an address that is invalid. *)
Theorem isValidAddress_sets_isAddressFromSameWallet (address : string)
    (st : Store) :
  (forall address st,
      isAddressFromSameWallet (snd (send address st))
      = isAddressFromSameWallet st) ->
  isAddressFromSameWallet (fst (isValidAddress MAINNET_MAGIC STAGING_MAGIC ITN_MAGIC TESTNET_MAGIC
          SHELLEY_TESTNET_NETWORK_ID SELFNODE_MAGIC environment
          walletAddresses send address st)) = true
  <-> (exists expected, expectedNetwork MAINNET_MAGIC STAGING_MAGIC ITN_MAGIC
                          TESTNET_MAGIC SHELLEY_TESTNET_NETWORK_ID
                          SELFNODE_MAGIC environment = Some expected)
      /\ (exists address_style network_tag,
            fst (send address (withIsAddressFromSameWallet false st))
            = Fulfilled (Introspection address_style network_tag))
      /\ In address walletAddresses.
Proof.
  intros Hleaves. unfold isValidAddress.
  destruct (expectedNetwork _ _ _ _ _ _ environment) as [[tag styles] |].
  - pose proof (Hleaves address (withIsAddressFromSameWallet false st)) as Hflag.
    destruct (send address (withIsAddressFromSameWallet false st))
      as [[[| address_style network_tag] | e] st'];
      cbn [fst snd] in *.
    + rewrite Hflag. cbn. split; [discriminate |].
      intros (_ & (s & n & H) & _). discriminate H.
    + cbn [isAddressFromSameWallet withIsAddressFromSameWallet].
      rewrite filter_length_In. split.
      * intros Hin. split; [now eexists |]. split; [now eexists; eexists |].
        exact Hin.
      * now intros (_ & _ & Hin).
    + rewrite Hflag. cbn. split; [discriminate |].
      intros (_ & (s & n & H) & _). discriminate H.
  - cbn. split; [discriminate |]. intros ([expected H] & _). discriminate H.
Qed.

End AddressValidationFacts.

(** On mainnet, with the tags [[1, null]]: a Shelley address of the network
    is valid. *)
Lemma isValidAddress_true_witness :
  let environment :=
    {| WalletsStore.isMainnet := true;
       WalletsStore.isStaging := false;
       WalletsStore.isIncentivizedTestnet := false;
       WalletsStore.isTestnet := false;
       WalletsStore.isShelleyTestnet := false;
       WalletsStore.isSelfnode := false |} in
  let send (_ : string) (st : WalletsStore.Store) :=
    (WalletsStore.Fulfilled (WalletsStore.Introspection "Shelley" (WalletsStore.TagInteger 1)),
     st) in
  exists address_style network_tag,
    fst (send "addr1"
           (WalletsStore.withIsAddressFromSameWallet false
              (Sample.store "/wallets/2/send" Sample.notExecuted)))
    = WalletsStore.Fulfilled
        (WalletsStore.Introspection address_style network_tag)
    /\ In address_style ["Byron"; "Icarus"; "Shelley"; "Jormungandr"]
    /\ (address_style = "Jormungandr"
        <-> WalletsStore.isMainnet environment = false
            /\ WalletsStore.isStaging environment = false
            /\ WalletsStore.isIncentivizedTestnet environment = true).
Proof.
  apply (isValidAddress_true
           (WalletsStore.TagArray
              [WalletsStore.TagInteger 1; WalletsStore.TagNull])
           (WalletsStore.TagNumber (WalletsStore.TagInteger 633343913))
           (WalletsStore.TagNumber (WalletsStore.TagInteger 0))
           (WalletsStore.TagNumber (WalletsStore.TagInteger 1097911063))
           (WalletsStore.TagNumber (WalletsStore.TagInteger 0))
           (WalletsStore.TagNumber (WalletsStore.TagInteger 1))
           {| WalletsStore.isMainnet := true;
              WalletsStore.isStaging := false;
              WalletsStore.isIncentivizedTestnet := false;
              WalletsStore.isTestnet := false;
              WalletsStore.isShelleyTestnet := false;
              WalletsStore.isSelfnode := false |}
           ["addr1"]
           (fun _ st =>
              (WalletsStore.Fulfilled
                 (WalletsStore.Introspection "Shelley" (WalletsStore.TagInteger 1)), st))
           "addr1" (Sample.store "/wallets/2/send" Sample.notExecuted)
           eq_refl).
Defined.

(** The address is one of the wallet: the flag is set. *)
Lemma isValidAddress_sets_isAddressFromSameWallet_witness :
  WalletsStore.isAddressFromSameWallet
    (fst (WalletsStore.isValidAddress
            (WalletsStore.TagArray
              [WalletsStore.TagInteger 1; WalletsStore.TagNull])
            (WalletsStore.TagNumber (WalletsStore.TagInteger 633343913))
            (WalletsStore.TagNumber (WalletsStore.TagInteger 0))
            (WalletsStore.TagNumber (WalletsStore.TagInteger 1097911063))
            (WalletsStore.TagNumber (WalletsStore.TagInteger 0))
            (WalletsStore.TagNumber (WalletsStore.TagInteger 1))
            {| WalletsStore.isMainnet := true;
               WalletsStore.isStaging := false;
               WalletsStore.isIncentivizedTestnet := false;
               WalletsStore.isTestnet := false;
               WalletsStore.isShelleyTestnet := false;
               WalletsStore.isSelfnode := false |}
            ["addr0"; "addr1"]
            (fun _ st =>
               (WalletsStore.Fulfilled
                  (WalletsStore.Introspection "Shelley" (WalletsStore.TagInteger 1)), st))
            "addr1" (Sample.store "/wallets/2/send" Sample.notExecuted)))
  = true.
Proof.
  apply (proj2 (isValidAddress_sets_isAddressFromSameWallet
                  (WalletsStore.TagArray
              [WalletsStore.TagInteger 1; WalletsStore.TagNull])
                  (WalletsStore.TagNumber (WalletsStore.TagInteger 633343913))
                  (WalletsStore.TagNumber (WalletsStore.TagInteger 0))
                  (WalletsStore.TagNumber (WalletsStore.TagInteger 1097911063))
                  (WalletsStore.TagNumber (WalletsStore.TagInteger 0))
                  (WalletsStore.TagNumber (WalletsStore.TagInteger 1))
                  {| WalletsStore.isMainnet := true;
                     WalletsStore.isStaging := false;
                     WalletsStore.isIncentivizedTestnet := false;
                     WalletsStore.isTestnet := false;
                     WalletsStore.isShelleyTestnet := false;
                     WalletsStore.isSelfnode := false |}
                  ["addr0"; "addr1"]
                  (fun _ st =>
                     (WalletsStore.Fulfilled
                        (WalletsStore.Introspection "Shelley" (WalletsStore.TagInteger 1)), st))
                  "addr1" (Sample.store "/wallets/2/send" Sample.notExecuted)
                  (fun _ _ => eq_refl))).
  split; [eexists; reflexivity |].
  split; [eexists; eexists; reflexivity |].
  right. left. reflexivity.
Defined.
